(** * easyjailbreak.datasets.instance: the [Instance] record

    A shallow embedding of [src/easyjailbreak/datasets/instance.py].

    Python objects live in a store ([heap]); lists, dicts and [Instance]
    objects are reached through locations, so that aliasing between a
    record and its clone is visible.  Every method of the class becomes a
    function that takes the store and returns the new store together with
    its result, or the exception it raises. *)

From Stdlib Require Import ZArith Lia Ascii String DecimalString List.
From stdpp Require Import base list.
Import ListNotations.

Local Open Scope string_scope.
Local Open Scope list_scope.
Local Open Scope Z_scope.

(** ** hashlib.md5

    [_generate_id] calls [hashlib.md5(content.encode()).hexdigest()].  The
    digest is RFC 1321 on the bytes of the string; a Rocq [string] is read
    as the UTF-8 encoding of the Python [str], so [encode] is the list of
    its character codes. *)
Module MD5.

Definition mask32 (x : Z) : Z := Z.land x 0xffffffff.

Definition rotl32 (x : Z) (c : Z) : Z :=
  mask32 (Z.lor (Z.shiftl x c) (Z.shiftr (mask32 x) (32 - c))).

Definition not32 (x : Z) : Z := Z.lxor (mask32 x) 0xffffffff.

Definition shifts : list Z :=
  [7; 12; 17; 22; 7; 12; 17; 22; 7; 12; 17; 22; 7; 12; 17; 22;
   5; 9; 14; 20; 5; 9; 14; 20; 5; 9; 14; 20; 5; 9; 14; 20;
   4; 11; 16; 23; 4; 11; 16; 23; 4; 11; 16; 23; 4; 11; 16; 23;
   6; 10; 15; 21; 6; 10; 15; 21; 6; 10; 15; 21; 6; 10; 15; 21].

Definition sines : list Z :=
  [0xd76aa478; 0xe8c7b756; 0x242070db; 0xc1bdceee;
   0xf57c0faf; 0x4787c62a; 0xa8304613; 0xfd469501;
   0x698098d8; 0x8b44f7af; 0xffff5bb1; 0x895cd7be;
   0x6b901122; 0xfd987193; 0xa679438e; 0x49b40821;
   0xf61e2562; 0xc040b340; 0x265e5a51; 0xe9b6c7aa;
   0xd62f105d; 0x02441453; 0xd8a1e681; 0xe7d3fbc8;
   0x21e1cde6; 0xc33707d6; 0xf4d50d87; 0x455a14ed;
   0xa9e3e905; 0xfcefa3f8; 0x676f02d9; 0x8d2a4c8a;
   0xfffa3942; 0x8771f681; 0x6d9d6122; 0xfde5380c;
   0xa4beea44; 0x4bdecfa9; 0xf6bb4b60; 0xbebfbc70;
   0x289b7ec6; 0xeaa127fa; 0xd4ef3085; 0x04881d05;
   0xd9d4d039; 0xe6db99e5; 0x1fa27cf8; 0xc4ac5665;
   0xf4292244; 0x432aff97; 0xab9423a7; 0xfc93a039;
   0x655b59c3; 0x8f0ccc92; 0xffeff47d; 0x85845dd1;
   0x6fa87e4f; 0xfe2ce6e0; 0xa3014314; 0x4e0811a1;
   0xf7537e82; 0xbd3af235; 0x2ad7d2bb; 0xeb86d391].

Record state := St { sa : Z; sb : Z; sc : Z; sd : Z }.

Definition init_state : state :=
  St 0x67452301 0xefcdab89 0x98badcfe 0x10325476.

(** One of the 64 operations of a block: [i] is the operation's index and
    [m] the sixteen message words. *)
Definition step (m : list Z) (s : state) (i : nat) : state :=
  let '(St a b c d) := s in
  let iz := Z.of_nat i in
  let '(f, g) :=
    if iz <? 16 then (Z.lor (Z.land b c) (Z.land (not32 b) d), iz)
    else if iz <? 32 then
      (Z.lor (Z.land d b) (Z.land (not32 d) c), (5 * iz + 1) mod 16)
    else if iz <? 48 then (Z.lxor b (Z.lxor c d), (3 * iz + 5) mod 16)
    else (Z.lxor c (Z.lor b (not32 d)), (7 * iz) mod 16) in
  let f' := mask32 (f + a + nth i sines 0 + nth (Z.to_nat g) m 0) in
  St d (mask32 (b + rotl32 f' (nth i shifts 0))) b c.

(** Little-endian 32-bit word of four bytes. *)
Definition word_of_bytes (bs : list Z) : Z :=
  nth 0 bs 0 + Z.shiftl (nth 1 bs 0) 8
  + Z.shiftl (nth 2 bs 0) 16 + Z.shiftl (nth 3 bs 0) 24.

Definition words_of_block (blk : list Z) : list Z :=
  map (fun k => word_of_bytes (firstn 4 (skipn (4 * k) blk))) (seq 0 16).

Definition block (s : state) (blk : list Z) : state :=
  let s' := fold_left (step (words_of_block blk)) (seq 0 64) s in
  St (mask32 (sa s + sa s')) (mask32 (sb s + sb s'))
     (mask32 (sc s + sc s')) (mask32 (sd s + sd s')).

(** The padded message is consumed 64 bytes at a time; [n] bounds the
    number of blocks. *)
Fixpoint blocks (n : nat) (s : state) (bs : list Z) : state :=
  match n, bs with
  | S n', _ :: _ => blocks n' (block s (firstn 64 bs)) (skipn 64 bs)
  | _, _ => s
  end.

Definition bytes_le (n : nat) (x : Z) : list Z :=
  map (fun k => Z.land (Z.shiftr x (8 * Z.of_nat k)) 0xff) (seq 0 n).

Definition pad (msg : list Z) : list Z :=
  let len := Z.of_nat (List.length msg) in
  let zeros := Z.to_nat ((55 - len) mod 64) in
  msg ++ [0x80] ++ repeat 0 zeros ++ bytes_le 8 (Z.land (8 * len) 0xffffffffffffffff).

Definition digest (msg : list Z) : list Z :=
  let p := pad msg in
  let '(St a b c d) := blocks (List.length p) init_state p in
  bytes_le 4 a ++ bytes_le 4 b ++ bytes_le 4 c ++ bytes_le 4 d.

Definition hexdigit (x : Z) : ascii :=
  nth (Z.to_nat x) (list_ascii_of_string "0123456789abcdef") "0"%char.

Fixpoint hex (bs : list Z) : string :=
  match bs with
  | [] => ""
  | b :: bs' =>
    String (hexdigit (Z.shiftr b 4)) (String (hexdigit (Z.land b 15)) (hex bs'))
  end.

(** [str.encode()]. *)
Definition encode (s : string) : list Z :=
  map (fun c => Z.of_N (N_of_ascii c)) (list_ascii_of_string s).

(** [hashlib.md5(s.encode()).hexdigest()]. *)
Definition hexdigest (s : string) : string := hex (digest (encode s)).

End MD5.

(** ** Python values and the object store *)

Abbreviation loc := nat (only parsing).

(** What a field can hold.  Lists, dicts and [Instance] objects are
    mutable and are held by reference. *)
Inductive value :=
| VNone
| VBool (b : bool)
| VInt (z : Z)
| VStr (s : string)
| VRef (l : loc).

(** A [dict] with [str] keys, in insertion order. *)
Definition dict := list (string * value).

(** The objects of the store.  An [Instance] has one entry in its own
    [__dict__], named [_data] ([__setattr__] sends every other name to the
    mapping [_data] is bound to); [OInst None] is an [Instance] on which
    [_data] is not bound yet. *)
Inductive obj :=
| OList (xs : list value)
| ODict (kvs : dict)
| OInst (data : option value).

Abbreviation heap := (list obj) (only parsing).

Inductive exn := AttributeError | KeyError | TypeError.

#[global] Instance exn_eq_dec : EqDecision exn.
Proof. solve_decision. Defined.

(** The outcome of a call: a result and the store it leaves, a Python
    exception and the store at the point where it was raised, or [Undef]
    where the call leaves what is modelled (a location that is not
    allocated, a [_data] that was rebound to something that is not a dict,
    the text of a container in an f-string, a method of another object). *)
Inductive result (A : Type) :=
| Ok (a : A) (h : heap)
| Raise (e : exn) (h : heap)
| Undef.
Arguments Ok {A} a h.
Arguments Raise {A} e h.
Arguments Undef {A}.

(** Calls thread the store. *)
Definition M (A : Type) := heap -> result A.

Definition ret {A} (a : A) : M A := fun h => Ok a h.
Definition raise {A} (e : exn) : M A := fun h => Raise e h.
Definition undef {A} : M A := fun _ => Undef.
Definition bind {A B} (c : M A) (k : A -> M B) : M B :=
  fun h => match c h with
           | Ok a h' => k a h'
           | Raise e h' => Raise e h'
           | Undef => Undef
           end.

Notation "'do' x <- c ; k" := (bind c (fun x => k))
  (at level 10, x pattern, c at level 100, k at level 200).
Notation "c ;; k" := (bind c (fun _ => k))
  (at level 100, k at level 200, right associativity).

(** [try: c except e: handler]. *)
Definition try_except {A} (c : M A) (e : exn) (handler : M A) : M A :=
  fun h => match c h with
           | Raise e' h' => if decide (e' = e) then handler h' else Raise e' h'
           | r => r
           end.

Definition alloc (o : obj) : M loc :=
  fun h => Ok (List.length h) (h ++ [o])%list.
Definition load (l : loc) : M obj :=
  fun h => match h !! l with Some o => Ok o h | None => Undef end.
Definition store (l : loc) (o : obj) : M unit :=
  fun h => Ok tt (<[l := o]> h).

(** *** dict operations *)

Fixpoint dict_get (kvs : dict) (k : string) : option value :=
  match kvs with
  | [] => None
  | (k', v) :: kvs' => if String.eqb k' k then Some v else dict_get kvs' k
  end.

(** [d[k] = v]: an existing key keeps its place, a new one goes last. *)
Fixpoint dict_set (kvs : dict) (k : string) (v : value) : dict :=
  match kvs with
  | [] => [(k, v)]
  | (k', v') :: kvs' =>
    if String.eqb k' k then (k, v) :: kvs' else (k', v') :: dict_set kvs' k v
  end.

(** [del d[k]], once [k] is known to be a key. *)
Definition dict_del (kvs : dict) (k : string) : dict :=
  List.filter (fun kv => negb (String.eqb (fst kv) k)) kvs.

Definition dict_mem (kvs : dict) (k : string) : bool :=
  match dict_get kvs k with Some _ => true | None => false end.

(** [d.update(other)]. *)
Definition dict_update (kvs other : dict) : dict :=
  fold_left (fun d kv => dict_set d (fst kv) (snd kv)) other kvs.

Definition dict_keys (kvs : dict) : list string := map fst kvs.

(** ** The Python runtime the class relies on *)

(** Truth value of [v], as [x or y] tests it.  An [Instance] defines
    neither [__bool__] nor [__len__], so it is true. *)
Definition truthy (h : heap) (v : value) : bool :=
  match v with
  | VNone => false
  | VBool b => b
  | VInt z => negb (z =? 0)
  | VStr s => negb (String.eqb s "")
  | VRef l =>
    match h !! l with
    | Some (OList []) | Some (ODict []) => false
    | _ => true
    end
  end.

(** [v or <dflt>]: the right operand is evaluated only when [v] is false. *)
Definition or_else (v : value) (dflt : M value) : M value :=
  fun h => if truthy h v then Ok v h else dflt h.

(** The text of [v] in an f-string: [format(v, '')].  The text of a
    container depends on the store and, for objects, on addresses; it is
    left out. *)
Definition text_of (v : value) : option string :=
  match v with
  | VNone => Some "None"
  | VBool true => Some "True"
  | VBool false => Some "False"
  | VInt z => Some (NilZero.string_of_int (Z.to_int z))
  | VStr s => Some s
  | VRef _ => None
  end.

Definition py_format (v : value) : M string :=
  match text_of v with Some s => ret s | None => undef end.

(** [d[k]] on the object [d] is bound to. *)
Definition subscript (d : value) (k : string) : M value :=
  match d with
  | VRef dl =>
    do o <- load dl;
    match o with
    | ODict kvs =>
      match dict_get kvs k with Some v => ret v | None => raise KeyError end
    | _ => undef
    end
  | _ => undef
  end.

(** [d[k] = v]. *)
Definition subscript_set (d : value) (k : string) (v : value) : M unit :=
  match d with
  | VRef dl =>
    do o <- load dl;
    match o with
    | ODict kvs => store dl (ODict (dict_set kvs k v))
    | _ => undef
    end
  | _ => undef
  end.

(** [del d[k]]. *)
Definition subscript_del (d : value) (k : string) : M unit :=
  match d with
  | VRef dl =>
    do o <- load dl;
    match o with
    | ODict kvs =>
      if dict_mem kvs k then store dl (ODict (dict_del kvs k))
      else raise KeyError
    | _ => undef
    end
  | _ => undef
  end.

(** [d.pop(k, None)]. *)
Definition dict_pop (d : value) (k : string) : M value :=
  match d with
  | VRef dl =>
    do o <- load dl;
    match o with
    | ODict kvs =>
      match dict_get kvs k with
      | Some v => store dl (ODict (dict_del kvs k));; ret v
      | None => ret VNone
      end
    | _ => undef
    end
  | _ => undef
  end.

(** The mapping behind [d], with its location. *)
Definition as_dict (d : value) : M (loc * dict) :=
  match d with
  | VRef dl =>
    do o <- load dl;
    match o with ODict kvs => ret (dl, kvs) | _ => undef end
  | _ => undef
  end.

(** *** copy.deepcopy

    [memo] maps an object already met to its copy, which is what keeps
    shared and cyclic structures shared and cyclic in the copy.  A new
    object is entered in the memo before its contents are copied. *)
Definition memo := list (loc * loc).

Fixpoint memo_get (m : memo) (l : loc) : option loc :=
  match m with
  | [] => None
  | (x, y) :: m' => if Nat.eqb x l then Some y else memo_get m' l
  end.

Fixpoint deepcopy_items (cp : value -> memo -> M (value * memo))
    (xs : list value) (m : memo) : M (list value * memo) :=
  match xs with
  | [] => ret ([], m)
  | x :: xs' =>
    do (y, m1) <- cp x m;
    do (ys, m2) <- deepcopy_items cp xs' m1;
    ret (y :: ys, m2)
  end.

(** [n] bounds the depth of the descent. *)
Fixpoint deepcopy_rec (n : nat) (x : value) (m : memo) : M (value * memo) :=
  match x with
  | VRef l =>
    match memo_get m l with
    | Some y => ret (VRef y, m)
    | None =>
      match n with
      | O => undef
      | S n' =>
        do o <- load l;
        match o with
        | OList xs =>
          do y <- alloc (OList []);
          do (ys, m') <- deepcopy_items (deepcopy_rec n') xs ((l, y) :: m);
          store y (OList ys);;
          ret (VRef y, m')
        | ODict kvs =>
          do y <- alloc (ODict []);
          do (vs, m') <-
            deepcopy_items (deepcopy_rec n') (map snd kvs) ((l, y) :: m);
          store y (ODict (combine (map fst kvs) vs));;
          ret (VRef y, m')
        | OInst None =>
          do y <- alloc (OInst None);
          ret (VRef y, (l, y) :: m)
        | OInst (Some d) =>
          do y <- alloc (OInst None);
          do (d', m') <- deepcopy_rec n' d ((l, y) :: m);
          store y (OInst (Some d'));;
          ret (VRef y, m')
        end
      end
    end
  | _ => ret (x, m)
  end.

(** [copy.deepcopy(x)]: every object of the store can be entered once. *)
Definition deepcopy (x : value) : M value :=
  fun h =>
    match deepcopy_rec (List.length h) x [] h with
    | Ok (y, _) h' => Ok y h'
    | Raise e h' => Raise e h'
    | Undef => Undef
    end.

(** [len(v)]; the length of a [str] counts code points and is left out. *)
Definition py_len (v : value) : M Z :=
  match v with
  | VRef l =>
    do o <- load l;
    match o with
    | OList xs => ret (Z.of_nat (List.length xs))
    | ODict kvs => ret (Z.of_nat (List.length kvs))
    | OInst _ => raise TypeError
    end
  | VStr _ => undef
  | _ => raise TypeError
  end.

(** [0 + x1 + x2 + ...] on numbers; [bool] counts as [int]. *)
Fixpoint sum_from (acc : Z) (xs : list value) : M Z :=
  match xs with
  | [] => ret acc
  | VInt z :: xs' => sum_from (acc + z) xs'
  | VBool b :: xs' => sum_from (acc + Z.b2z b) xs'
  | _ :: _ => raise TypeError
  end.

(** [x.copy()] for a list or a dict: a new container with the same
    elements. *)
Definition copy_method (v : value) : M value :=
  match v with
  | VRef l =>
    do o <- load l;
    match o with
    | OList xs => do y <- alloc (OList xs); ret (VRef y)
    | ODict kvs => do y <- alloc (ODict kvs); ret (VRef y)
    | OInst _ => undef
    end
  | _ => raise AttributeError
  end.

(** [d.update(other)] for two dicts of the store. *)
Definition update_method (d other : value) : M unit :=
  do (dl, kvs) <- as_dict d;
  do (_, kvs') <- as_dict other;
  store dl (ODict (dict_update kvs kvs')).

Definition is_none (v : value) : bool :=
  match v with VNone => true | _ => false end.

(** ** class Instance *)

(** The result of [obj.name]: a value, or an attribute that the class
    provides (a bound method, [__class__], [__dict__], ...). *)
Inductive attr :=
| AValue (v : value)
| AMember (name : string).

(** Keyword arguments of the constructor; an argument left out is
    [VNone], its default. *)
Record init_args := Args {
  a_query : value;
  a_jailbreak_prompt : value;
  a_reference_responses : value;
  a_target_responses : value;
  a_eval_results : value;
  a_parents : value;
  a_children : value;
  a_attack_attrs : value;
  a_kwargs : dict
}.

Definition no_args : init_args :=
  Args VNone VNone VNone VNone VNone VNone VNone VNone [].

Module Instance.

(** Names that [obj.name] finds on the class (CPython 3.11) before
    [__getattr__] is tried, the three properties apart. *)
Definition class_members : list string :=
  [ "__init__"; "_generate_id"; "copy"; "delete"; "to_dict";
    "__getattr__"; "__setattr__"; "__getitem__"; "__setitem__"; "__str__";
    "keys"; "values"; "items"; "__iter__";
    "__module__"; "__dict__"; "__weakref__"; "__doc__"; "__class__";
    "__delattr__"; "__dir__"; "__eq__"; "__format__"; "__ge__";
    "__getattribute__"; "__getstate__"; "__gt__"; "__hash__";
    "__init_subclass__"; "__le__"; "__lt__"; "__ne__"; "__new__";
    "__reduce__"; "__reduce_ex__"; "__repr__"; "__sizeof__";
    "__subclasshook__" ].

Definition properties : list string :=
  [ "num_query"; "num_jailbreak"; "num_reject" ].

Definition is_member (name : string) : bool :=
  existsb (String.eqb name) class_members.

Definition __getattr__ (self : loc) (name : string) : M value :=
  do o <- load self;
  match o with
  | OInst (Some d) =>
    try_except (subscript d name) KeyError (raise AttributeError)
  | OInst None => raise AttributeError
  | _ => undef
  end.

(** [obj.name] for a name that is not a property: the class first, then
    the object's own [__dict__] (which holds [_data] only), then
    [__getattr__]. *)
Definition getattribute_plain (self : loc) (name : string) : M attr :=
  if is_member name then ret (AMember name)
  else
    do o <- load self;
    match o with
    | OInst (Some d) =>
      if String.eqb name "_data" then ret (AValue d)
      else do v <- __getattr__ self name; ret (AValue v)
    | OInst None => do v <- __getattr__ self name; ret (AValue v)
    | _ => undef
    end.

(** [self.name] where the method goes on with the value. *)
Definition self_get (self : loc) (name : string) : M value :=
  do a <- getattribute_plain self name;
  match a with AValue v => ret v | AMember _ => undef end.

Definition __setattr__ (self : loc) (name : string) (v : value) : M unit :=
  if String.eqb name "_data" then
    do o <- load self;
    match o with
    | OInst _ => store self (OInst (Some v))
    | _ => undef
    end
  else
    do d <- self_get self "_data";
    subscript_set d name v.

Definition __getitem__ (self : loc) (key : string) : M value :=
  __getattr__ self key.

Definition __setitem__ (self : loc) (key : string) (v : value) : M unit :=
  __setattr__ self key v.

Definition _generate_id (self : loc) : M value :=
  do q <- self_get self "query";
  do qs <- py_format q;
  do p <- self_get self "jailbreak_prompt";
  do ps <- py_format p;
  ret (VStr (MD5.hexdigest (qs ++ "|" ++ ps)%string)).

Definition default_attack_attrs : dict :=
  [("Mutation", VNone); ("query_class", VNone)].

Definition new_list : M value := do y <- alloc (OList []); ret (VRef y).

Definition __init__ (self : loc) (a : init_args) : M unit :=
  (do d <- alloc (ODict []); __setattr__ self "_data" (VRef d));;
  __setattr__ self "query" (a_query a);;
  __setattr__ self "jailbreak_prompt" (a_jailbreak_prompt a);;
  (do v <- or_else (a_reference_responses a) new_list;
   __setattr__ self "reference_responses" v);;
  (do v <- or_else (a_target_responses a) new_list;
   __setattr__ self "target_responses" v);;
  (do v <- or_else (a_eval_results a) new_list;
   __setattr__ self "eval_results" v);;
  (do v <- or_else (a_parents a) new_list;
   __setattr__ self "parents" v);;
  (do v <- or_else (a_children a) new_list;
   __setattr__ self "children" v);;
  __setattr__ self "index" VNone;;
  (do v <- or_else (a_attack_attrs a)
             (do y <- alloc (ODict default_attack_attrs); ret (VRef y));
   __setattr__ self "attack_attrs" v);;
  (do d <- self_get self "_data";
   do (dl, kvs) <- as_dict d;
   store dl (ODict (dict_update kvs (a_kwargs a))));;
  (do i <- _generate_id self; __setattr__ self "id" i).

(** [Instance(...)]: a new object, then [__init__] on it. *)
Definition new (a : init_args) : M loc :=
  do self <- alloc (OInst None);
  __init__ self a;;
  ret self.

Definition keys (self : loc) : M (list string) :=
  do d <- self_get self "_data";
  do (_, kvs) <- as_dict d;
  ret (dict_keys kvs).

Definition values (self : loc) : M (list value) :=
  do d <- self_get self "_data";
  do (_, kvs) <- as_dict d;
  ret (map snd kvs).

Definition items (self : loc) : M dict :=
  do d <- self_get self "_data";
  do (_, kvs) <- as_dict d;
  ret kvs.

Definition __iter__ (self : loc) : M (list string) := keys self.

(** The elements that [for i in v] goes through; the characters of a
    [str] are left out. *)
Definition py_iter (v : value) : M (list value) :=
  match v with
  | VRef l =>
    do o <- load l;
    match o with
    | OList xs => ret xs
    | ODict kvs => ret (map VStr (dict_keys kvs))
    | OInst _ => do ks <- __iter__ l; ret (map VStr ks)
    end
  | VStr _ => undef
  | _ => raise TypeError
  end.

(** [sum(v)]. *)
Definition py_sum (v : value) : M Z :=
  do xs <- py_iter v; sum_from 0 xs.

(** [[i for i in v]]. *)
Definition list_of (v : value) : M value :=
  do xs <- py_iter v;
  do y <- alloc (OList xs);
  ret (VRef y).

Definition copy (self : loc) : M loc :=
  do query <- self_get self "query";
  do jailbreak_prompt <- self_get self "jailbreak_prompt";
  do reference_responses <-
    (do v <- self_get self "reference_responses"; copy_method v);
  do target_responses <-
    (do v <- self_get self "target_responses"; copy_method v);
  do eval_results <- (do v <- self_get self "eval_results"; copy_method v);
  do parents <- (do v <- self_get self "parents"; list_of v);
  do children <- (do v <- self_get self "children"; list_of v);
  do attack_attrs <- (do v <- self_get self "attack_attrs"; deepcopy v);
  do new_Instance <-
    new (Args query jailbreak_prompt reference_responses target_responses
           eval_results parents children attack_attrs []);
  do rest_data <-
    (do d <- self_get self "_data";
     do (_, kvs) <- as_dict d;
     do d' <- self_get new_Instance "_data";
     do (_, kvs') <- as_dict d';
     do y <- alloc (ODict (List.filter
                            (fun kv => negb (dict_mem kvs' (fst kv))) kvs));
     ret (VRef y));
  (do d' <- self_get new_Instance "_data";
   do c <- deepcopy rest_data;
   update_method d' c);;
  ret new_Instance.

Fixpoint delete (self : loc) (keys : list string) : M unit :=
  match keys with
  | [] => ret tt
  | key :: keys' =>
    (do d <- self_get self "_data"; subscript_del d key);;
    delete self keys'
  end.

Definition to_dict (self : loc) : M value :=
  do temp_parents <- (do d <- self_get self "_data"; dict_pop d "parents");
  do temp_children <- (do d <- self_get self "_data"; dict_pop d "children");
  do temp_return <- (do d <- self_get self "_data"; deepcopy d);
  (if is_none temp_parents then ret tt
   else do d <- self_get self "_data"; subscript_set d "parents" temp_parents);;
  (if is_none temp_children then ret tt
   else do d <- self_get self "_data";
        subscript_set d "children" temp_children);;
  ret temp_return.

Definition num_query (self : loc) : M Z :=
  do v <- self_get self "target_responses"; py_len v.

Definition num_jailbreak (self : loc) : M Z :=
  do v <- self_get self "eval_results"; py_sum v.

Definition num_reject (self : loc) : M Z :=
  do n <- (do v <- self_get self "eval_results"; py_len v);
  do s <- (do v <- self_get self "eval_results"; py_sum v);
  ret (n - s).

(** [obj.name], attribute-style read.  A property runs its getter; when
    the getter raises [AttributeError], [__getattr__] is tried, as for a
    name the class does not have. *)
Definition getattribute (self : loc) (name : string) : M attr :=
  let prop (getter : M Z) :=
    try_except (do z <- getter; ret (AValue (VInt z))) AttributeError
      (do v <- __getattr__ self name; ret (AValue v)) in
  if String.eqb name "num_query" then prop (num_query self)
  else if String.eqb name "num_jailbreak" then prop (num_jailbreak self)
  else if String.eqb name "num_reject" then prop (num_reject self)
  else getattribute_plain self name.

End Instance.

(** ** Vocabulary of the statements *)

(** [r] is an [Instance] whose [_data] is the dict at [dl], with entries
    [kvs]. *)
Definition is_record (h : heap) (r dl : loc) (kvs : dict) : Prop :=
  h !! r = Some (OInst (Some (VRef dl))) /\ h !! dl = Some (ODict kvs).

(** The named parameters of [__init__]; Python refuses a call that gives
    one of them a second time among the extra keyword arguments. *)
Definition named_params : list string :=
  [ "query"; "jailbreak_prompt"; "reference_responses"; "target_responses";
    "eval_results"; "parents"; "children"; "attack_attrs" ].

Definition kwargs_ok (kw : dict) : bool :=
  forallb (fun k => negb (dict_mem kw k)) named_params.

(** A name that the class does not provide and that is not [_data]: a
    name [obj.name] hands to [__getattr__]. *)
Definition is_field_name (n : string) : bool :=
  negb (Instance.is_member n)
  && negb (existsb (String.eqb n) Instance.properties)
  && negb (String.eqb n "_data").

(** The five sequence fields. *)
Definition sequence_fields : list string :=
  [ "reference_responses"; "target_responses"; "eval_results";
    "parents"; "children" ].

(** The id that [_generate_id] gives to a query and a jailbreak prompt
    whose texts are [qs] and [ps]. *)
Definition id_of (qs ps : string) : value :=
  VStr (MD5.hexdigest (qs ++ "|" ++ ps)%string).

(** The two ways to write a field: [r.n = v] and [r[n] = v]. *)
Inductive style := ByAttr | ByKey.

Definition write (r : loc) (w : style * string * value) : M unit :=
  match w with
  | (ByAttr, n, v) => Instance.__setattr__ r n v
  | (ByKey, n, v) => Instance.__setitem__ r n v
  end.

(** A sequence of writes on one record. *)
Fixpoint writes (r : loc) (ws : list (style * string * value)) : M unit :=
  match ws with
  | [] => ret tt
  | w :: ws' => write r w;; writes r ws'
  end.

(** What [delete] leaves of a dict when every key of [ks] is removed. *)
Definition dict_del_all (kvs : dict) (ks : list string) : dict :=
  fold_left dict_del ks kvs.

(** *** Sample records, used to run the statements *)

Definition heap_of {A} (x : result A) : heap :=
  match x with Ok _ h | Raise _ h => h | Undef => [] end.

Definition fields_of (h : heap) (dl : loc) : dict :=
  match h !! dl with Some (ODict kvs) => kvs | _ => [] end.

(** [Instance(query='test', jailbreak_prompt='test_prompt', note=1, tag='x')]
    in an empty store: the record is at location 0, its [_data] at 1. *)
Definition demo_args : init_args :=
  Args (VStr "test") (VStr "test_prompt") VNone VNone VNone VNone VNone VNone
       [("note", VInt 1); ("tag", VStr "x")].

Definition demo_heap : heap := heap_of (Instance.new demo_args []).

Definition demo_fields : dict := fields_of demo_heap 1.

(** [sum] of a list of integers. *)
Definition sum_Z (zs : list Z) : Z := fold_right Z.add 0 zs.

(** [Instance(query='test', jailbreak_prompt='test_prompt')]. *)
Definition plain_args : init_args :=
  Args (VStr "test") (VStr "test_prompt") VNone VNone VNone VNone VNone VNone
       [].

(** The lists ['a', 'b'] and [1, 0], at locations 0 and 1, and
    [Instance(query='test', jailbreak_prompt='test_prompt',
    target_responses=['a', 'b'], eval_results=[1, 0])]. *)
Definition stats_lists : heap :=
  [OList [VStr "a"; VStr "b"]; OList [VInt 1; VInt 0]].

Definition stats_args : init_args :=
  Args (VStr "test") (VStr "test_prompt") VNone (VRef 0) (VRef 1) VNone VNone
       VNone [].

(** The three statistics of a record, read as attributes. *)
Definition read_statistics (r : loc) : M (attr * attr * attr) :=
  do q <- Instance.getattribute r "num_query";
  do j <- Instance.getattribute r "num_jailbreak";
  do n <- Instance.getattribute r "num_reject";
  ret (q, j, n).

(** *** The store while a record is built

    [Instance(...)] on the store [h] puts the new object at [length h] and
    its [_data] dict right after it; [tail] is what [__init__] allocates
    afterwards (the lists and the dict that stand for arguments left
    out). *)
Definition record_at (h : heap) (kvs : dict) (tail : list obj) : heap :=
  h ++ OInst (Some (VRef (S (List.length h)))) :: ODict kvs :: tail.

(** [v] is what [arg or []] evaluated to: [arg] itself, or a new empty
    list when [arg] was false. *)
Definition defaulted (h : heap) (tail : list obj) (arg v : value) : Prop :=
  v = arg \/
  exists (hi : heap) (j : nat),
    h `prefix_of` hi /\ truthy hi arg = false /\
    v = VRef (List.length h + 2 + j)%nat /\ tail !! j = Some (OList []).

(** The fields of a record when [__init__] reaches the computation of the
    id; [v1] to [v5] are the five sequences and [v6] is [attack_attrs]. *)
Definition init_fields (a : init_args) (v1 v2 v3 v4 v5 v6 : value) : dict :=
  dict_update
    [ ("query", a_query a); ("jailbreak_prompt", a_jailbreak_prompt a);
      ("reference_responses", v1); ("target_responses", v2);
      ("eval_results", v3); ("parents", v4); ("children", v5);
      ("index", VNone); ("attack_attrs", v6) ]
    (a_kwargs a).

(** A lower-case hexadecimal digit. *)
Definition is_hex_digit (c : ascii) : Prop :=
  In c (list_ascii_of_string "0123456789abcdef").

(** The name a write is made to. *)
Definition write_name (w : style * string * value) : string := snd (fst w).

(** [v'] is a copy of the sequence [v] made between the stores [h] and
    [h']: an object that [h] does not have, with the elements of [v] when
    [v] is a list. *)
Definition copied_seq (h h' : heap) (v v' : value) : Prop :=
  exists l l' : loc,
    v = VRef l /\ v' = VRef l' /\ (List.length h <= l')%nat /\
    forall xs, h !! l = Some (OList xs) -> h' !! l' = Some (OList xs).

(** An in-place change of the list [v] refers to: [append], [remove],
    [l[i] = x] and the like, [g] being what it does to the elements. *)
Definition list_mutate (v : value) (g : list value -> list value) : M unit :=
  match v with
  | VRef l =>
    do o <- load l;
    match o with
    | OList xs => store l (OList (g xs))
    | _ => raise AttributeError
    end
  | _ => raise AttributeError
  end.

(** A record with a parent, a response and an index: the sample record
    [demo_args] at 0, then
    [Instance(query='test', jailbreak_prompt='test_prompt')] at 8, with
    [parents.append(<record 0>)], [target_responses.append('yes')] and
    [index = 7]. *)
Definition family_heap : heap :=
  heap_of
    ((do child <- Instance.new plain_args;
      (do ps <- Instance.__getitem__ child "parents";
       list_mutate ps (fun xs => xs ++ [VRef 0]));;
      (do ts <- Instance.__getitem__ child "target_responses";
       list_mutate ts (fun xs => xs ++ [VStr "yes"]));;
      Instance.__setattr__ child "index" (VInt 7)) demo_heap).

Definition family_child : loc := 8.

Definition family_fields : dict := fields_of family_heap 9.

(** What [to_dict] leaves in [_data]: the entries other than the lineage,
    then [parents] and [children] again when what [pop] returned for them
    is not [None]. *)
Definition without_lineage (kvs : dict) : dict :=
  dict_del (dict_del kvs "parents") "children".

Definition popped (kvs : dict) (k : string) : value :=
  match dict_get kvs k with Some v => v | None => VNone end.

Definition restored (kvs : dict) (k : string) (temp : value) : dict :=
  if is_none temp then kvs else dict_set kvs k temp.

Definition after_to_dict (kvs : dict) : dict :=
  restored (restored (without_lineage kvs) "parents" (popped kvs "parents"))
           "children" (popped kvs "children").

(** [r = Instance(query='test', jailbreak_prompt='test_prompt');
    r.parents = None], then the field names before and after
    [r.to_dict()], and the keys of the mapping returned. *)
Definition none_parents_run : M (list string * list string * list string) :=
  do r <- Instance.new plain_args;
  Instance.__setattr__ r "parents" VNone;;
  do before <- Instance.keys r;
  do d <- Instance.to_dict r;
  do (_, snapshot) <- as_dict d;
  do after <- Instance.keys r;
  ret (before, after, dict_keys snapshot).

(** *** Stores without dangling references

    A Python store never holds a reference to an object that does not
    exist: [closed h] says so of [h]. *)
Definition value_ok (n : nat) (v : value) : Prop :=
  match v with VRef l => (l < n)%nat | _ => True end.

Definition obj_ok (n : nat) (o : obj) : Prop :=
  match o with
  | OList xs => Forall (value_ok n) xs
  | ODict kvs => Forall (value_ok n) (map snd kvs)
  | OInst (Some d) => value_ok n d
  | OInst None => True
  end.

Definition closed (h : heap) : Prop := Forall (obj_ok (List.length h)) h.

(** The copies recorded in a memo exist. *)
Definition memo_ok (h : heap) (m : memo) : Prop :=
  forall l y, memo_get m l = Some y -> (y < List.length h)%nat.

(** [m'] records what [m] records, and maybe more. *)
Definition memo_ext (m m' : memo) : Prop :=
  forall l y, memo_get m l = Some y -> memo_get m' l = Some y.

Definition not_in_memo (m : memo) (l : loc) : bool :=
  match memo_get m l with None => true | Some _ => false end.

(** How many objects of [h0] are not in the memo yet: what bounds the
    depth of [deepcopy_rec]. *)
Definition unmemo (h0 : heap) (m : memo) : nat :=
  List.length (List.filter (not_in_memo m) (seq 0 (List.length h0))).

(** [cp] copies every value of [h0] whenever at most [k] objects of [h0]
    are not in the memo: it returns, and it keeps the store closed, the
    memo sound and the objects it was given. *)
Definition copies_well (h0 : heap) (k : nat)
    (cp : value -> memo -> M (value * memo)) : Prop :=
  forall (x : value) (m : memo) (hc : heap),
    h0 `prefix_of` hc -> closed hc -> memo_ok hc m ->
    value_ok (List.length h0) x -> (unmemo h0 m <= k)%nat ->
    exists (y : value) (m' : memo) (hc' : heap),
      cp x m hc = Ok (y, m') hc' /\
      hc `prefix_of` hc' /\ closed hc' /\ memo_ok hc' m' /\
      memo_ext m m' /\ value_ok (List.length hc') y.

(** A record that [copy] can be called on: its store is closed, its query
    and jailbreak prompt have a text (they are not containers), its five
    sequences are lists and it has its [attack_attrs]. *)
Definition copy_ready (h : heap) (kvs : dict) : Prop :=
  closed h /\
  (exists q qs, dict_get kvs "query" = Some q /\ text_of q = Some qs) /\
  (exists p ps, dict_get kvs "jailbreak_prompt" = Some p /\
                text_of p = Some ps) /\
  (forall f, In f sequence_fields ->
     exists l xs, dict_get kvs f = Some (VRef l) /\
                  h !! l = Some (OList xs)) /\
  (exists v, dict_get kvs "attack_attrs" = Some v).

(** The fields [__init__] assigns before the extra keyword arguments, in
    the order it assigns them. *)
Definition fixed_fields : list string :=
  [ "query"; "jailbreak_prompt"; "reference_responses"; "target_responses";
    "eval_results"; "parents"; "children"; "index"; "attack_attrs" ].

(** [Instance(query='test', jailbreak_prompt='test_prompt', index=5,
    id='mine', note=1)]. *)
Definition override_args : init_args :=
  Args (VStr "test") (VStr "test_prompt") VNone VNone VNone VNone VNone VNone
       [("index", VInt 5); ("id", VStr "mine"); ("note", VInt 1)].

(** What [arg or <a new object o>] stores while the record on top of [h]
    is built, and what [__init__] has allocated after it: [arg] itself
    when it is true, else the new object, put after [tail]. *)
Definition init_choice (h : heap) (tail : list obj) (o : obj) (arg : value)
    : value * list obj :=
  if truthy h arg then (arg, tail)
  else (VRef (List.length h + 2 + List.length tail), tail ++ [o]).

(** The arguments of the five sequences, with the names of their fields. *)
Definition sequence_args (a : init_args) : list (string * value) :=
  [ ("reference_responses", a_reference_responses a);
    ("target_responses", a_target_responses a);
    ("eval_results", a_eval_results a);
    ("parents", a_parents a);
    ("children", a_children a) ].

(** The arguments refer to objects of the store. *)
Definition args_ok (h : heap) (a : init_args) : Prop :=
  Forall (fun fa => value_ok (List.length h) (snd fa)) (sequence_args a) /\
  value_ok (List.length h) (a_attack_attrs a).

(** The lists ['a'] and [], at locations 0 and 1, and
    [Instance(query='test', jailbreak_prompt='test_prompt',
    target_responses=<the first>, eval_results=<the second>)]. *)
Definition alias_lists : heap := [OList [VStr "a"]; OList []].

Definition alias_args : init_args :=
  Args (VStr "test") (VStr "test_prompt") VNone (VRef 0) (VRef 1) VNone VNone
       VNone [].

(** A record built from a query [None] and the number 7 as prompt, and
    one built from the strings the f-string gives for them. *)
Definition typed_args : init_args :=
  Args VNone (VInt 7) VNone VNone VNone VNone VNone VNone [].

Definition text_args : init_args :=
  Args (VStr "None") (VStr "7") VNone VNone VNone VNone VNone VNone [].

(** *** Evaluation results

    A flag is 1 or [True] (a jailbreak), 0 or [False] (a rejection); a
    number is what [sum] can add to an [int]. *)
Definition flag_set (v : value) : bool :=
  match v with VInt 1 | VBool true => true | _ => false end.

Definition flag_clear (v : value) : bool :=
  match v with VInt 0 | VBool false => true | _ => false end.

Definition is_flag (v : value) : bool := flag_set v || flag_clear v.

Definition is_number (v : value) : bool :=
  match v with VInt _ | VBool _ => true | _ => false end.

Definition count (p : value -> bool) (xs : list value) : Z :=
  Z.of_nat (List.length (List.filter p xs)).

(** The list [1, False, True, 0, 1] at location 0 and a record built with
    it as [eval_results]: the record is at 1, its [_data] at 2. *)
Definition flag_lists : heap :=
  [OList [VInt 1; VBool false; VBool true; VInt 0; VInt 1]].

Definition flag_args : init_args :=
  Args (VStr "q") (VStr "p") VNone VNone (VRef 0) VNone VNone VNone [].

Definition flag_heap : heap := heap_of (Instance.new flag_args flag_lists).

Definition flag_fields : dict := fields_of flag_heap 2.

(** The sample record after [r['num_reject'] = 9] and
    [r.delete('eval_results')]. *)
Definition shadow_heap : heap :=
  heap_of ((Instance.__setitem__ 0 "num_reject" (VInt 9);;
            Instance.delete 0 ["eval_results"]) demo_heap).

Definition shadow_fields : dict := fields_of shadow_heap 1.

(** A record whose [eval_results] is the list [1, 'yes'], at location 0:
    the record is at 1, its [_data] at 2. *)
Definition text_flag_lists : heap := [OList [VInt 1; VStr "yes"]].

Definition text_flag_heap : heap :=
  heap_of (Instance.new flag_args text_flag_lists).

Definition text_flag_fields : dict := fields_of text_flag_heap 2.

(** *** What a deep copy is

    [deepcopy] leaves a memo of the objects it has copied.  [rn m v] is
    the value that stands for [v] in the copy: [v] itself when it is no
    reference, the copy recorded in [m] otherwise.  [rn_obj m o] is [o]
    with every value renamed. *)
Definition rn (m : memo) (v : value) : value :=
  match v with
  | VRef l => match memo_get m l with Some l' => VRef l' | None => v end
  | _ => v
  end.

Definition rn_obj (m : memo) (o : obj) : obj :=
  match o with
  | OList xs => OList (map (rn m) xs)
  | ODict kvs => ODict (map (fun kv => (fst kv, rn m (snd kv))) kvs)
  | OInst (Some d) => OInst (Some (rn m d))
  | OInst None => OInst None
  end.

(** The memo has a copy for [v], and for every value of [o]. *)
Definition mapped (m : memo) (v : value) : Prop :=
  match v with VRef l => memo_get m l <> None | _ => True end.

Definition obj_mapped (m : memo) (o : obj) : Prop :=
  match o with
  | OList xs => Forall (mapped m) xs
  | ODict kvs => Forall (mapped m) (map snd kvs)
  | OInst (Some d) => mapped m d
  | OInst None => True
  end.

(** The copies that [m] records are objects at or above [n], and below
    the end of [h]; the objects copied are below [n]. *)
Definition memo_fresh (n : nat) (h : heap) (m : memo) : Prop :=
  forall l l', memo_get m l = Some l' ->
    (l < n)%nat /\ (n <= l')%nat /\ (l' < List.length h)%nat.

(** The copies entered in the memo between [m] and [m'] are complete in
    [h']: each is an object made after [k], whose content is the content
    of the object of [h0] it copies, renamed. *)
Definition copied (h0 : heap) (k : nat) (h' : heap) (m m' : memo) : Prop :=
  forall l l', memo_get m l = None -> memo_get m' l = Some l' ->
    (k <= l')%nat /\
    exists o, h0 !! l = Some o /\ h' !! l' = Some (rn_obj m' o) /\
              obj_mapped m' o.

(** No two objects have the same copy. *)
Definition memo_inj (m : memo) : Prop :=
  forall l1 l2 l', memo_get m l1 = Some l' -> memo_get m l2 = Some l' ->
    l1 = l2.

(** What a copying function has to do, on a store that extends [h0]. *)
Definition copies_iso (h0 : heap)
    (cp : value -> memo -> M (value * memo)) : Prop :=
  forall (x : value) (m : memo) (h : heap) (y : value) (m' : memo)
         (h' : heap),
    h0 `prefix_of` h -> value_ok (List.length h0) x ->
    memo_fresh (List.length h0) h m -> memo_inj m ->
    cp x m h = Ok (y, m') h' ->
    h `prefix_of` h' /\ memo_ext m m' /\
    memo_fresh (List.length h0) h' m' /\ memo_inj m' /\
    y = rn m' x /\ mapped m' x /\
    copied h0 (List.length h) h' m m'.

(** [m] maps objects of [h] to new objects of [h'] with the same content,
    renamed: [h'] holds a copy of the part of [h] that [m] covers. *)
Definition copy_map (h h' : heap) (m : memo) : Prop :=
  forall l l', (l < List.length h)%nat -> memo_get m l = Some l' ->
    (List.length h <= l')%nat /\
    exists o, h !! l = Some o /\ h' !! l' = Some (rn_obj m o) /\
              obj_mapped m o.

(** What [to_dict] puts back for a lineage field: nothing when [pop]
    gave [None]. *)
Definition put_back (k : string) (temp : value) : dict :=
  if is_none temp then [] else [(k, temp)].

(** [v] is no reference to an object: [None], a [bool], an [int] or a
    [str]. *)
Definition is_flat (v : value) : bool :=
  match v with VRef _ => false | _ => true end.

(** A name that the constructor does not set: not one of its nine fields
    and not [id]. *)
Definition is_extra (k : string) : bool :=
  negb (existsb (String.eqb k) (fixed_fields ++ ["id"])).

(** The list ['a'] and an empty dict, at locations 0 and 1, and the
    record [r = Instance(query='q', jailbreak_prompt='p', notes=<the
    list>, round=3)] after [r.attack_attrs = <the dict>]: the record is at
    2, its [_data] at 3. *)
Definition extras_lists : heap := [OList [VStr "a"]; ODict []].

Definition extras_heap : heap :=
  heap_of
    ((do r <- Instance.new
               (Args (VStr "q") (VStr "p") VNone VNone VNone VNone VNone
                  VNone [("notes", VRef 0); ("round", VInt 3)]);
      Instance.__setattr__ r "attack_attrs" (VRef 1)) extras_lists).

Definition extras_fields : dict := fields_of extras_heap 3.

(** The fields that [copy] reads, in the order it reads them, and what it
    needs of a field to go on to the next one: the field exists, and a
    sequence field is a list. *)
Definition copy_reads : list string :=
  ["query"; "jailbreak_prompt"] ++ sequence_fields ++ ["attack_attrs"].

Definition read_ok (h : heap) (kvs : dict) (g : string) : Prop :=
  exists v, dict_get kvs g = Some v /\
            (In g sequence_fields ->
             exists l xs, v = VRef l /\ h !! l = Some (OList xs)).

(** [child.parents.append(parent); parent.children.append(child)]. *)
Definition link (child parent : loc) : M unit :=
  (do ps <- Instance.self_get child "parents";
   list_mutate ps (fun xs => xs ++ [VRef parent]));;
  (do cs <- Instance.self_get parent "children";
   list_mutate cs (fun xs => xs ++ [VRef child])).

(** * Properties *)

(** ** Dicts *)

Lemma dict_get_set_eq (kvs : dict) (k : string) (v : value) :
  dict_get (dict_set kvs k v) k = Some v.
Proof.
  induction kvs as [|[k' v'] kvs IH]; simpl.
  - now rewrite String.eqb_refl.
  - destruct (String.eqb k' k) eqn:E; simpl.
    + now rewrite String.eqb_refl.
    + now rewrite E.
Qed.

Lemma dict_get_set_ne (kvs : dict) (k k' : string) (v : value) :
  k <> k' -> dict_get (dict_set kvs k v) k' = dict_get kvs k'.
Proof.
  intros Hne. apply String.eqb_neq in Hne.
  induction kvs as [|[k0 v0] kvs IH]; simpl.
  - now rewrite Hne.
  - destruct (String.eqb k0 k) eqn:E; simpl.
    + apply String.eqb_eq in E. subst k0. now rewrite Hne.
    + now rewrite IH.
Qed.

Lemma dict_get_del_eq (kvs : dict) (k : string) :
  dict_get (dict_del kvs k) k = None.
Proof.
  unfold dict_del.
  induction kvs as [|[k' v'] kvs IH]; simpl; [reflexivity|].
  destruct (String.eqb k' k) eqn:E; simpl; [assumption|].
  now rewrite E.
Qed.

Lemma dict_get_del_ne (kvs : dict) (k k' : string) :
  k <> k' -> dict_get (dict_del kvs k) k' = dict_get kvs k'.
Proof.
  intros Hne. unfold dict_del.
  induction kvs as [|[k0 v0] kvs IH]; simpl; [reflexivity|].
  destruct (String.eqb k0 k) eqn:E; simpl.
  - apply String.eqb_eq in E. subst k0.
    apply String.eqb_neq in Hne. now rewrite Hne.
  - now rewrite IH.
Qed.

Lemma dict_get_update (kvs other : dict) (k : string) :
  dict_get other k = None ->
  dict_get (dict_update kvs other) k = dict_get kvs k.
Proof.
  unfold dict_update. revert kvs.
  induction other as [|[k' v'] other IH]; intros kvs Hk; simpl in *.
  - reflexivity.
  - destruct (String.eqb k' k) eqn:E; [discriminate|].
    rewrite IH by assumption.
    apply dict_get_set_ne. now apply String.eqb_neq.
Qed.

Lemma dict_mem_get (kvs : dict) (k : string) :
  dict_mem kvs k = true <-> exists v, dict_get kvs k = Some v.
Proof.
  unfold dict_mem. destruct (dict_get kvs k); split; intros H.
  - now exists v.
  - reflexivity.
  - discriminate.
  - destruct H as [v H]. discriminate.
Qed.

Lemma dict_get_keys (kvs : dict) (k : string) :
  dict_get kvs k = None <-> ~ In k (dict_keys kvs).
Proof.
  induction kvs as [|[k' v'] kvs IH]; simpl.
  - tauto.
  - destruct (String.eqb k' k) eqn:E.
    + apply String.eqb_eq in E. split; [discriminate | tauto].
    + apply String.eqb_neq in E. rewrite IH. tauto.
Qed.

(** ** Stepping through a call *)

Lemma bind_ok {A B} (c : M A) (k : A -> M B) (h h' : heap) (a : A) :
  c h = Ok a h' -> bind c k h = k a h'.
Proof. unfold bind. now intros ->. Qed.

Lemma bind_raise {A B} (c : M A) (k : A -> M B) (h h' : heap) (e : exn) :
  c h = Raise e h' -> bind c k h = Raise e h'.
Proof. unfold bind. now intros ->. Qed.

Lemma bind_inv {A B} (c : M A) (k : A -> M B) (h h' : heap) (b : B) :
  bind c k h = Ok b h' ->
  exists a h1, c h = Ok a h1 /\ k a h1 = Ok b h'.
Proof.
  unfold bind. destruct (c h) as [a h1| |]; try discriminate.
  intros H. now exists a, h1.
Qed.

(** ** The store only grows *)

Lemma prefix_alloc (h0 h : heap) (o : obj) :
  h0 `prefix_of` h -> h0 `prefix_of` (h ++ [o]).
Proof. apply prefix_app_r. Qed.

Lemma prefix_store (h0 h : heap) (l : loc) (o : obj) :
  h0 `prefix_of` h -> (List.length h0 <= l)%nat -> h0 `prefix_of` <[l := o]> h.
Proof.
  intros [k ->] Hl. exists (<[(l - List.length h0)%nat := o]> k).
  now apply insert_app_r_alt.
Qed.

Lemma is_record_prefix (h h' : heap) (r dl : loc) (kvs : dict) :
  is_record h r dl kvs -> h `prefix_of` h' -> is_record h' r dl kvs.
Proof.
  intros [Hr Hd] Hp. split; eapply prefix_lookup_Some; eassumption.
Qed.

Lemma is_record_ne (h : heap) (r dl : loc) (kvs : dict) :
  is_record h r dl kvs -> r <> dl.
Proof. intros [Hr Hd] ->. congruence. Qed.

Lemma is_record_store (h : heap) (r dl : loc) (kvs kvs' : dict) :
  is_record h r dl kvs -> is_record (<[dl := ODict kvs']> h) r dl kvs'.
Proof.
  intros Hrec. pose proof (is_record_ne _ _ _ _ Hrec) as Hne.
  destruct Hrec as [Hr Hd]. split.
  - rewrite list_lookup_insert_ne by congruence. assumption.
  - apply list_lookup_insert_eq. eapply lookup_lt_Some. eassumption.
Qed.

Lemma is_record_inj (h : heap) (r dl dl' : loc) (kvs kvs' : dict) :
  is_record h r dl kvs -> is_record h r dl' kvs' -> dl = dl' /\ kvs = kvs'.
Proof.
  intros [Hr Hd] [Hr' Hd']. rewrite Hr in Hr'. injection Hr' as <-.
  rewrite Hd in Hd'. now injection Hd' as <-.
Qed.

(** ** Field access on a record *)

Section Access.
Context (h : heap) (r dl : loc) (kvs : dict).
Hypothesis Hrec : is_record h r dl kvs.

Lemma getattr_record (n : string) :
  Instance.__getattr__ r n h =
  match dict_get kvs n with
  | Some v => Ok v h
  | None => Raise AttributeError h
  end.
Proof using Hrec.
  destruct Hrec as [Hr Hd].
  unfold Instance.__getattr__, bind, load. rewrite Hr.
  unfold try_except, subscript, bind, load. rewrite Hd.
  now destruct (dict_get kvs n).
Qed.

Lemma self_get_data : Instance.self_get r "_data" h = Ok (VRef dl) h.
Proof using Hrec.
  destruct Hrec as [Hr Hd].
  unfold Instance.self_get, Instance.getattribute_plain.
  change (Instance.is_member "_data") with false. cbv iota.
  unfold bind, load. now rewrite Hr.
Qed.

Lemma self_get_field (n : string) :
  Instance.is_member n = false -> n <> "_data" ->
  Instance.self_get r n h = Instance.__getattr__ r n h.
Proof using Hrec.
  intros Hm Hn. apply String.eqb_neq in Hn.
  rewrite getattr_record. destruct Hrec as [Hr Hd].
  unfold Instance.self_get, Instance.getattribute_plain.
  rewrite Hm. unfold bind at 1 2. unfold load at 1. rewrite Hr, Hn.
  unfold bind. rewrite (getattr_record n).
  now destruct (dict_get kvs n).
Qed.

Lemma setattr_record (n : string) (v : value) :
  n <> "_data" ->
  Instance.__setattr__ r n v h = Ok tt (<[dl := ODict (dict_set kvs n v)]> h).
Proof using Hrec.
  intros Hn. apply String.eqb_neq in Hn.
  unfold Instance.__setattr__. rewrite Hn.
  rewrite (bind_ok _ _ _ _ _ self_get_data).
  destruct Hrec as [Hr Hd].
  unfold subscript_set, bind, load. now rewrite Hd.
Qed.

Lemma getattribute_field (n : string) :
  is_field_name n = true ->
  Instance.getattribute r n h =
  match dict_get kvs n with
  | Some v => Ok (AValue v) h
  | None => Raise AttributeError h
  end.
Proof using Hrec.
  unfold is_field_name. intros Hn.
  apply andb_prop in Hn as [Hn Hd]. apply andb_prop in Hn as [Hm Hp].
  apply negb_true_iff in Hm, Hp, Hd.
  simpl in Hp. apply orb_false_elim in Hp as [Hp1 Hp].
  apply orb_false_elim in Hp as [Hp2 Hp].
  apply orb_false_elim in Hp as [Hp3 _].
  unfold Instance.getattribute. rewrite Hp1, Hp2, Hp3.
  unfold Instance.getattribute_plain. rewrite Hm.
  destruct Hrec as [Hr Hd'].
  unfold bind at 1. unfold load at 1. rewrite Hr, Hd.
  unfold bind. rewrite (getattr_record n).
  now destruct (dict_get kvs n).
Qed.

Lemma delete_one (k : string) :
  Instance.delete r [k] h =
  if dict_mem kvs k then Ok tt (<[dl := ODict (dict_del kvs k)]> h)
  else Raise KeyError h.
Proof using Hrec.
  cbn [Instance.delete]. unfold bind. rewrite self_get_data.
  destruct Hrec as [Hr Hd].
  unfold subscript_del, bind, load. rewrite Hd.
  now destruct (dict_mem kvs k).
Qed.

End Access.

(** ** Deletion *)

Lemma delete_cons (h h1 : heap) (r : loc) (k : string) (ks : list string) :
  Instance.delete r [k] h = Ok tt h1 ->
  Instance.delete r (k :: ks) h = Instance.delete r ks h1.
Proof.
  intros H. cbn [Instance.delete] in *.
  apply bind_inv in H as (a & h2 & Hc & Hr).
  unfold ret in Hr. injection Hr as ->.
  now rewrite (bind_ok _ _ _ _ _ Hc).
Qed.

Lemma delete_prefix_ok (ks : list string) :
  forall (h : heap) (r dl : loc) (kvs : dict),
  is_record h r dl kvs ->
  forallb (dict_mem kvs) ks = true -> NoDup ks ->
  exists h1,
    Instance.delete r ks h = Ok tt h1 /\
    is_record h1 r dl (dict_del_all kvs ks).
Proof.
  induction ks as [|k ks IH]; intros h r dl kvs Hrec Hall Hnd.
  - exists h. now split.
  - simpl in Hall. apply andb_prop in Hall as [Hk Hall].
    apply NoDup_cons in Hnd as [Hnotin Hnd].
    pose proof (delete_one h r dl kvs Hrec k) as H1. rewrite Hk in H1.
    destruct (IH _ r dl (dict_del kvs k) (is_record_store _ _ _ _ _ Hrec))
      as (h1 & Hdel & Hrec1); [|assumption|].
    + apply forallb_forall. intros k' Hin.
      rewrite forallb_forall in Hall. specialize (Hall k' Hin).
      unfold dict_mem in *. rewrite dict_get_del_ne; [assumption|].
      intros ->. apply Hnotin. now apply list_elem_of_In.
    + exists h1. split; [|assumption].
      rewrite (delete_cons _ _ _ _ _ H1). assumption.
Qed.

Lemma dict_del_all_gone (ks : list string) (kvs : dict) (k : string) :
  In k ks -> dict_get (dict_del_all kvs ks) k = None.
Proof.
  unfold dict_del_all. revert kvs.
  induction ks as [|k0 ks IH]; intros kvs Hin; [destruct Hin|].
  simpl. destruct (in_dec string_dec k ks) as [Hin'|Hnotin].
  - now apply IH.
  - destruct Hin as [->|Hin]; [|contradiction].
    clear IH. generalize (dict_get_del_eq kvs k).
    generalize (dict_del kvs k). clear kvs.
    induction ks as [|k1 ks IH]; intros kvs Hk; simpl; [assumption|].
    apply IH.
    + intros Hin. apply Hnotin. now right.
    + rewrite dict_get_del_ne; [assumption|].
      intros ->. apply Hnotin. now left.
Qed.

Lemma delete_app (r : loc) (pre rest : list string) :
  forall h h1 : heap,
  Instance.delete r pre h = Ok tt h1 ->
  Instance.delete r (pre ++ rest) h = Instance.delete r rest h1.
Proof.
  induction pre as [|k pre IH]; intros h h1 H.
  - cbn in H. now injection H as ->.
  - cbn [Instance.delete app] in *.
    apply bind_inv in H as (a & h2 & Hc & H).
    rewrite (bind_ok _ _ _ _ _ Hc). now apply IH.
Qed.

Lemma bind_raise_inv {A B} (c : M A) (k : A -> M B) (h h' : heap) (e : exn) :
  bind c k h = Raise e h' ->
  c h = Raise e h' \/ exists a h1, c h = Ok a h1 /\ k a h1 = Raise e h'.
Proof.
  unfold bind. destruct (c h) as [a h1|e' h1|]; try discriminate.
  - intros H. right. now exists a, h1.
  - intros [= -> ->]. now left.
Qed.

Lemma delete_cons_raise (h h1 : heap) (r : loc) (k : string)
    (ks : list string) (e : exn) :
  Instance.delete r [k] h = Raise e h1 ->
  Instance.delete r (k :: ks) h = Raise e h1.
Proof.
  intros H. cbn [Instance.delete] in *.
  apply bind_raise_inv in H as [H|(a & h2 & _ & H)]; [|discriminate].
  now apply bind_raise.
Qed.

Lemma dict_del_all_other (ks : list string) (kvs : dict) (k : string) :
  ~ In k ks -> dict_get (dict_del_all kvs ks) k = dict_get kvs k.
Proof.
  unfold dict_del_all. revert kvs.
  induction ks as [|k0 ks IH]; intros kvs Hnotin; simpl; [reflexivity|].
  rewrite IH by (intros Hin; apply Hnotin; now right).
  apply dict_get_del_ne. intros ->. apply Hnotin. now left.
Qed.

(** C10. [delete] with several keys is not atomic.  When the keys [pre] are present
    (and distinct) and the key [k] that follows them is absent once they
    are removed, [delete] raises [KeyError] and leaves the record with every
    key of [pre] removed and every other field as it was. *)
Theorem delete_not_atomic (h : heap) (r dl : loc) (kvs : dict)
    (pre post : list string) (k : string) :
  is_record h r dl kvs ->
  forallb (dict_mem kvs) pre = true -> NoDup pre ->
  dict_mem (dict_del_all kvs pre) k = false ->
  exists h1,
    Instance.delete r (pre ++ k :: post) h = Raise KeyError h1 /\
    is_record h1 r dl (dict_del_all kvs pre) /\
    (forall k', In k' pre ->
       dict_mem kvs k' = true /\
       Instance.__getitem__ r k' h1 = Raise AttributeError h1) /\
    (forall k', ~ In k' pre ->
       Instance.__getitem__ r k' h1 =
       match dict_get kvs k' with
       | Some v => Ok v h1
       | None => Raise AttributeError h1
       end).
Proof.
  intros Hrec Hall Hnd Hk.
  destruct (delete_prefix_ok pre h r dl kvs Hrec Hall Hnd) as (h1 & Hdel & Hrec1).
  exists h1. repeat split.
  - rewrite (delete_app _ _ _ _ _ Hdel).
    pose proof (delete_one h1 r dl _ Hrec1 k) as H1. rewrite Hk in H1.
    now apply delete_cons_raise.
  - apply Hrec1.
  - apply Hrec1.
  - rewrite forallb_forall in Hall. now apply Hall.
  - unfold Instance.__getitem__. rewrite (getattr_record _ _ _ _ Hrec1).
    rewrite dict_del_all_gone by assumption. reflexivity.
  - intros k' Hnotin. unfold Instance.__getitem__.
    rewrite (getattr_record _ _ _ _ Hrec1).
    rewrite dict_del_all_other by assumption. reflexivity.
Qed.

Lemma demo_is_record : is_record demo_heap 0 1 demo_fields.
Proof. split; reflexivity. Qed.

Lemma delete_not_atomic_witness :
  is_record demo_heap 0 1 demo_fields /\
  forallb (dict_mem demo_fields) ["note"] = true /\
  NoDup ["note"] /\
  dict_mem (dict_del_all demo_fields ["note"]) "missing" = false /\
  exists h1,
    Instance.delete 0 (["note"] ++ "missing" :: ["tag"]) demo_heap
      = Raise KeyError h1 /\
    is_record h1 0 1 (dict_del_all demo_fields ["note"]) /\
    (forall k', In k' ["note"] ->
       dict_mem demo_fields k' = true /\
       Instance.__getitem__ 0 k' h1 = Raise AttributeError h1) /\
    (forall k', ~ In k' ["note"] ->
       Instance.__getitem__ 0 k' h1 =
       match dict_get demo_fields k' with
       | Some v => Ok v h1
       | None => Raise AttributeError h1
       end).
Proof.
  assert (Hnd : NoDup ["note"]).
  { constructor; [intros H; inversion H | constructor]. }
  repeat split; try reflexivity; try exact Hnd.
  apply (delete_not_atomic demo_heap 0%nat 1%nat demo_fields ["note"] ["tag"]
           "missing"); try reflexivity; try exact Hnd.
  split; reflexivity.
Defined.

Lemma is_field_name_not_data (n : string) :
  is_field_name n = true -> n <> "_data".
Proof.
  unfold is_field_name. intros H. apply andb_prop in H as [_ H].
  apply negb_true_iff in H. now apply String.eqb_neq.
Qed.

Lemma write_record (h : heap) (r dl : loc) (kvs : dict) (w : style)
    (n : string) (v : value) :
  is_record h r dl kvs -> n <> "_data" ->
  write r (w, n, v) h = Ok tt (<[dl := ODict (dict_set kvs n v)]> h).
Proof.
  intros Hrec Hn. destruct w; simpl; unfold Instance.__setitem__;
    now apply setattr_record.
Qed.

(** ** C7: the two access styles *)




(** ** C8: errors of field access *)

Lemma setattr_total (h : heap) (r dl : loc) (kvs : dict) (n : string)
    (v : value) :
  is_record h r dl kvs -> exists h', Instance.__setattr__ r n v h = Ok tt h'.
Proof.
  intros Hrec. destruct (String.eqb n "_data") eqn:E.
  - destruct Hrec as [Hr _]. unfold Instance.__setattr__. rewrite E.
    unfold bind, load. rewrite Hr. now eexists.
  - apply String.eqb_neq in E. eexists. now apply (setattr_record h r dl kvs).
Qed.




(** ** C5: the derived statistics *)

Lemma sum_from_ints (zs : list Z) (acc : Z) (h : heap) :
  sum_from acc (map VInt zs) h = Ok (acc + sum_Z zs) h.
Proof.
  revert acc. induction zs as [|z zs IH]; intros acc; simpl.
  - unfold ret. f_equal. lia.
  - rewrite IH. f_equal. lia.
Qed.

Lemma py_len_list (h : heap) (l : loc) (ts : list value) :
  h !! l = Some (OList ts) ->
  py_len (VRef l) h = Ok (Z.of_nat (List.length ts)) h.
Proof. intros Hl. unfold py_len, bind, load. now rewrite Hl. Qed.

Lemma py_sum_ints (h : heap) (l : loc) (zs : list Z) :
  h !! l = Some (OList (map VInt zs)) ->
  Instance.py_sum (VRef l) h = Ok (sum_Z zs) h.
Proof.
  intros Hl. unfold Instance.py_sum.
  rewrite (bind_ok _ _ h h (map VInt zs)).
  - apply sum_from_ints.
  - unfold Instance.py_iter, bind, load. now rewrite Hl.
Qed.

Section Statistics.
Context (h : heap) (r dl : loc) (kvs : dict).
Hypothesis Hrec : is_record h r dl kvs.

Lemma self_get_some (n : string) (v : value) :
  Instance.is_member n = false -> n <> "_data" ->
  dict_get kvs n = Some v ->
  Instance.self_get r n h = Ok v h.
Proof using Hrec.
  intros Hm Hn Hk. rewrite (self_get_field _ _ _ _ Hrec) by assumption.
  now rewrite (getattr_record _ _ _ _ Hrec), Hk.
Qed.

Lemma num_query_list (l : loc) (ts : list value) :
  dict_get kvs "target_responses" = Some (VRef l) ->
  h !! l = Some (OList ts) ->
  Instance.num_query r h = Ok (Z.of_nat (List.length ts)) h.
Proof using Hrec.
  intros Hk Hl. unfold Instance.num_query.
  rewrite (bind_ok _ _ _ _ _
             (self_get_some "target_responses" _ eq_refl ltac:(discriminate) Hk)).
  now apply py_len_list.
Qed.

Lemma num_jailbreak_list (l : loc) (zs : list Z) :
  dict_get kvs "eval_results" = Some (VRef l) ->
  h !! l = Some (OList (map VInt zs)) ->
  Instance.num_jailbreak r h = Ok (sum_Z zs) h.
Proof using Hrec.
  intros Hk Hl. unfold Instance.num_jailbreak.
  rewrite (bind_ok _ _ _ _ _
             (self_get_some "eval_results" _ eq_refl ltac:(discriminate) Hk)).
  now apply py_sum_ints.
Qed.

Lemma num_reject_list (l : loc) (zs : list Z) :
  dict_get kvs "eval_results" = Some (VRef l) ->
  h !! l = Some (OList (map VInt zs)) ->
  Instance.num_reject r h = Ok (Z.of_nat (List.length zs) - sum_Z zs) h.
Proof using Hrec.
  intros Hk Hl. unfold Instance.num_reject.
  pose proof (self_get_some "eval_results" _ eq_refl ltac:(discriminate) Hk)
    as Hget.
  rewrite (bind_ok _ _ h h (Z.of_nat (List.length zs))).
  - rewrite (bind_ok _ _ h h (sum_Z zs)); [reflexivity|].
    rewrite (bind_ok _ _ _ _ _ Hget). now apply py_sum_ints.
  - rewrite (bind_ok _ _ _ _ _ Hget).
    rewrite (py_len_list h l (map VInt zs)) by assumption.
    now rewrite length_map.
Qed.

End Statistics.

(** C5.  On a record whose [target_responses] is a list and whose
    [eval_results] is a list of integers, [num_query] is the length of
    [target_responses], [num_jailbreak] the sum of [eval_results] and
    [num_reject] the length of [eval_results] minus that sum, also when
    read as attributes.  A record built with no response lists has 0, 0
    and 0; one built with [target_responses=['a','b']] and
    [eval_results=[1,0]] has 2, 1 and 1. *)
Theorem statistics :
  (forall (h : heap) (r dl : loc) (kvs : dict) (lt le : loc)
          (ts : list value) (zs : list Z),
     is_record h r dl kvs ->
     dict_get kvs "target_responses" = Some (VRef lt) ->
     h !! lt = Some (OList ts) ->
     dict_get kvs "eval_results" = Some (VRef le) ->
     h !! le = Some (OList (map VInt zs)) ->
     Instance.num_query r h = Ok (Z.of_nat (List.length ts)) h /\
     Instance.num_jailbreak r h = Ok (sum_Z zs) h /\
     Instance.num_reject r h = Ok (Z.of_nat (List.length zs) - sum_Z zs) h /\
     read_statistics r h =
       Ok (AValue (VInt (Z.of_nat (List.length ts))),
           AValue (VInt (sum_Z zs)),
           AValue (VInt (Z.of_nat (List.length zs) - sum_Z zs))) h) /\
  (exists h,
     (do r <- Instance.new plain_args; read_statistics r) [] =
     Ok (AValue (VInt 0), AValue (VInt 0), AValue (VInt 0)) h) /\
  (exists h,
     (do r <- Instance.new stats_args; read_statistics r) stats_lists =
     Ok (AValue (VInt 2), AValue (VInt 1), AValue (VInt 1)) h).
Proof.
  split; [|split; eexists; vm_compute; reflexivity].
  intros h r dl kvs lt le ts zs Hrec Ht Hlt He Hle.
  pose proof (num_query_list h r dl kvs Hrec lt ts Ht Hlt) as Hq.
  pose proof (num_jailbreak_list h r dl kvs Hrec le zs He Hle) as Hj.
  pose proof (num_reject_list h r dl kvs Hrec le zs He Hle) as Hn.
  repeat split; try assumption.
  unfold read_statistics.
  rewrite (bind_ok _ _ h h (AValue (VInt (Z.of_nat (List.length ts))))).
  rewrite (bind_ok _ _ h h (AValue (VInt (sum_Z zs)))).
  rewrite (bind_ok _ _ h h
             (AValue (VInt (Z.of_nat (List.length zs) - sum_Z zs)))).
  - reflexivity.
  - unfold Instance.getattribute. cbn [String.eqb Ascii.eqb Bool.eqb].
    unfold try_except, bind. now rewrite Hn.
  - unfold Instance.getattribute. cbn [String.eqb Ascii.eqb Bool.eqb].
    unfold try_except, bind. now rewrite Hj.
  - unfold Instance.getattribute. cbn [String.eqb Ascii.eqb Bool.eqb].
    unfold try_except, bind. now rewrite Hq.
Qed.

Lemma statistics_witness :
  let h := heap_of (Instance.new stats_args stats_lists) in
  is_record h 2 3 (fields_of h 3) /\
  Instance.num_query 2 h = Ok 2 h /\
  Instance.num_jailbreak 2 h = Ok 1 h /\
  Instance.num_reject 2 h = Ok 1 h.
Proof.
  intros h.
  assert (Hrec : is_record h 2 3 (fields_of h 3)) by (split; reflexivity).
  split; [exact Hrec|].
  destruct (proj1 statistics h 2%nat 3%nat (fields_of h 3) 0%nat 1%nat
              [VStr "a"; VStr "b"] [1; 0] Hrec eq_refl eq_refl eq_refl eq_refl)
    as (Hq & Hj & Hn & _).
  auto.
Defined.

(** ** The constructor *)

Lemma record_at_is_record (h : heap) (kvs : dict) (tail : list obj) :
  is_record (record_at h kvs tail) (List.length h) (S (List.length h)) kvs.
Proof.
  unfold record_at. split.
  - now rewrite list_lookup_middle.
  - rewrite (cons_middle _ h), app_assoc.
    rewrite list_lookup_middle; [reflexivity|].
    rewrite length_app. simpl. lia.
Qed.

Lemma record_at_prefix (h : heap) (kvs : dict) (tail : list obj) :
  h `prefix_of` record_at h kvs tail.
Proof. unfold record_at. now eexists. Qed.

Lemma record_at_store (h : heap) (kvs kvs' : dict) (tail : list obj) :
  <[S (List.length h) := ODict kvs']> (record_at h kvs tail)
  = record_at h kvs' tail.
Proof.
  unfold record_at.
  rewrite insert_app_r_alt by lia.
  replace (S (List.length h) - List.length h)%nat with 1%nat by lia.
  reflexivity.
Qed.

Lemma record_at_alloc (h : heap) (kvs : dict) (tail : list obj) (o : obj) :
  alloc o (record_at h kvs tail)
  = Ok (List.length h + 2 + List.length tail)%nat
       (record_at h kvs (tail ++ [o])).
Proof.
  unfold alloc, record_at. f_equal.
  - rewrite length_app. simpl. lia.
  - rewrite <- app_assoc. reflexivity.
Qed.

Lemma record_at_tail (h : heap) (kvs : dict) (tail : list obj) (j : nat) :
  record_at h kvs tail !! (List.length h + 2 + j)%nat = tail !! j.
Proof.
  unfold record_at. rewrite lookup_app_r by lia.
  replace (List.length h + 2 + j - List.length h)%nat with (S (S j)) by lia.
  reflexivity.
Qed.

Lemma setattr_record_at (h : heap) (kvs : dict) (tail : list obj)
    (n : string) (v : value) :
  n <> "_data" ->
  Instance.__setattr__ (List.length h) n v (record_at h kvs tail)
  = Ok tt (record_at h (dict_set kvs n v) tail).
Proof.
  intros Hn.
  rewrite (setattr_record _ _ _ _ (record_at_is_record h kvs tail)) by assumption.
  now rewrite record_at_store.
Qed.

Lemma defaulted_mono (h : heap) (tail tail' : list obj) (arg v : value) :
  defaulted h tail arg v -> tail `prefix_of` tail' -> defaulted h tail' arg v.
Proof.
  intros [->|(hi & j & Hp & Ht & -> & Hj)] Hpre; [now left|].
  right. exists hi, j. repeat split; try assumption.
  eapply prefix_lookup_Some; eassumption.
Qed.

(** [self.n = arg or <a new object o>] while the record is built. *)
Lemma init_default_step (h : heap) (kvs : dict) (tail : list obj)
    (n : string) (arg : value) (o : obj) :
  n <> "_data" ->
  exists (v : value) (tail' : list obj),
    (do v <- or_else arg (do y <- alloc o; ret (VRef y));
     Instance.__setattr__ (List.length h) n v) (record_at h kvs tail)
    = Ok tt (record_at h (dict_set kvs n v) tail') /\
    tail `prefix_of` tail' /\
    (tail' = tail \/ tail' = tail ++ [o]) /\
    (v = arg \/
     exists (hi : heap) (j : nat),
       h `prefix_of` hi /\ truthy hi arg = false /\
       v = VRef (List.length h + 2 + j)%nat /\ tail' !! j = Some o).
Proof.
  intros Hn.
  destruct (truthy (record_at h kvs tail) arg) eqn:Ht.
  - exists arg, tail. split; [|split; [|split]].
    + rewrite (bind_ok _ _ _ (record_at h kvs tail) arg).
      * now apply setattr_record_at.
      * unfold or_else. now rewrite Ht.
    + reflexivity.
    + now left.
    + now left.
  - exists (VRef (List.length h + 2 + List.length tail)%nat), (tail ++ [o]).
    split; [|split; [|split]].
    + rewrite (bind_ok _ _ _ (record_at h kvs (tail ++ [o]))
                 (VRef (List.length h + 2 + List.length tail)%nat)).
      * now apply setattr_record_at.
      * unfold or_else. rewrite Ht.
        now rewrite (bind_ok _ _ _ _ _ (record_at_alloc _ _ _ _)).
    + now apply prefix_app_r.
    + now right.
    + right. exists (record_at h kvs tail), (List.length tail).
      repeat split.
      * apply record_at_prefix.
      * assumption.
      * now rewrite list_lookup_middle.
Qed.

Lemma init_sequence_step (h : heap) (kvs : dict) (tail : list obj)
    (n : string) (arg : value) :
  n <> "_data" ->
  exists (v : value) (tail' : list obj),
    (do v <- or_else arg Instance.new_list;
     Instance.__setattr__ (List.length h) n v) (record_at h kvs tail)
    = Ok tt (record_at h (dict_set kvs n v) tail') /\
    tail `prefix_of` tail' /\
    (tail' = tail \/ tail' = tail ++ [OList []]) /\
    defaulted h tail' arg v.
Proof. apply init_default_step. Qed.

(** What [__init__] allocates for the arguments left out. *)
Lemma init_tail_step (tail tail' : list obj) (o : obj) :
  Forall (fun o => o = OList [] \/ o = ODict Instance.default_attack_attrs)
    tail ->
  tail' = tail \/ tail' = tail ++ [o] ->
  o = OList [] \/ o = ODict Instance.default_attack_attrs ->
  Forall (fun o => o = OList [] \/ o = ODict Instance.default_attack_attrs)
    tail'.
Proof.
  intros Ht [-> | ->] Ho; [exact Ht|].
  apply Forall_app. split; [exact Ht|]. now constructor.
Qed.

Lemma init_data_step (h : heap) :
  (do d <- alloc (ODict []);
   Instance.__setattr__ (List.length h) "_data" (VRef d)) (h ++ [OInst None])
  = Ok tt (record_at h [] []).
Proof.
  unfold bind at 1. unfold alloc at 1.
  unfold Instance.__setattr__. cbn [String.eqb Ascii.eqb Bool.eqb].
  unfold bind, load, store.
  rewrite <- app_assoc. cbn [app].
  rewrite list_lookup_middle by reflexivity.
  rewrite length_app. cbn [List.length].
  replace (List.length h + 1)%nat with (S (List.length h)) by lia.
  unfold record_at. f_equal.
  rewrite insert_app_r_alt by lia.
  now replace (List.length h - List.length h)%nat with 0%nat by lia.
Qed.

Lemma init_kwargs_step (h : heap) (kvs kw : dict) (tail : list obj) :
  (do d <- Instance.self_get (List.length h) "_data";
   do (dl, kvs) <- as_dict d;
   store dl (ODict (dict_update kvs kw))) (record_at h kvs tail)
  = Ok tt (record_at h (dict_update kvs kw) tail).
Proof.
  pose proof (record_at_is_record h kvs tail) as Hrec.
  rewrite (bind_ok _ _ _ _ _ (self_get_data _ _ _ _ Hrec)).
  destruct Hrec as [_ Hd].
  unfold as_dict, bind, load. rewrite Hd. unfold ret, store.
  now rewrite record_at_store.
Qed.

(** [__init__] up to the computation of the id. *)
Lemma init_run (a : init_args) (h : heap) :
  exists (tail : list obj) (v1 v2 v3 v4 v5 v6 : value),
    Instance.__init__ (List.length h) a (h ++ [OInst None])
    = (do i <- Instance._generate_id (List.length h);
       Instance.__setattr__ (List.length h) "id" i)
        (record_at h (init_fields a v1 v2 v3 v4 v5 v6) tail) /\
    defaulted h tail (a_reference_responses a) v1 /\
    defaulted h tail (a_target_responses a) v2 /\
    defaulted h tail (a_eval_results a) v3 /\
    defaulted h tail (a_parents a) v4 /\
    defaulted h tail (a_children a) v5 /\
    (v6 = a_attack_attrs a \/
     exists j, v6 = VRef (List.length h + 2 + j)%nat /\
               (j < List.length tail)%nat) /\
    Forall (fun o => o = OList [] \/ o = ODict Instance.default_attack_attrs)
      tail.
Proof.
  unfold Instance.__init__.
  rewrite (bind_ok _ _ _ _ _ (init_data_step h)).
  rewrite (bind_ok _ _ _ _ _ (setattr_record_at h _ [] "query" _
                                ltac:(discriminate))).
  rewrite (bind_ok _ _ _ _ _ (setattr_record_at h _ [] "jailbreak_prompt" _
                                ltac:(discriminate))).
  match goal with |- context [record_at h ?k []] =>
    destruct (init_sequence_step h k [] "reference_responses"
                (a_reference_responses a) ltac:(discriminate))
      as (v1 & t1 & E1 & P1 & A1 & D1) end.
  rewrite (bind_ok _ _ _ _ _ E1). clear E1.
  match goal with |- context [record_at h ?k t1] =>
    destruct (init_sequence_step h k t1 "target_responses"
                (a_target_responses a) ltac:(discriminate))
      as (v2 & t2 & E2 & P2 & A2 & D2) end.
  rewrite (bind_ok _ _ _ _ _ E2). clear E2.
  match goal with |- context [record_at h ?k t2] =>
    destruct (init_sequence_step h k t2 "eval_results"
                (a_eval_results a) ltac:(discriminate))
      as (v3 & t3 & E3 & P3 & A3 & D3) end.
  rewrite (bind_ok _ _ _ _ _ E3). clear E3.
  match goal with |- context [record_at h ?k t3] =>
    destruct (init_sequence_step h k t3 "parents"
                (a_parents a) ltac:(discriminate))
      as (v4 & t4 & E4 & P4 & A4 & D4) end.
  rewrite (bind_ok _ _ _ _ _ E4). clear E4.
  match goal with |- context [record_at h ?k t4] =>
    destruct (init_sequence_step h k t4 "children"
                (a_children a) ltac:(discriminate))
      as (v5 & t5 & E5 & P5 & A5 & D5) end.
  rewrite (bind_ok _ _ _ _ _ E5). clear E5.
  match goal with |- context [record_at h ?k t5] =>
    rewrite (bind_ok _ _ _ _ _ (setattr_record_at h k t5 "index" VNone
                                  ltac:(discriminate)))
  end.
  match goal with |- context [record_at h ?k t5] =>
    destruct (init_default_step h k t5 "attack_attrs" (a_attack_attrs a)
                (ODict Instance.default_attack_attrs) ltac:(discriminate))
      as (v6 & t6 & E6 & P6 & A6 & D6) end.
  rewrite (bind_ok _ _ _ _ _ E6). clear E6.
  rewrite (bind_ok _ _ _ _ _ (init_kwargs_step h _ (a_kwargs a) t6)).
  exists t6, v1, v2, v3, v4, v5, v6.
  split; [reflexivity|].
  assert (T1 := init_tail_step _ _ _ (Forall_nil_2 _) A1 (or_introl eq_refl)).
  assert (T2 := init_tail_step _ _ _ T1 A2 (or_introl eq_refl)).
  assert (T3 := init_tail_step _ _ _ T2 A3 (or_introl eq_refl)).
  assert (T4 := init_tail_step _ _ _ T3 A4 (or_introl eq_refl)).
  assert (T5 := init_tail_step _ _ _ T4 A5 (or_introl eq_refl)).
  assert (T6 := init_tail_step _ _ _ T5 A6 (or_intror eq_refl)).
  repeat match goal with |- _ /\ _ => split end;
    try (eapply defaulted_mono; try eassumption).
  - now repeat (etransitivity; [eassumption|]).
  - now repeat (etransitivity; [eassumption|]).
  - now repeat (etransitivity; [eassumption|]).
  - now repeat (etransitivity; [eassumption|]).
  - destruct D6 as [->|(hi & j & _ & _ & -> & Hj)]; [now left|].
    right. exists j. split; [reflexivity|]. now apply lookup_lt_Some in Hj.
  - exact T6.
Qed.

Lemma generate_id_record (h : heap) (r dl : loc) (kvs : dict) (q p : value) :
  is_record h r dl kvs ->
  dict_get kvs "query" = Some q ->
  dict_get kvs "jailbreak_prompt" = Some p ->
  Instance._generate_id r h =
  match text_of q, text_of p with
  | Some qs, Some ps => Ok (id_of qs ps) h
  | _, _ => Undef
  end.
Proof.
  intros Hrec Hq Hp. unfold Instance._generate_id.
  rewrite (bind_ok _ _ _ _ _
             (self_get_some h r dl kvs Hrec "query" q eq_refl
                ltac:(discriminate) Hq)).
  unfold py_format at 1.
  destruct (text_of q) as [qs|]; [|reflexivity].
  rewrite (bind_ok _ _ h h qs) by reflexivity.
  rewrite (bind_ok _ _ _ _ _
             (self_get_some h r dl kvs Hrec "jailbreak_prompt" p eq_refl
                ltac:(discriminate) Hp)).
  unfold py_format.
  destruct (text_of p) as [ps|]; reflexivity.
Qed.

Lemma kwargs_ok_named (kw : dict) (k : string) :
  kwargs_ok kw = true -> In k named_params -> dict_get kw k = None.
Proof.
  unfold kwargs_ok. rewrite forallb_forall. intros H Hin.
  specialize (H k Hin). unfold dict_mem in H.
  now destruct (dict_get kw k).
Qed.

Lemma init_fields_query (a : init_args) (v1 v2 v3 v4 v5 v6 : value) :
  kwargs_ok (a_kwargs a) = true ->
  dict_get (init_fields a v1 v2 v3 v4 v5 v6) "query" = Some (a_query a) /\
  dict_get (init_fields a v1 v2 v3 v4 v5 v6) "jailbreak_prompt"
    = Some (a_jailbreak_prompt a).
Proof.
  intros Hkw. unfold init_fields. split.
  - rewrite dict_get_update; [reflexivity|].
    apply kwargs_ok_named; [assumption|]. simpl. tauto.
  - rewrite dict_get_update; [reflexivity|].
    apply kwargs_ok_named; [assumption|]. simpl. tauto.
Qed.

(** [Instance(...)], in full. *)
Lemma new_run (a : init_args) (h : heap) :
  kwargs_ok (a_kwargs a) = true ->
  exists (tail : list obj) (v1 v2 v3 v4 v5 v6 : value),
    Instance.new a h =
    match text_of (a_query a), text_of (a_jailbreak_prompt a) with
    | Some qs, Some ps =>
      Ok (List.length h)
         (record_at h (dict_set (init_fields a v1 v2 v3 v4 v5 v6) "id"
                         (id_of qs ps)) tail)
    | _, _ => Undef
    end /\
    defaulted h tail (a_reference_responses a) v1 /\
    defaulted h tail (a_target_responses a) v2 /\
    defaulted h tail (a_eval_results a) v3 /\
    defaulted h tail (a_parents a) v4 /\
    defaulted h tail (a_children a) v5 /\
    (v6 = a_attack_attrs a \/
     exists j, v6 = VRef (List.length h + 2 + j)%nat /\
               (j < List.length tail)%nat) /\
    Forall (fun o => o = OList [] \/ o = ODict Instance.default_attack_attrs)
      tail.
Proof.
  intros Hkw.
  destruct (init_run a h) as (tail & v1 & v2 & v3 & v4 & v5 & v6 & Hrun & D).
  exists tail, v1, v2, v3, v4, v5, v6. split; [|exact D].
  destruct (init_fields_query a v1 v2 v3 v4 v5 v6 Hkw) as [Hq Hp].
  unfold Instance.new.
  rewrite (bind_ok _ _ h (h ++ [OInst None]) (List.length h)) by reflexivity.
  unfold bind at 1. rewrite Hrun. unfold bind at 1.
  rewrite (generate_id_record _ _ _ _ _ _ (record_at_is_record _ _ _) Hq Hp).
  destruct (text_of (a_query a)) as [qs|]; [|reflexivity].
  destruct (text_of (a_jailbreak_prompt a)) as [ps|]; [|reflexivity].
  rewrite setattr_record_at by discriminate. reflexivity.
Qed.

(** ** The digest *)

Lemma md5_digest_length (msg : list Z) :
  List.length (MD5.digest msg) = 16%nat.
Proof.
  unfold MD5.digest.
  destruct (MD5.blocks _ _ _) as [a b c d]. reflexivity.
Qed.

Lemma md5_hex_length (bs : list Z) :
  String.length (MD5.hex bs) = (2 * List.length bs)%nat.
Proof. induction bs as [|b bs IH]; simpl; [reflexivity|]. rewrite IH. lia. Qed.

Lemma md5_hexdigit_hex (x : Z) : is_hex_digit (MD5.hexdigit x).
Proof.
  unfold is_hex_digit, MD5.hexdigit.
  destruct (nth_in_or_default (Z.to_nat x)
              (list_ascii_of_string "0123456789abcdef") "0"%char) as [H| ->].
  - exact H.
  - simpl. tauto.
Qed.

Lemma md5_hex_digits (bs : list Z) :
  Forall is_hex_digit (list_ascii_of_string (MD5.hex bs)).
Proof.
  induction bs as [|b bs IH]; simpl; [constructor|].
  constructor; [apply md5_hexdigit_hex|].
  constructor; [apply md5_hexdigit_hex | exact IH].
Qed.

(** The id is 32 hexadecimal digits: 128 bits. *)
Lemma hexdigest_shape (s : string) :
  String.length (MD5.hexdigest s) = 32%nat /\
  Forall is_hex_digit (list_ascii_of_string (MD5.hexdigest s)).
Proof.
  unfold MD5.hexdigest. split.
  - now rewrite md5_hex_length, md5_digest_length.
  - apply md5_hex_digits.
Qed.

(** ** C3: the id of a new record *)

Lemma new_id (a : init_args) (h : heap) (qs ps : string) :
  kwargs_ok (a_kwargs a) = true ->
  text_of (a_query a) = Some qs ->
  text_of (a_jailbreak_prompt a) = Some ps ->
  exists (h' : heap) (kvs : dict),
    Instance.new a h = Ok (List.length h) h' /\
    h `prefix_of` h' /\
    is_record h' (List.length h) (S (List.length h)) kvs /\
    dict_get kvs "id" = Some (id_of qs ps).
Proof.
  intros Hkw Hq Hp.
  destruct (new_run a h Hkw) as (tail & v1 & v2 & v3 & v4 & v5 & v6 & Hnew & _).
  rewrite Hq, Hp in Hnew.
  eexists _, _. split; [exact Hnew|]. split; [apply record_at_prefix|].
  split; [apply record_at_is_record|]. apply dict_get_set_eq.
Qed.

Lemma read_id (h : heap) (r dl : loc) (kvs : dict) (i : value) :
  is_record h r dl kvs -> dict_get kvs "id" = Some i ->
  Instance.__getattr__ r "id" h = Ok i h /\
  Instance.__getitem__ r "id" h = Ok i h /\
  Instance.getattribute r "id" h = Ok (AValue i) h.
Proof.
  intros Hrec Hid. unfold Instance.__getitem__.
  rewrite (getattr_record _ _ _ _ Hrec), Hid.
  rewrite (getattribute_field _ _ _ _ Hrec "id" eq_refl), Hid. auto.
Qed.



(** ** C6: the id is computed once *)

Lemma writes_keep_field (n : string) (ws : list (style * string * value)) :
  forall (h : heap) (r dl : loc) (kvs : dict),
  is_record h r dl kvs ->
  Forall (fun w => write_name w <> n /\ write_name w <> "_data") ws ->
  exists (h' : heap) (kvs' : dict),
    writes r ws h = Ok tt h' /\
    is_record h' r dl kvs' /\
    dict_get kvs' n = dict_get kvs n.
Proof.
  induction ws as [|[[w k] v] ws IH]; intros h r dl kvs Hrec Hall.
  - exists h, kvs. split; [reflexivity|]. split; [assumption|reflexivity].
  - apply Forall_cons in Hall as [[Hk Hd] Hall]. unfold write_name in Hk, Hd.
    simpl in Hk, Hd.
    destruct (IH _ r dl (dict_set kvs k v)
                (is_record_store _ _ _ _ _ Hrec) Hall)
      as (h' & kvs' & Hw & Hrec' & Hget).
    exists h', kvs'. split; [|split].
    + cbn [writes].
      now rewrite (bind_ok _ _ _ _ _ (write_record h r dl kvs w k v Hrec Hd)).
    + assumption.
    + rewrite Hget. now apply dict_get_set_ne.
Qed.



(** ** deepcopy leaves the objects it is given as they are *)

Lemma alloc_inv (o : obj) (h h' : heap) (l : loc) :
  alloc o h = Ok l h' -> l = List.length h /\ h' = h ++ [o].
Proof. unfold alloc. now intros [= <- <-]. Qed.

Lemma load_inv (l : loc) (h h' : heap) (o : obj) :
  load l h = Ok o h' -> h' = h /\ h !! l = Some o.
Proof.
  unfold load. destruct (h !! l) as [o'|]; [|discriminate].
  now intros [= <- <-].
Qed.

Lemma store_inv (l : loc) (o : obj) (h h' : heap) (u : unit) :
  store l o h = Ok u h' -> h' = <[l := o]> h.
Proof. unfold store. now intros [= <-]. Qed.

Lemma ret_inv {A} (a b : A) (h h' : heap) :
  ret a h = Ok b h' -> a = b /\ h = h'.
Proof. unfold ret. now intros [= <- <-]. Qed.

Lemma deepcopy_items_prefix (cp : value -> memo -> M (value * memo)) :
  (forall x m h y m' h', cp x m h = Ok (y, m') h' -> h `prefix_of` h') ->
  forall xs m h ys m' h',
    deepcopy_items cp xs m h = Ok (ys, m') h' ->
    h `prefix_of` h' /\ List.length ys = List.length xs.
Proof.
  intros Hcp. induction xs as [|x xs IH]; intros m h ys m' h' H.
  - apply ret_inv in H as [[= <- <-] <-]. now split.
  - cbn [deepcopy_items] in H.
    apply bind_inv in H as ([y m1] & h1 & Hx & H).
    apply bind_inv in H as ([ys' m2] & h2 & Hxs & H).
    apply ret_inv in H as [[= <- <-] <-].
    apply Hcp in Hx. apply IH in Hxs as [Hxs Hlen].
    split; [now transitivity h1 | simpl; now rewrite Hlen].
Qed.

Lemma deepcopy_rec_prefix (n : nat) :
  forall x m h y m' h',
    deepcopy_rec n x m h = Ok (y, m') h' -> h `prefix_of` h'.
Proof.
  induction n as [|n IH]; intros x m h y m' h' H.
  - destruct x; simpl in H; try (apply ret_inv in H as [_ <-]; reflexivity).
    destruct (memo_get m l); [|discriminate].
    now apply ret_inv in H as [_ <-].
  - destruct x; simpl in H; try (apply ret_inv in H as [_ <-]; reflexivity).
    destruct (memo_get m l); [now apply ret_inv in H as [_ <-]|].
    apply bind_inv in H as (o & h1 & Hload & H).
    apply load_inv in Hload as [-> Hl].
    destruct o as [xs|kvs|[d|]].
    + apply bind_inv in H as (y0 & h1 & Ha & H).
      apply alloc_inv in Ha as [-> ->].
      apply bind_inv in H as ([ys m1] & h2 & Hitems & H).
      apply bind_inv in H as (u & h3 & Hst & H).
      apply store_inv in Hst as ->. apply ret_inv in H as [_ <-].
      apply (deepcopy_items_prefix _ IH) in Hitems as [Hp _].
      apply prefix_store.
      * transitivity (h ++ [OList []]); [now apply prefix_app_r | exact Hp].
      * lia.
    + apply bind_inv in H as (y0 & h1 & Ha & H).
      apply alloc_inv in Ha as [-> ->].
      apply bind_inv in H as ([ys m1] & h2 & Hitems & H).
      apply bind_inv in H as (u & h3 & Hst & H).
      apply store_inv in Hst as ->. apply ret_inv in H as [_ <-].
      apply (deepcopy_items_prefix _ IH) in Hitems as [Hp _].
      apply prefix_store.
      * transitivity (h ++ [ODict []]); [now apply prefix_app_r | exact Hp].
      * lia.
    + apply bind_inv in H as (y0 & h1 & Ha & H).
      apply alloc_inv in Ha as [-> ->].
      apply bind_inv in H as ([d' m1] & h2 & Hd & H).
      apply bind_inv in H as (u & h3 & Hst & H).
      apply store_inv in Hst as ->. apply ret_inv in H as [_ <-].
      apply IH in Hd.
      apply prefix_store.
      * transitivity (h ++ [OInst None]); [now apply prefix_app_r | exact Hd].
      * lia.
    + apply bind_inv in H as (y0 & h1 & Ha & H).
      apply alloc_inv in Ha as [-> ->].
      apply ret_inv in H as [_ <-]. now apply prefix_app_r.
Qed.

Lemma deepcopy_prefix (x y : value) (h h' : heap) :
  deepcopy x h = Ok y h' -> h `prefix_of` h'.
Proof.
  unfold deepcopy.
  destruct (deepcopy_rec _ x [] h) as [[y0 m] h0| |] eqn:E; try discriminate.
  intros [= <- <-]. eapply deepcopy_rec_prefix. exact E.
Qed.

(** The copy of a dict has the keys of the dict. *)
Lemma deepcopy_dict (l : loc) (kvs : dict) (y : value) (h h' : heap) :
  h !! l = Some (ODict kvs) ->
  deepcopy (VRef l) h = Ok y h' ->
  exists (l' : loc) (vs : list value),
    y = VRef l' /\ (List.length h <= l')%nat /\ h `prefix_of` h' /\
    List.length vs = List.length kvs /\
    h' !! l' = Some (ODict (combine (map fst kvs) vs)).
Proof.
  intros Hl H. pose proof (deepcopy_prefix _ _ _ _ H) as Hp.
  unfold deepcopy in H.
  destruct (deepcopy_rec _ _ [] h) as [[y0 m] h0| |] eqn:E; try discriminate.
  injection H as <- <-.
  destruct (List.length h) as [|n] eqn:Hlen.
  { apply lookup_lt_Some in Hl. lia. }
  cbn [deepcopy_rec memo_get] in E.
  rewrite (bind_ok _ _ h h (ODict kvs)) in E
    by (unfold load; now rewrite Hl).
  apply bind_inv in E as (y1 & h1 & Ha & E).
  apply alloc_inv in Ha as [-> ->].
  apply bind_inv in E as ([vs m1] & h2 & Hitems & E).
  apply bind_inv in E as (u & h3 & Hst & E).
  apply store_inv in Hst as ->. apply ret_inv in E as [[= <- <-] <-].
  apply (deepcopy_items_prefix _ (deepcopy_rec_prefix n)) in Hitems
    as [Hp2 Hlen2].
  exists (List.length h), vs. split; [reflexivity|]. split; [lia|].
  split; [exact Hp|].
  split; [now rewrite Hlen2, length_map|].
  apply list_lookup_insert_eq.
  apply prefix_length in Hp2. rewrite length_app in Hp2. simpl in Hp2. lia.
Qed.

(** ** copy *)

Lemma self_get_inv (h h1 : heap) (r dl : loc) (kvs : dict) (n : string)
    (v : value) :
  is_record h r dl kvs -> Instance.is_member n = false -> n <> "_data" ->
  Instance.self_get r n h = Ok v h1 -> h1 = h /\ dict_get kvs n = Some v.
Proof.
  intros Hrec Hm Hn H.
  rewrite (self_get_field _ _ _ _ Hrec) in H by assumption.
  rewrite (getattr_record _ _ _ _ Hrec) in H.
  destruct (dict_get kvs n); [|discriminate]. now injection H as <- <-.
Qed.

Lemma as_dict_inv (d : value) (h h1 : heap) (dl : loc) (kvs : dict) :
  as_dict d h = Ok (dl, kvs) h1 ->
  h1 = h /\ d = VRef dl /\ h !! dl = Some (ODict kvs).
Proof.
  unfold as_dict. intros H. destruct d; try discriminate.
  apply bind_inv in H as (o & h2 & Hl & H). apply load_inv in Hl as [-> Hl].
  destruct o; try discriminate. now apply ret_inv in H as [[= <- <-] <-].
Qed.

Lemma getattr_heap (l : loc) (n : string) (v : value) (h h1 : heap) :
  Instance.__getattr__ l n h = Ok v h1 -> h1 = h.
Proof.
  unfold Instance.__getattr__. intros H.
  apply bind_inv in H as (o & h2 & Hl & H). apply load_inv in Hl as [-> Hl].
  destruct o as [| |[d|]]; try discriminate.
  unfold try_except, subscript in H. destruct d; try discriminate.
  unfold bind, load in H.
  destruct (h !! l0) as [[| kvs |]|]; try discriminate.
  destruct (dict_get kvs n); [|discriminate].
  now apply ret_inv in H as [_ <-].
Qed.

Lemma self_get_heap (l : loc) (n : string) (v : value) (h h1 : heap) :
  Instance.self_get l n h = Ok v h1 -> h1 = h.
Proof.
  unfold Instance.self_get, Instance.getattribute_plain. intros H.
  apply bind_inv in H as (a & h2 & Ha & H).
  destruct a; [|discriminate]. apply ret_inv in H as [_ <-].
  destruct (Instance.is_member n); [discriminate|].
  apply bind_inv in Ha as (o & h3 & Hl & Ha). apply load_inv in Hl as [-> Hl].
  destruct o as [| |[d|]]; try discriminate.
  - destruct (String.eqb n "_data").
    + now apply ret_inv in Ha as [_ <-].
    + apply bind_inv in Ha as (w & h4 & Hg & Ha).
      apply getattr_heap in Hg as ->. now apply ret_inv in Ha as [_ <-].
  - apply bind_inv in Ha as (w & h4 & Hg & Ha).
    apply getattr_heap in Hg as ->. now apply ret_inv in Ha as [_ <-].
Qed.

Lemma py_iter_inv (v : value) (xs : list value) (h h1 : heap) :
  Instance.py_iter v h = Ok xs h1 ->
  h1 = h /\ exists l, v = VRef l /\
    forall ys, h !! l = Some (OList ys) -> xs = ys.
Proof.
  unfold Instance.py_iter. intros H. destruct v; try discriminate.
  apply bind_inv in H as (o & h2 & Hl & H). apply load_inv in Hl as [-> Hl].
  destruct o as [zs|kvs|d].
  - apply ret_inv in H as [<- <-]. split; [reflexivity|].
    exists l. split; [reflexivity|]. intros ys Hys. congruence.
  - apply ret_inv in H as [<- <-]. split; [reflexivity|].
    exists l. split; [reflexivity|]. intros ys Hys. congruence.
  - apply bind_inv in H as (ks & h3 & Hk & H). apply ret_inv in H as [_ <-].
    unfold Instance.__iter__, Instance.keys in Hk.
    apply bind_inv in Hk as (d0 & h4 & Hd & Hk). apply self_get_heap in Hd as ->.
    apply bind_inv in Hk as ([dl kvs] & h5 & Hd & Hk).
    apply as_dict_inv in Hd as (-> & _ & _). apply ret_inv in Hk as [_ <-].
    split; [reflexivity|].
    exists l. split; [reflexivity|]. intros ys Hys. congruence.
Qed.

Lemma copy_method_inv (v v' : value) (h h1 : heap) :
  copy_method v h = Ok v' h1 ->
  exists (l : loc) (o : obj),
    v = VRef l /\ h !! l = Some o /\
    v' = VRef (List.length h) /\ h1 = h ++ [o].
Proof.
  unfold copy_method. intros H. destruct v; try discriminate.
  apply bind_inv in H as (o & h2 & Hl & H). apply load_inv in Hl as [-> Hl].
  exists l, o. destruct o as [xs|kvs|d]; try discriminate.
  - apply bind_inv in H as (y & h3 & Ha & H). apply alloc_inv in Ha as [-> ->].
    now apply ret_inv in H as [<- <-].
  - apply bind_inv in H as (y & h3 & Ha & H). apply alloc_inv in Ha as [-> ->].
    now apply ret_inv in H as [<- <-].
Qed.

Lemma list_of_inv (v v' : value) (h h1 : heap) :
  Instance.list_of v h = Ok v' h1 ->
  exists (l : loc) (xs : list value),
    v = VRef l /\ (forall ys, h !! l = Some (OList ys) -> xs = ys) /\
    v' = VRef (List.length h) /\ h1 = h ++ [OList xs].
Proof.
  unfold Instance.list_of. intros H.
  apply bind_inv in H as (xs & h2 & Hi & H).
  apply py_iter_inv in Hi as (-> & l & -> & Hxs).
  apply bind_inv in H as (y & h3 & Ha & H). apply alloc_inv in Ha as [-> ->].
  apply ret_inv in H as [<- <-]. now exists l, xs.
Qed.

Lemma dict_get_combine_notin (ks : list string) (vs : list value)
    (k : string) :
  ~ In k ks -> dict_get (combine ks vs) k = None.
Proof.
  revert vs. induction ks as [|k0 ks IH]; intros vs Hnotin; [reflexivity|].
  destruct vs as [|v vs]; [reflexivity|]. simpl.
  destruct (String.eqb k0 k) eqn:E.
  - apply String.eqb_eq in E. subst. exfalso. apply Hnotin. now left.
  - apply IH. intros Hin. apply Hnotin. now right.
Qed.

(** [new._data.update(deepcopy(rest_data))] leaves the fields the new
    record already has. *)
Lemma update_rest_keeps (new_kvs kvs : dict) (vs : list value) (k : string) :
  dict_mem new_kvs k = true ->
  dict_get
    (dict_update new_kvs
       (combine
          (map fst (List.filter
                      (fun kv => negb (dict_mem new_kvs (fst kv))) kvs))
          vs)) k
  = dict_get new_kvs k.
Proof.
  intros Hk. apply dict_get_update. apply dict_get_combine_notin.
  intros Hin. apply in_map_iff in Hin as ([k' v'] & <- & Hin).
  apply filter_In in Hin as [_ Hin]. simpl in *.
  rewrite Hk in Hin. discriminate.
Qed.

Lemma copy_arg_step (hc hc' : heap) (r dl : loc) (kvs : dict) (f : string)
    (a : value) :
  is_record hc r dl kvs -> Instance.is_member f = false -> f <> "_data" ->
  (do v <- Instance.self_get r f; copy_method v) hc = Ok a hc' ->
  exists (l : loc) (o : obj),
    dict_get kvs f = Some (VRef l) /\ a = VRef (List.length hc) /\
    hc' = hc ++ [o] /\
    (forall ys, hc !! l = Some (OList ys) -> o = OList ys).
Proof.
  intros Hrec Hm Hf H. apply bind_inv in H as (v & h1 & Hg & H).
  apply (self_get_inv _ _ _ _ _ _ _ Hrec Hm Hf) in Hg as [-> Hg].
  apply copy_method_inv in H as (l & o & -> & Hl & -> & ->).
  exists l, o. repeat split; try assumption. intros ys Hys. congruence.
Qed.

Lemma list_arg_step (hc hc' : heap) (r dl : loc) (kvs : dict) (f : string)
    (a : value) :
  is_record hc r dl kvs -> Instance.is_member f = false -> f <> "_data" ->
  (do v <- Instance.self_get r f; Instance.list_of v) hc = Ok a hc' ->
  exists (l : loc) (o : obj),
    dict_get kvs f = Some (VRef l) /\ a = VRef (List.length hc) /\
    hc' = hc ++ [o] /\
    (forall ys, hc !! l = Some (OList ys) -> o = OList ys).
Proof.
  intros Hrec Hm Hf H. apply bind_inv in H as (v & h1 & Hg & H).
  apply (self_get_inv _ _ _ _ _ _ _ Hrec Hm Hf) in Hg as [-> Hg].
  apply list_of_inv in H as (l & xs & -> & Hl & -> & ->).
  exists l, (OList xs). repeat split; try assumption.
  intros ys Hys. f_equal. now apply Hl.
Qed.

Lemma seq_field_copied (h hc h6 h' : heap) (tail : list obj) (l : loc)
    (o : obj) (v1 : value) :
  h `prefix_of` hc -> (hc ++ [o]) `prefix_of` h6 ->
  (forall ys, hc !! l = Some (OList ys) -> o = OList ys) ->
  defaulted h6 tail (VRef (List.length hc)) v1 ->
  h6 `prefix_of` h' ->
  (forall j x, tail !! j = Some x ->
     h' !! (List.length h6 + 2 + j)%nat = Some x) ->
  copied_seq h h' (VRef l) v1.
Proof.
  intros Hp1 Hp2 Ho Hdef Hp3 Htail.
  assert (Hat : h6 !! List.length hc = Some o).
  { eapply prefix_lookup_Some; [|exact Hp2]. now rewrite list_lookup_middle. }
  pose proof (prefix_length _ _ Hp1) as L1.
  pose proof (prefix_length _ _ Hp2) as L2. rewrite length_app in L2.
  simpl in L2.
  destruct Hdef as [->|(hi & j & Hpi & Ht & -> & Hj)].
  - exists l, (List.length hc). repeat split; [lia|].
    intros xs Hxs. eapply prefix_lookup_Some; [|exact Hp3].
    rewrite Hat. f_equal. apply Ho.
    eapply prefix_lookup_Some; eassumption.
  - exists l, (List.length h6 + 2 + j)%nat. repeat split; [lia|].
    intros xs Hxs.
    assert (Hoxs : o = OList xs).
    { apply Ho. eapply prefix_lookup_Some; eassumption. }
    subst o. unfold truthy in Ht.
    rewrite (prefix_lookup_Some _ _ _ _ Hat Hpi) in Ht.
    destruct xs; [|discriminate]. now apply Htail.
Qed.

Lemma as_dict_ok (h : heap) (dl : loc) (kvs : dict) :
  h !! dl = Some (ODict kvs) -> as_dict (VRef dl) h = Ok (dl, kvs) h.
Proof. intros Hd. unfold as_dict, bind, load. now rewrite Hd. Qed.

(** What [copy] returns, on any record on which it returns. *)
Lemma copy_inv (h h' : heap) (r dl c : loc) (kvs : dict) :
  is_record h r dl kvs ->
  Instance.copy r h = Ok c h' ->
  exists (q p : value) (qs ps : string) (dlc : loc) (kvsc : dict),
    dict_get kvs "query" = Some q /\ text_of q = Some qs /\
    dict_get kvs "jailbreak_prompt" = Some p /\ text_of p = Some ps /\
    h `prefix_of` h' /\ (List.length h <= c)%nat /\
    (List.length h <= dlc)%nat /\
    is_record h' c dlc kvsc /\
    dict_get kvsc "query" = Some q /\
    dict_get kvsc "jailbreak_prompt" = Some p /\
    dict_get kvsc "index" = Some VNone /\
    dict_get kvsc "id" = Some (id_of qs ps) /\
    forall f, In f sequence_fields ->
      exists v v', dict_get kvs f = Some v /\ dict_get kvsc f = Some v' /\
                   copied_seq h h' v v'.
Proof.
  intros Hrec H. unfold Instance.copy in H.
  apply bind_inv in H as (q & h0 & Hq & H).
  apply (self_get_inv _ _ _ _ _ "query" _ Hrec eq_refl ltac:(discriminate))
    in Hq
    as [-> Hq].
  apply bind_inv in H as (p & h0 & Hp & H).
  apply (self_get_inv _ _ _ _ _ "jailbreak_prompt" _ Hrec eq_refl ltac:(discriminate))
    in Hp
    as [-> Hp].
  (* the five sequences *)
  apply bind_inv in H as (a1 & h1 & S1 & H).
  apply (copy_arg_step _ _ _ _ _ "reference_responses" _ Hrec eq_refl ltac:(discriminate))
    in S1
    as (l1 & o1 & F1 & -> & -> & O1).
  assert (P1 : h `prefix_of` h ++ [o1]) by now apply prefix_app_r.
  pose proof (is_record_prefix _ _ _ _ _ Hrec P1) as R1.
  apply bind_inv in H as (a2 & h2 & S2 & H).
  apply (copy_arg_step _ _ _ _ _ "target_responses" _ R1 eq_refl ltac:(discriminate))
    in S2
    as (l2 & o2 & F2 & -> & -> & O2).
  assert (P2 : h `prefix_of` (h ++ [o1]) ++ [o2]) by now apply prefix_app_r.
  pose proof (is_record_prefix _ _ _ _ _ Hrec P2) as R2.
  apply bind_inv in H as (a3 & h3 & S3 & H).
  apply (copy_arg_step _ _ _ _ _ "eval_results" _ R2 eq_refl ltac:(discriminate))
    in S3
    as (l3 & o3 & F3 & -> & -> & O3).
  assert (P3 : h `prefix_of` ((h ++ [o1]) ++ [o2]) ++ [o3])
    by now apply prefix_app_r.
  pose proof (is_record_prefix _ _ _ _ _ Hrec P3) as R3.
  apply bind_inv in H as (a4 & h4 & S4 & H).
  apply (list_arg_step _ _ _ _ _ "parents" _ R3 eq_refl ltac:(discriminate))
    in S4
    as (l4 & o4 & F4 & -> & -> & O4).
  assert (P4 : h `prefix_of` (((h ++ [o1]) ++ [o2]) ++ [o3]) ++ [o4])
    by now apply prefix_app_r.
  pose proof (is_record_prefix _ _ _ _ _ Hrec P4) as R4.
  apply bind_inv in H as (a5 & h5 & S5 & H).
  apply (list_arg_step _ _ _ _ _ "children" _ R4 eq_refl ltac:(discriminate))
    in S5
    as (l5 & o5 & F5 & -> & -> & O5).
  assert (P5 : h `prefix_of` ((((h ++ [o1]) ++ [o2]) ++ [o3]) ++ [o4]) ++ [o5])
    by now apply prefix_app_r.
  pose proof (is_record_prefix _ _ _ _ _ Hrec P5) as R5.
  (* attack_attrs *)
  apply bind_inv in H as (a6 & h6 & S6 & H).
  apply bind_inv in S6 as (v6 & h0 & G6 & S6).
  apply self_get_heap in G6 as ->.
  apply deepcopy_prefix in S6 as P6.
  (* the constructor *)
  remember (h ++ [o1]) as hA eqn:EA.
  remember (hA ++ [o2]) as hB eqn:EB.
  remember (hB ++ [o3]) as hC eqn:EC.
  remember (hC ++ [o4]) as hD eqn:ED.
  remember (hD ++ [o5]) as hE eqn:EE.
  apply bind_inv in H as (c0 & h7 & Hnew & H).
  match type of Hnew with Instance.new ?a _ = _ =>
    destruct (new_run a h6 eq_refl)
      as (tail & v1 & v2 & v3 & v4 & v5 & w6 & Hrun & D1 & D2 & D3 & D4 & D5 &
          _ & _)
  end.
  rewrite Hrun in Hnew. clear Hrun. cbn [a_query a_jailbreak_prompt] in Hnew.
  cbn [a_reference_responses a_target_responses a_eval_results a_parents
       a_children] in D1, D2, D3, D4, D5.
  destruct (text_of q) as [qs|] eqn:Tq; [|discriminate].
  destruct (text_of p) as [ps|] eqn:Tp; [|discriminate].
  injection Hnew as <- <-.
  match goal with H0 : context [record_at h6 ?k tail] |- _ =>
    remember k as kvs7 eqn:E7 end.
  assert (PE : h `prefix_of` hE).
  { subst hE hD hC hB hA. exact P5. }
  assert (P7 : h6 `prefix_of` record_at h6 kvs7 tail)
    by apply record_at_prefix.
  assert (Ph7 : h `prefix_of` record_at h6 kvs7 tail).
  { transitivity hE; [exact PE|]. now transitivity h6. }
  pose proof (is_record_prefix _ _ _ _ _ Hrec Ph7) as Rr7.
  pose proof (record_at_is_record h6 kvs7 tail) as Rc7.
  (* rest_data *)
  apply bind_inv in H as (rest & h8 & Hrest & H).
  rewrite (bind_ok _ _ _ _ _ (self_get_data _ _ _ _ Rr7)) in Hrest.
  rewrite (bind_ok _ _ _ _ _ (as_dict_ok _ _ _ (proj2 Rr7))) in Hrest.
  cbv beta iota in Hrest.
  rewrite (bind_ok _ _ _ _ _ (self_get_data _ _ _ _ Rc7)) in Hrest.
  rewrite (bind_ok _ _ _ _ _ (as_dict_ok _ _ _ (proj2 Rc7))) in Hrest.
  cbv beta iota in Hrest.
  apply bind_inv in Hrest as (y & h0 & Ha & Hrest).
  apply alloc_inv in Ha as [-> ->]. apply ret_inv in Hrest as [<- <-].
  match type of H with context [ODict ?k] => remember k as rest eqn:Erest end.
  set (h7 := record_at h6 kvs7 tail) in *.
  assert (P8 : h7 `prefix_of` h7 ++ [ODict rest]) by now apply prefix_app_r.
  pose proof (is_record_prefix _ _ _ _ _ Rc7 P8) as Rc8.
  (* the update *)
  apply bind_inv in H as (u & h10 & Hupd & H). apply ret_inv in H as [<- <-].
  rewrite (bind_ok _ _ _ _ _ (self_get_data _ _ _ _ Rc8)) in Hupd.
  apply bind_inv in Hupd as (cpy & h9 & Hdc & Hupd).
  apply (deepcopy_dict _ rest) in Hdc as (y' & vs & -> & _ & P9 & Lvs & Hy');
    [|now rewrite list_lookup_middle].
  pose proof (is_record_prefix _ _ _ _ _ Rc8 P9) as Rc9.
  unfold update_method in Hupd.
  rewrite (bind_ok _ _ _ _ _ (as_dict_ok _ _ _ (proj2 Rc9))) in Hupd.
  cbv beta iota in Hupd.
  rewrite (bind_ok _ _ _ _ _ (as_dict_ok _ _ _ Hy')) in Hupd.
  cbv beta iota in Hupd. apply store_inv in Hupd as ->.
  (* the clone *)
  set (kvsc := dict_update kvs7 (combine (map fst rest) vs)).
  assert (Hkeep : forall k, dict_mem kvs7 k = true ->
                            dict_get kvsc k = dict_get kvs7 k).
  { intros k Hk. unfold kvsc. rewrite Erest. now apply update_rest_keeps. }
  assert (P79 : h7 `prefix_of` h9) by now transitivity (h7 ++ [ODict rest]).
  assert (P69 : h6 `prefix_of` h9) by now transitivity h7.
  assert (PE6 : hE `prefix_of` h6) by exact P6.
  pose proof (prefix_length _ _ PE) as LE.
  pose proof (prefix_length _ _ PE6) as L6.
  assert (P6' : h6 `prefix_of` <[S (List.length h6) := ODict kvsc]> h9).
  { apply prefix_store; [exact P69 | lia]. }
  assert (Htail : forall j x, tail !! j = Some x ->
            <[S (List.length h6) := ODict kvsc]> h9
              !! (List.length h6 + 2 + j)%nat = Some x).
  { intros j x Hj. rewrite list_lookup_insert_ne by lia.
    eapply prefix_lookup_Some; [|exact P79].
    unfold h7. now rewrite record_at_tail. }
  assert (PA : hA `prefix_of` h6).
  { transitivity hE; [|exact PE6]. subst hE hD hC hB.
    now repeat apply prefix_app_r. }
  assert (PB : hB `prefix_of` h6).
  { transitivity hE; [|exact PE6]. subst hE hD hC.
    now repeat apply prefix_app_r. }
  assert (PC : hC `prefix_of` h6).
  { transitivity hE; [|exact PE6]. subst hE hD. now repeat apply prefix_app_r. }
  assert (PD : hD `prefix_of` h6).
  { transitivity hE; [|exact PE6]. subst hE. now apply prefix_app_r. }
  exists q, p, qs, ps, (S (List.length h6)), kvsc.
  repeat match goal with |- _ /\ _ => split end; try assumption.
  - transitivity h6; [now transitivity hE | exact P6'].
  - lia.
  - lia.
  - exact (is_record_store _ _ _ _ kvsc Rc9).
  - rewrite Hkeep; now rewrite E7.
  - rewrite Hkeep; now rewrite E7.
  - rewrite Hkeep; now rewrite E7.
  - rewrite Hkeep; now rewrite E7.
  - intros f Hf. simpl in Hf.
    destruct Hf as [<-|[<-|[<-|[<-|[<-|[]]]]]].
    + exists (VRef l1), v1. split; [exact F1|].
      split; [rewrite Hkeep; now rewrite E7|].
      apply (seq_field_copied h h h6 _ tail l1 o1 v1); try assumption.
      * reflexivity.
      * now rewrite <- EA.
    + exists (VRef l2), v2. split; [exact F2|].
      split; [rewrite Hkeep; now rewrite E7|].
      apply (seq_field_copied h hA h6 _ tail l2 o2 v2); try assumption.
      now rewrite <- EB.
    + exists (VRef l3), v3. split; [exact F3|].
      split; [rewrite Hkeep; now rewrite E7|].
      apply (seq_field_copied h hB h6 _ tail l3 o3 v3); try assumption.
      now rewrite <- EC.
    + exists (VRef l4), v4. split; [exact F4|].
      split; [rewrite Hkeep; now rewrite E7|].
      apply (seq_field_copied h hC h6 _ tail l4 o4 v4); try assumption.
      now rewrite <- ED.
    + exists (VRef l5), v5. split; [exact F5|].
      split; [rewrite Hkeep; now rewrite E7|].
      apply (seq_field_copied h hD h6 _ tail l5 o5 v5); try assumption.
      now rewrite <- EE.
Qed.

Lemma getitem_record (h : heap) (r dl : loc) (kvs : dict) (n : string)
    (v : value) :
  is_record h r dl kvs -> dict_get kvs n = Some v ->
  Instance.__getitem__ r n h = Ok v h.
Proof.
  intros Hrec Hn. unfold Instance.__getitem__.
  now rewrite (getattr_record _ _ _ _ Hrec), Hn.
Qed.

(** ** C2: to_dict *)

Lemma dict_pop_record (h : heap) (dl : loc) (kvs : dict) (k : string) :
  h !! dl = Some (ODict kvs) ->
  dict_pop (VRef dl) k h =
  match dict_get kvs k with
  | Some v => Ok v (<[dl := ODict (dict_del kvs k)]> h)
  | None => Ok VNone h
  end.
Proof.
  intros Hd. unfold dict_pop, bind, load. rewrite Hd.
  now destruct (dict_get kvs k).
Qed.

Lemma dict_del_absent (kvs : dict) (k : string) :
  dict_get kvs k = None -> dict_del kvs k = kvs.
Proof.
  unfold dict_del. induction kvs as [|[k' v'] kvs IH]; simpl; [reflexivity|].
  destruct (String.eqb k' k) eqn:E; [discriminate|].
  intros H. simpl. now rewrite IH.
Qed.

(** [d.pop(k, None)] on the [_data] of a record: the value popped, and
    the record without [k]. *)
Lemma pop_step (h : heap) (r dl : loc) (kvs : dict) (k : string) :
  is_record h r dl kvs ->
  exists h1,
    (do d <- Instance.self_get r "_data"; dict_pop d k) h
    = Ok (popped kvs k) h1 /\
    List.length h1 = List.length h /\
    is_record h1 r dl (dict_del kvs k).
Proof.
  intros Hrec.
  rewrite (bind_ok _ _ _ _ _ (self_get_data _ _ _ _ Hrec)).
  rewrite (dict_pop_record _ _ _ _ (proj2 Hrec)). unfold popped.
  destruct (dict_get kvs k) as [v|] eqn:E.
  - eexists. split; [reflexivity|]. split; [apply length_insert|].
    exact (is_record_store _ _ _ _ _ Hrec).
  - exists h. split; [reflexivity|]. split; [reflexivity|].
    now rewrite dict_del_absent.
Qed.

(** [if temp is not None: self._data[k] = temp]. *)
Lemma restore_step (h : heap) (r dl : loc) (kvs : dict) (k : string)
    (temp : value) :
  is_record h r dl kvs -> k <> "_data" ->
  exists h1,
    (if is_none temp then ret tt
     else do d <- Instance.self_get r "_data"; subscript_set d k temp) h
    = Ok tt h1 /\
    is_record h1 r dl (restored kvs k temp) /\
    forall l, l <> dl -> h1 !! l = h !! l.
Proof.
  intros Hrec Hk. unfold restored. destruct (is_none temp).
  - exists h. split; [reflexivity|]. split; [assumption|]. reflexivity.
  - eexists. split; [|split].
    + rewrite (bind_ok _ _ _ _ _ (self_get_data _ _ _ _ Hrec)).
      unfold subscript_set, bind, load. rewrite (proj2 Hrec). reflexivity.
    + exact (is_record_store _ _ _ _ _ Hrec).
    + intros l Hl. now rewrite list_lookup_insert_ne.
Qed.

Lemma combine_keys (ks : list string) (vs : list value) :
  List.length vs = List.length ks -> dict_keys (combine ks vs) = ks.
Proof.
  unfold dict_keys. revert vs.
  induction ks as [|k ks IH]; intros [|v vs] H; try discriminate; simpl;
    [reflexivity|].
  f_equal. apply IH. simpl in H. lia.
Qed.

(** What [to_dict] returns and leaves, on any record on which it
    returns. *)
Lemma to_dict_inv (h h' : heap) (r dl : loc) (kvs : dict) (d : value) :
  is_record h r dl kvs ->
  Instance.to_dict r h = Ok d h' ->
  exists (dd : loc) (snapshot : dict),
    d = VRef dd /\ (List.length h <= dd)%nat /\
    h' !! dd = Some (ODict snapshot) /\
    dict_keys snapshot = dict_keys (without_lineage kvs) /\
    is_record h' r dl (after_to_dict kvs).
Proof.
  intros Hrec H. unfold Instance.to_dict in H.
  destruct (pop_step h r dl kvs "parents" Hrec) as (h1 & E1 & L1 & R1).
  rewrite (bind_ok _ _ _ _ _ E1) in H. clear E1.
  destruct (pop_step h1 r dl _ "children" R1) as (h2 & E2 & L2 & R2).
  rewrite (bind_ok _ _ _ _ _ E2) in H. clear E2.
  assert (Hpc : popped (dict_del kvs "parents") "children"
                = popped kvs "children").
  { unfold popped. now rewrite dict_get_del_ne by discriminate. }
  rewrite Hpc in H. clear Hpc.
  apply bind_inv in H as (y & h3 & Hdc & H).
  rewrite (bind_ok _ _ _ _ _ (self_get_data _ _ _ _ R2)) in Hdc.
  apply (deepcopy_dict _ _ _ _ _ (proj2 R2)) in Hdc
    as (dd & vs & -> & Hfresh & P3 & Lvs & Hdd).
  pose proof (is_record_prefix _ _ _ _ _ R2 P3) as R3.
  destruct (restore_step h3 r dl _ "parents" (popped kvs "parents") R3
              ltac:(discriminate)) as (h4 & E4 & R4 & F4).
  rewrite (bind_ok _ _ _ _ _ E4) in H. clear E4.
  destruct (restore_step h4 r dl _ "children" (popped kvs "children") R4
              ltac:(discriminate)) as (h5 & E5 & R5 & F5).
  rewrite (bind_ok _ _ _ _ _ E5) in H. clear E5.
  apply ret_inv in H as [<- <-].
  assert (Hne : dd <> dl).
  { pose proof (lookup_lt_Some _ _ _ (proj2 R2)). lia. }
  exists dd, (combine (map fst (without_lineage kvs)) vs).
  split; [reflexivity|]. split; [lia|]. split; [|split].
  - rewrite F5, F4 by exact Hne. exact Hdd.
  - apply combine_keys. unfold dict_keys. rewrite length_map. exact Lvs.
  - exact R5.
Qed.

Lemma without_lineage_get (kvs : dict) (k : string) :
  dict_get (without_lineage kvs) k =
  if String.eqb k "parents" || String.eqb k "children" then None
  else dict_get kvs k.
Proof.
  unfold without_lineage.
  destruct (String.eqb k "children") eqn:Ec.
  - apply String.eqb_eq in Ec. subst k. rewrite orb_true_r.
    apply dict_get_del_eq.
  - apply String.eqb_neq in Ec.
    rewrite dict_get_del_ne by congruence. rewrite orb_false_r.
    destruct (String.eqb k "parents") eqn:Ep.
    + apply String.eqb_eq in Ep. subst k. apply dict_get_del_eq.
    + apply String.eqb_neq in Ep. apply dict_get_del_ne. congruence.
Qed.

Lemma is_none_spec (v : value) : is_none v = true <-> v = VNone.
Proof. destruct v; simpl; split; congruence. Qed.

(** The fields are back as they were, values included, unless the
    lineage held [None]. *)
Lemma after_to_dict_get (kvs : dict) (k : string) :
  dict_get kvs "parents" <> Some VNone ->
  dict_get kvs "children" <> Some VNone ->
  dict_get (after_to_dict kvs) k = dict_get kvs k.
Proof.
  intros Hp Hc. unfold after_to_dict, restored, popped.
  pose proof (without_lineage_get kvs) as Hw.
  destruct (dict_get kvs "parents") as [vp|] eqn:Ep;
    destruct (dict_get kvs "children") as [vc|] eqn:Ec.
  - destruct (is_none vp) eqn:Np; [apply is_none_spec in Np; congruence|].
    destruct (is_none vc) eqn:Nc; [apply is_none_spec in Nc; congruence|].
    destruct (string_dec k "children") as [->|Hkc].
    { now rewrite dict_get_set_eq. }
    rewrite dict_get_set_ne by congruence.
    destruct (string_dec k "parents") as [->|Hkp].
    { now rewrite dict_get_set_eq. }
    rewrite dict_get_set_ne by congruence. rewrite Hw.
    apply String.eqb_neq in Hkc, Hkp. now rewrite Hkc, Hkp.
  - destruct (is_none vp) eqn:Np; [apply is_none_spec in Np; congruence|].
    cbn [is_none].
    destruct (string_dec k "parents") as [->|Hkp].
    { now rewrite dict_get_set_eq. }
    rewrite dict_get_set_ne by congruence. rewrite Hw.
    destruct (string_dec k "children") as [->|Hkc]; [now rewrite Ec|].
    apply String.eqb_neq in Hkc, Hkp. now rewrite Hkc, Hkp.
  - destruct (is_none vc) eqn:Nc; [apply is_none_spec in Nc; congruence|].
    cbn [is_none].
    destruct (string_dec k "children") as [->|Hkc].
    { now rewrite dict_get_set_eq. }
    rewrite dict_get_set_ne by congruence. rewrite Hw.
    destruct (string_dec k "parents") as [->|Hkp]; [now rewrite Ep|].
    apply String.eqb_neq in Hkc, Hkp. now rewrite Hkc, Hkp.
  - cbn [is_none]. rewrite Hw.
    destruct (string_dec k "parents") as [->|Hkp]; [now rewrite Ep|].
    destruct (string_dec k "children") as [->|Hkc]; [now rewrite Ec|].
    apply String.eqb_neq in Hkc, Hkp. now rewrite Hkc, Hkp.
Qed.

(** A lineage field that holds [None] is not put back. *)
Lemma after_to_dict_none (kvs : dict) (k : string) :
  k = "parents" \/ k = "children" ->
  dict_get kvs k = Some VNone ->
  dict_get (after_to_dict kvs) k = None.
Proof.
  intros Hk Hn. unfold after_to_dict, restored, popped.
  pose proof (without_lineage_get kvs k) as Hw.
  destruct Hk as [-> | ->]; rewrite Hn in *; cbn [is_none];
    cbn [String.eqb Ascii.eqb Bool.eqb orb] in Hw.
  - destruct (is_none _); [exact Hw|].
    now rewrite dict_get_set_ne by discriminate.
  - destruct (is_none _); [exact Hw|].
    now rewrite dict_get_set_ne by discriminate.
Qed.

(** C2.  The returned mapping has neither [parents] nor [children], but
    [to_dict] does not always leave the record's field names as they
    were: on a record whose [parents] is [None], [pop] returns [None]
    both for an absent key and for the stored [None], so the field is not
    put back and [parents] is gone after the call. *)
Theorem to_dict_drops_none_lineage :
  exists h,
    none_parents_run [] =
    Ok (["query"; "jailbreak_prompt"; "reference_responses";
         "target_responses"; "eval_results"; "parents"; "children";
         "index"; "attack_attrs"; "id"],
        ["query"; "jailbreak_prompt"; "reference_responses";
         "target_responses"; "eval_results"; "index"; "attack_attrs"; "id";
         "children"],
        ["query"; "jailbreak_prompt"; "reference_responses";
         "target_responses"; "eval_results"; "index"; "attack_attrs"; "id"])
       h.
Proof. eexists. vm_compute. reflexivity. Qed.

(** What holds of [to_dict] on every record on which it returns: the
    mapping returned is a new object without [parents] and [children];
    the fields of the record are back, values included, unless [parents]
    or [children] held [None], in which case that field is gone. *)
Lemma to_dict_spec (h h' : heap) (r dl : loc) (kvs : dict) (d : value) :
  is_record h r dl kvs ->
  Instance.to_dict r h = Ok d h' ->
  exists (dd : loc) (snapshot kvs' : dict),
    d = VRef dd /\ (List.length h <= dd)%nat /\
    h' !! dd = Some (ODict snapshot) /\
    ~ In "parents" (dict_keys snapshot) /\
    ~ In "children" (dict_keys snapshot) /\
    (forall k, k <> "parents" -> k <> "children" ->
       In k (dict_keys snapshot) <-> In k (dict_keys kvs)) /\
    is_record h' r dl kvs' /\
    (dict_get kvs "parents" <> Some VNone ->
     dict_get kvs "children" <> Some VNone ->
     forall k, dict_get kvs' k = dict_get kvs k) /\
    (forall k, k = "parents" \/ k = "children" ->
       dict_get kvs k = Some VNone -> dict_get kvs' k = None).
Proof.
  intros Hrec H.
  destruct (to_dict_inv _ _ _ _ _ _ Hrec H)
    as (dd & snapshot & -> & Hfresh & Hdd & Hkeys & Hrec').
  exists dd, snapshot, (after_to_dict kvs).
  split; [reflexivity|]. split; [exact Hfresh|]. split; [exact Hdd|].
  rewrite Hkeys.
  split; [apply dict_get_keys; now rewrite without_lineage_get|].
  split; [apply dict_get_keys; now rewrite without_lineage_get|].
  split.
  { intros k Hp Hc. pose proof (without_lineage_get kvs k) as Hw.
    apply String.eqb_neq in Hp, Hc. rewrite Hp, Hc in Hw. simpl in Hw.
    pose proof (dict_get_keys (without_lineage kvs) k) as K1.
    pose proof (dict_get_keys kvs k) as K2. rewrite Hw in K1.
    destruct (in_dec string_dec k (dict_keys (without_lineage kvs)));
      destruct (in_dec string_dec k (dict_keys kvs)); tauto. }
  split; [exact Hrec'|]. split.
  - intros Hp Hc k. now apply after_to_dict_get.
  - intros k Hk Hn. now apply after_to_dict_none.
Qed.

(** ** The digest on known inputs *)

Example md5_empty : MD5.hexdigest "" = "d41d8cd98f00b204e9800998ecf8427e".
Proof. vm_compute. reflexivity. Qed.

Example md5_abc : MD5.hexdigest "abc" = "900150983cd24fb0d6963f7d28e17f72".
Proof. vm_compute. reflexivity. Qed.

Example md5_two_blocks :
  MD5.hexdigest
    "aaaaaaaaaaaaaaaaaaaaaaaaaaaaaaaaaaaaaaaaaaaaaaaaaaaaaaaaaaaaaaaaaaaaaa"
  = "0f5c6c4e740bfcc08c3c26ccb2673d46".
Proof. vm_compute. reflexivity. Qed.

(** ** deepcopy returns *)

Lemma value_ok_mono (n n' : nat) (v : value) :
  (n <= n')%nat -> value_ok n v -> value_ok n' v.
Proof. destruct v; simpl; try tauto. lia. Qed.

Lemma values_ok_mono (n n' : nat) (vs : list value) :
  (n <= n')%nat -> Forall (value_ok n) vs -> Forall (value_ok n') vs.
Proof.
  intros Hn H. eapply Forall_impl; [exact H|].
  intros v. now apply value_ok_mono.
Qed.

Lemma obj_ok_mono (n n' : nat) (o : obj) :
  (n <= n')%nat -> obj_ok n o -> obj_ok n' o.
Proof.
  intros Hn. destruct o as [xs|kvs|[d|]]; simpl.
  - now apply values_ok_mono.
  - now apply values_ok_mono.
  - now apply value_ok_mono.
  - tauto.
Qed.

Lemma closed_alloc (h : heap) (o : obj) :
  closed h -> obj_ok (S (List.length h)) o -> closed (h ++ [o]).
Proof.
  unfold closed. intros Hc Ho. rewrite length_app. simpl.
  replace (List.length h + 1)%nat with (S (List.length h)) by lia.
  apply Forall_app. split.
  - eapply Forall_impl; [exact Hc|]. intros x. apply obj_ok_mono. lia.
  - now constructor.
Qed.

Lemma closed_store (h : heap) (l : loc) (o : obj) :
  closed h -> obj_ok (List.length h) o -> closed (<[l := o]> h).
Proof.
  unfold closed. intros Hc Ho. rewrite length_insert.
  now apply Forall_insert.
Qed.

Lemma closed_lookup (h : heap) (l : loc) (o : obj) :
  closed h -> h !! l = Some o -> obj_ok (List.length h) o.
Proof. unfold closed. intros Hc Hl. eapply Forall_lookup_1; eassumption. Qed.

Lemma filter_length_le_impl {A} (f g : A -> bool) (l : list A) :
  (forall x, f x = true -> g x = true) ->
  (List.length (List.filter f l) <= List.length (List.filter g l))%nat.
Proof.
  intros Hfg. induction l as [|a l IH]; simpl; [lia|].
  destruct (f a) eqn:Ef.
  - rewrite (Hfg a Ef). simpl. lia.
  - destruct (g a); simpl; lia.
Qed.

Lemma filter_length_lt_impl {A} (f g : A -> bool) (l : list A) (a : A) :
  (forall x, f x = true -> g x = true) ->
  In a l -> f a = false -> g a = true ->
  (List.length (List.filter f l) < List.length (List.filter g l))%nat.
Proof.
  intros Hfg Hin Hfa Hga. induction l as [|b l IH]; [destruct Hin|].
  simpl. destruct Hin as [->|Hin].
  - rewrite Hfa, Hga. simpl.
    pose proof (filter_length_le_impl f g l Hfg). lia.
  - specialize (IH Hin). destruct (f b) eqn:Ef.
    + rewrite (Hfg b Ef). simpl. lia.
    + destruct (g b); simpl; lia.
Qed.

Lemma memo_ext_refl (m : memo) : memo_ext m m.
Proof. now intros l y. Qed.

Lemma memo_ext_trans (m1 m2 m3 : memo) :
  memo_ext m1 m2 -> memo_ext m2 m3 -> memo_ext m1 m3.
Proof. intros H1 H2 l y H. apply H2. now apply H1. Qed.

Lemma memo_ext_cons (m : memo) (l y : loc) :
  memo_get m l = None -> memo_ext m ((l, y) :: m).
Proof.
  intros Hl l' y' H. simpl. destruct (Nat.eqb l l') eqn:E; [|exact H].
  apply Nat.eqb_eq in E. subst. congruence.
Qed.

Lemma unmemo_mono (h0 : heap) (m m' : memo) :
  memo_ext m m' -> (unmemo h0 m' <= unmemo h0 m)%nat.
Proof.
  intros Hext. unfold unmemo. apply filter_length_le_impl.
  intros l. unfold not_in_memo.
  destruct (memo_get m l) as [y|] eqn:E; [|reflexivity].
  now rewrite (Hext l y E).
Qed.

Lemma unmemo_cons (h0 : heap) (m : memo) (l y : loc) :
  (l < List.length h0)%nat -> memo_get m l = None ->
  (unmemo h0 ((l, y) :: m) < unmemo h0 m)%nat.
Proof.
  intros Hl Hm. unfold unmemo. apply (filter_length_lt_impl _ _ _ l).
  - intros l'. unfold not_in_memo.
    destruct (memo_get m l') as [y'|] eqn:E; [|reflexivity].
    now rewrite (memo_ext_cons m l y Hm l' y' E).
  - apply in_seq. lia.
  - unfold not_in_memo. simpl. now rewrite Nat.eqb_refl.
  - unfold not_in_memo. now rewrite Hm.
Qed.

Lemma memo_ok_mono (h h' : heap) (m : memo) :
  memo_ok h m -> (List.length h <= List.length h')%nat -> memo_ok h' m.
Proof. intros Hm Hl l y H. specialize (Hm l y H). lia. Qed.

Lemma memo_ok_cons (h : heap) (m : memo) (l y : loc) :
  memo_ok h m -> (y < List.length h)%nat -> memo_ok h ((l, y) :: m).
Proof.
  intros Hm Hy l' y' H. simpl in H.
  destruct (Nat.eqb l l'); [injection H as <-; exact Hy | now apply (Hm l')].
Qed.

Lemma combine_values (ks : list string) (vs : list value) :
  List.length vs = List.length ks -> map snd (combine ks vs) = vs.
Proof.
  revert vs. induction ks as [|k ks IH]; intros [|v vs] H; try discriminate;
    simpl; [reflexivity|].
  f_equal. apply IH. simpl in H. lia.
Qed.

Lemma deepcopy_items_total (h0 : heap) (k : nat)
    (cp : value -> memo -> M (value * memo)) :
  copies_well h0 k cp ->
  forall (xs : list value) (m : memo) (hc : heap),
    h0 `prefix_of` hc -> closed hc -> memo_ok hc m ->
    Forall (value_ok (List.length h0)) xs -> (unmemo h0 m <= k)%nat ->
    exists (ys : list value) (m' : memo) (hc' : heap),
      deepcopy_items cp xs m hc = Ok (ys, m') hc' /\
      hc `prefix_of` hc' /\ closed hc' /\ memo_ok hc' m' /\
      memo_ext m m' /\ Forall (value_ok (List.length hc')) ys /\
      List.length ys = List.length xs.
Proof.
  intros Hcp. induction xs as [|x xs IH]; intros m hc Hp Hc Hm Hxs Hk.
  - exists [], m, hc. repeat split; try assumption; try reflexivity.
    + apply memo_ext_refl.
    + constructor.
  - apply Forall_cons in Hxs as [Hx Hxs].
    destruct (Hcp x m hc Hp Hc Hm Hx Hk)
      as (y & m1 & h1 & E1 & P1 & C1 & M1 & X1 & V1).
    destruct (IH m1 h1) as (ys & m2 & h2 & E2 & P2 & C2 & M2 & X2 & V2 & L2);
      try assumption.
    { now transitivity hc. }
    { pose proof (unmemo_mono h0 _ _ X1). lia. }
    exists (y :: ys), m2, h2. cbn [deepcopy_items].
    rewrite (bind_ok _ _ _ _ _ E1). cbv beta iota.
    rewrite (bind_ok _ _ _ _ _ E2). cbv beta iota.
    split; [reflexivity|]. split; [now transitivity h1|].
    split; [exact C2|]. split; [exact M2|].
    split; [now apply (memo_ext_trans m m1 m2)|]. split.
    + constructor; [|exact V2].
      eapply value_ok_mono; [|exact V1]. now apply prefix_length.
    + simpl. now rewrite L2.
Qed.

Lemma unmemo_miss (h0 : heap) (m : memo) (l : loc) :
  (l < List.length h0)%nat -> memo_get m l = None ->
  (0 < unmemo h0 m)%nat.
Proof. intros Hl Hm. pose proof (unmemo_cons h0 m l 0%nat Hl Hm). lia. Qed.

(** With as many steps as there are objects outside the memo,
    [deepcopy_rec] returns. *)
Lemma deepcopy_rec_total (h0 : heap) :
  closed h0 -> forall n, copies_well h0 n (deepcopy_rec n).
Proof.
  intros H0 n.
  assert (Hatom : forall k x m hc,
            (forall l, x <> VRef l) -> memo_ok hc m -> closed hc ->
            exists y m' hc',
              deepcopy_rec k x m hc = Ok (y, m') hc' /\
              hc `prefix_of` hc' /\ closed hc' /\ memo_ok hc' m' /\
              memo_ext m m' /\ value_ok (List.length hc') y).
  { intros k x m hc Hx Hm Hc. exists x, m, hc.
    split; [destruct k, x; try reflexivity; now destruct (Hx l)|].
    repeat split; try assumption; try reflexivity.
    - apply memo_ext_refl.
    - destruct x; simpl; try tauto. now destruct (Hx l). }
  assert (Hhit : forall k l y m hc,
            memo_get m l = Some y -> memo_ok hc m -> closed hc ->
            exists y' m' hc',
              deepcopy_rec k (VRef l) m hc = Ok (y', m') hc' /\
              hc `prefix_of` hc' /\ closed hc' /\ memo_ok hc' m' /\
              memo_ext m m' /\ value_ok (List.length hc') y').
  { intros k l y m hc Hl Hm Hc. exists (VRef y), m, hc.
    split; [destruct k; simpl; now rewrite Hl|].
    repeat split; try assumption; try reflexivity.
    - apply memo_ext_refl.
    - simpl. now apply (Hm l). }
  induction n as [|n IH]; intros x m hc Hp Hc Hm Hx Hk.
  - destruct x as [| | | |l]; try (apply Hatom; [discriminate|assumption..]).
    destruct (memo_get m l) as [y|] eqn:El; [now apply (Hhit _ _ y)|].
    simpl in Hx. pose proof (unmemo_miss h0 m l Hx El). lia.
  - destruct x as [| | | |l]; try (apply Hatom; [discriminate|assumption..]).
    destruct (memo_get m l) as [y|] eqn:El; [now apply (Hhit _ _ y)|].
    simpl in Hx.
    destruct (lookup_lt_is_Some_2 h0 l Hx) as [o Ho].
    pose proof (closed_lookup _ _ _ H0 Ho) as Hok.
    pose proof (prefix_lookup_Some _ _ _ _ Ho Hp) as Hlc.
    pose proof (prefix_length _ _ Hp) as Lp.
    pose proof (unmemo_cons h0 m l (List.length hc) Hx El) as Hlt.
    assert (Hload : load l hc = Ok o hc) by (unfold load; now rewrite Hlc).
    cbn [deepcopy_rec]. rewrite El. rewrite (bind_ok _ _ _ _ _ Hload).
    assert (Hm1 : forall o', memo_ok (hc ++ [o']) ((l, List.length hc) :: m)).
    { intros o'. apply memo_ok_cons.
      - eapply memo_ok_mono; [exact Hm|]. rewrite length_app. lia.
      - rewrite length_app. simpl. lia. }
    assert (Hp1 : forall o', h0 `prefix_of` hc ++ [o'])
      by (intros o'; now apply prefix_app_r).
    destruct o as [xs|kvs|[d|]]; simpl in Hok.
    + rewrite (bind_ok _ _ hc (hc ++ [OList []]) (List.length hc))
        by reflexivity.
      destruct (deepcopy_items_total h0 n _ IH xs _ _ (Hp1 _)
                  (closed_alloc hc (OList []) Hc (Forall_nil_2 _)) (Hm1 _) Hok
                  ltac:(lia))
        as (ys & m' & h2 & E & P2 & C2 & M2 & X2 & V2 & L2).
      rewrite (bind_ok _ _ _ _ _ E). cbv beta iota.
      pose proof (prefix_length _ _ P2) as L. rewrite length_app in L.
      simpl in L.
      exists (VRef (List.length hc)), m', (<[List.length hc := OList ys]> h2).
      split; [reflexivity|]. split; [|split; [|split; [|split]]].
      * apply prefix_store; [|lia].
        transitivity (hc ++ [OList []]); [now apply prefix_app_r|exact P2].
      * now apply closed_store.
      * eapply memo_ok_mono; [exact M2|]. now rewrite length_insert.
      * eapply memo_ext_trans; [|exact X2]. now apply memo_ext_cons.
      * simpl. rewrite length_insert. lia.
    + rewrite (bind_ok _ _ hc (hc ++ [ODict []]) (List.length hc))
        by reflexivity.
      destruct (deepcopy_items_total h0 n _ IH (map snd kvs) _ _ (Hp1 _)
                  (closed_alloc hc (ODict []) Hc (Forall_nil_2 _)) (Hm1 _) Hok
                  ltac:(lia))
        as (ys & m' & h2 & E & P2 & C2 & M2 & X2 & V2 & L2).
      rewrite (bind_ok _ _ _ _ _ E). cbv beta iota.
      pose proof (prefix_length _ _ P2) as L. rewrite length_app in L.
      simpl in L.
      exists (VRef (List.length hc)), m',
        (<[List.length hc := ODict (combine (map fst kvs) ys)]> h2).
      split; [reflexivity|]. split; [|split; [|split; [|split]]].
      * apply prefix_store; [|lia].
        transitivity (hc ++ [ODict []]); [now apply prefix_app_r|exact P2].
      * apply closed_store; [exact C2|]. simpl.
        rewrite combine_values; [exact V2|].
        rewrite L2. now rewrite !length_map.
      * eapply memo_ok_mono; [exact M2|]. now rewrite length_insert.
      * eapply memo_ext_trans; [|exact X2]. now apply memo_ext_cons.
      * simpl. rewrite length_insert. lia.
    + rewrite (bind_ok _ _ hc (hc ++ [OInst None]) (List.length hc))
        by reflexivity.
      destruct (IH d _ _ (Hp1 _) (closed_alloc hc (OInst None) Hc I) (Hm1 _) Hok
                  ltac:(lia))
        as (d' & m' & h2 & E & P2 & C2 & M2 & X2 & V2).
      rewrite (bind_ok _ _ _ _ _ E). cbv beta iota.
      pose proof (prefix_length _ _ P2) as L. rewrite length_app in L.
      simpl in L.
      exists (VRef (List.length hc)), m',
        (<[List.length hc := OInst (Some d')]> h2).
      split; [reflexivity|]. split; [|split; [|split; [|split]]].
      * apply prefix_store; [|lia].
        transitivity (hc ++ [OInst None]); [now apply prefix_app_r|exact P2].
      * now apply closed_store.
      * eapply memo_ok_mono; [exact M2|]. now rewrite length_insert.
      * eapply memo_ext_trans; [|exact X2]. now apply memo_ext_cons.
      * simpl. rewrite length_insert. lia.
    + rewrite (bind_ok _ _ hc (hc ++ [OInst None]) (List.length hc))
        by reflexivity.
      exists (VRef (List.length hc)), ((l, List.length hc) :: m),
        (hc ++ [OInst None]).
      split; [reflexivity|]. split; [|split; [|split; [|split]]].
      * now apply prefix_app_r.
      * now apply closed_alloc.
      * apply Hm1.
      * now apply memo_ext_cons.
      * simpl. rewrite length_app. simpl. lia.
Qed.

(** [copy.deepcopy] returns on every closed store, and leaves it closed. *)
Lemma deepcopy_total (h : heap) (x : value) :
  closed h -> value_ok (List.length h) x ->
  exists (y : value) (h' : heap),
    deepcopy x h = Ok y h' /\ h `prefix_of` h' /\ closed h' /\
    value_ok (List.length h') y.
Proof.
  intros Hc Hx.
  destruct (deepcopy_rec_total h Hc (List.length h) x [] h)
    as (y & m' & h' & E & P & C & _ & _ & V); try assumption.
  - reflexivity.
  - intros l y H. discriminate H.
  - unfold unmemo.
    etransitivity; [apply List.filter_length_le|]. now rewrite length_seq.
  - exists y, h'. unfold deepcopy. rewrite E. auto.
Qed.

(** ** copy returns *)

Lemma dict_get_ok (n : nat) (kvs : dict) (k : string) (v : value) :
  Forall (value_ok n) (map snd kvs) -> dict_get kvs k = Some v ->
  value_ok n v.
Proof.
  induction kvs as [|[k' v'] kvs IH]; simpl; intros Hall Hk; [discriminate|].
  apply Forall_cons in Hall as [Hv Hall].
  destruct (String.eqb k' k); [now injection Hk as <- | now apply IH].
Qed.

Lemma record_fields_ok (h : heap) (r dl : loc) (kvs : dict) :
  closed h -> is_record h r dl kvs ->
  Forall (value_ok (List.length h)) (map snd kvs).
Proof. intros Hc [_ Hd]. exact (closed_lookup _ _ _ Hc Hd). Qed.

Lemma text_ok (n : nat) (v : value) (s : string) :
  text_of v = Some s -> value_ok n v.
Proof. destruct v; simpl; try tauto. discriminate. Qed.

Lemma filter_values_ok (n : nat) (f : string * value -> bool) (kvs : dict) :
  Forall (value_ok n) (map snd kvs) ->
  Forall (value_ok n) (map snd (List.filter f kvs)).
Proof.
  induction kvs as [|kv kvs IH]; simpl; intros H; [constructor|].
  apply Forall_cons in H as [Hv H].
  destruct (f kv); simpl; [constructor|]; auto.
Qed.

Lemma defaulted_ok (h : heap) (tail : list obj) (arg v : value) :
  defaulted h tail arg v -> value_ok (List.length h) arg ->
  value_ok (List.length h + 2 + List.length tail) v.
Proof.
  intros [->|(hi & j & _ & _ & -> & Hj)] Ha.
  - eapply value_ok_mono; [|exact Ha]. lia.
  - simpl. apply lookup_lt_Some in Hj. lia.
Qed.

Lemma record_at_length (h : heap) (kvs : dict) (tail : list obj) :
  List.length (record_at h kvs tail)
  = (List.length h + 2 + List.length tail)%nat.
Proof. unfold record_at. rewrite length_app. simpl. lia. Qed.

Lemma closed_record_at (h : heap) (kvs : dict) (tail : list obj) :
  closed h ->
  Forall (value_ok (List.length h + 2 + List.length tail)) (map snd kvs) ->
  Forall (fun o => o = OList [] \/ o = ODict Instance.default_attack_attrs)
    tail ->
  closed (record_at h kvs tail).
Proof.
  intros Hc Hk Ht. unfold closed. rewrite record_at_length.
  unfold record_at. apply Forall_app. split.
  - eapply Forall_impl; [exact Hc|]. intros o. apply obj_ok_mono. lia.
  - constructor; [simpl; lia|]. constructor; [exact Hk|].
    eapply Forall_impl; [exact Ht|].
    intros o [-> | ->]; simpl; repeat constructor.
Qed.

Lemma copy_arg_run (hc : heap) (r dl : loc) (kvs : dict) (f : string)
    (l : loc) (xs : list value) :
  is_record hc r dl kvs -> Instance.is_member f = false -> f <> "_data" ->
  dict_get kvs f = Some (VRef l) -> hc !! l = Some (OList xs) ->
  (do v <- Instance.self_get r f; copy_method v) hc
  = Ok (VRef (List.length hc)) (hc ++ [OList xs]).
Proof.
  intros Hrec Hm Hf Hk Hl.
  rewrite (bind_ok _ _ _ _ _ (self_get_some hc r dl kvs Hrec f _ Hm Hf Hk)).
  unfold copy_method, bind, load. now rewrite Hl.
Qed.

Lemma list_arg_run (hc : heap) (r dl : loc) (kvs : dict) (f : string)
    (l : loc) (xs : list value) :
  is_record hc r dl kvs -> Instance.is_member f = false -> f <> "_data" ->
  dict_get kvs f = Some (VRef l) -> hc !! l = Some (OList xs) ->
  (do v <- Instance.self_get r f; Instance.list_of v) hc
  = Ok (VRef (List.length hc)) (hc ++ [OList xs]).
Proof.
  intros Hrec Hm Hf Hk Hl.
  rewrite (bind_ok _ _ _ _ _ (self_get_some hc r dl kvs Hrec f _ Hm Hf Hk)).
  unfold Instance.list_of, Instance.py_iter, bind, load. now rewrite Hl.
Qed.

(** A copy of a list of a closed store keeps the store closed. *)
Lemma closed_copy_list (h hc : heap) (l : loc) (xs : list value) :
  closed h -> h `prefix_of` hc -> closed hc -> h !! l = Some (OList xs) ->
  closed (hc ++ [OList xs]) /\ h `prefix_of` hc ++ [OList xs].
Proof.
  intros Hh Hp Hc Hl. split; [|now apply prefix_app_r].
  apply closed_alloc; [exact Hc|].
  eapply obj_ok_mono; [|exact (closed_lookup _ _ _ Hh Hl)].
  apply prefix_length in Hp. lia.
Qed.

(** [copy] returns on every record that is ready for it. *)
Lemma copy_total (h : heap) (r dl : loc) (kvs : dict) :
  is_record h r dl kvs -> copy_ready h kvs ->
  exists (c : loc) (h' : heap), Instance.copy r h = Ok c h'.
Proof.
  intros Hrec (Hcl & (q & qs & Hq & Tq) & (p & ps & Hp & Tp) & Hseq &
               (va & Ha)).
  pose proof (record_fields_ok _ _ _ _ Hcl Hrec) as Hvals.
  destruct (Hseq "reference_responses") as (l1 & x1 & F1 & L1);
    [simpl; tauto|].
  destruct (Hseq "target_responses") as (l2 & x2 & F2 & L2); [simpl; tauto|].
  destruct (Hseq "eval_results") as (l3 & x3 & F3 & L3); [simpl; tauto|].
  destruct (Hseq "parents") as (l4 & x4 & F4 & L4); [simpl; tauto|].
  destruct (Hseq "children") as (l5 & x5 & F5 & L5); [simpl; tauto|].
  unfold Instance.copy.
  rewrite (bind_ok _ _ _ _ _
             (self_get_some h r dl kvs Hrec "query" q eq_refl
                ltac:(discriminate) Hq)).
  rewrite (bind_ok _ _ _ _ _
             (self_get_some h r dl kvs Hrec "jailbreak_prompt" p eq_refl
                ltac:(discriminate) Hp)).
  (* the five sequences *)
  rewrite (bind_ok _ _ _ _ _
             (copy_arg_run h r dl kvs "reference_responses" l1 x1 Hrec
                eq_refl ltac:(discriminate) F1 L1)).
  destruct (closed_copy_list h h l1 x1 Hcl ltac:(reflexivity) Hcl L1)
    as [CA PA].
  set (hA := h ++ [OList x1]) in *.
  rewrite (bind_ok _ _ _ _ _
             (copy_arg_run hA r dl kvs "target_responses" l2 x2
                (is_record_prefix _ _ _ _ _ Hrec PA)
                eq_refl ltac:(discriminate) F2
                (prefix_lookup_Some _ _ _ _ L2 PA))).
  destruct (closed_copy_list h hA l2 x2 Hcl PA CA L2) as [CB PB].
  set (hB := hA ++ [OList x2]) in *.
  rewrite (bind_ok _ _ _ _ _
             (copy_arg_run hB r dl kvs "eval_results" l3 x3
                (is_record_prefix _ _ _ _ _ Hrec PB)
                eq_refl ltac:(discriminate) F3
                (prefix_lookup_Some _ _ _ _ L3 PB))).
  destruct (closed_copy_list h hB l3 x3 Hcl PB CB L3) as [CC PC].
  set (hC := hB ++ [OList x3]) in *.
  rewrite (bind_ok _ _ _ _ _
             (list_arg_run hC r dl kvs "parents" l4 x4
                (is_record_prefix _ _ _ _ _ Hrec PC)
                eq_refl ltac:(discriminate) F4
                (prefix_lookup_Some _ _ _ _ L4 PC))).
  destruct (closed_copy_list h hC l4 x4 Hcl PC CC L4) as [CD PD].
  set (hD := hC ++ [OList x4]) in *.
  rewrite (bind_ok _ _ _ _ _
             (list_arg_run hD r dl kvs "children" l5 x5
                (is_record_prefix _ _ _ _ _ Hrec PD)
                eq_refl ltac:(discriminate) F5
                (prefix_lookup_Some _ _ _ _ L5 PD))).
  destruct (closed_copy_list h hD l5 x5 Hcl PD CD L5) as [CE PE].
  set (hE := hD ++ [OList x5]) in *.
  pose proof (prefix_length _ _ PE) as LE.
  (* attack_attrs *)
  pose proof (is_record_prefix _ _ _ _ _ Hrec PE) as RE.
  destruct (deepcopy_total hE va CE) as (a6 & h6 & E6 & P6 & C6 & V6).
  { eapply value_ok_mono; [exact LE|]. exact (dict_get_ok _ _ _ _ Hvals Ha). }
  rewrite (bind_ok _ _ hE h6 a6).
  2:{ rewrite (bind_ok _ _ _ _ _
                 (self_get_some hE r dl kvs RE "attack_attrs" va eq_refl
                    ltac:(discriminate) Ha)).
      exact E6. }
  pose proof (prefix_length _ _ P6) as L6.
  (* the constructor *)
  match goal with |- context [Instance.new ?a] =>
    destruct (new_run a h6 eq_refl)
      as (tail & v1 & v2 & v3 & v4 & v5 & w6 & Hrun & D1 & D2 & D3 & D4 & D5 &
          D6 & T)
  end.
  cbn [a_query a_jailbreak_prompt] in Hrun. rewrite Tq, Tp in Hrun.
  cbn [a_reference_responses a_target_responses a_eval_results a_parents
       a_children a_attack_attrs] in D1, D2, D3, D4, D5, D6.
  rewrite (bind_ok _ _ _ _ _ Hrun). clear Hrun.
  remember (id_of qs ps) as i eqn:Ei.
  match goal with |- context [record_at h6 ?k tail] =>
    remember k as kvs7 eqn:E7 end.
  unfold init_fields in E7. simpl in E7.
  set (h7 := record_at h6 kvs7 tail).
  assert (P7 : h `prefix_of` h7).
  { transitivity hE; [exact PE|]. transitivity h6; [exact P6|].
    apply record_at_prefix. }
  pose proof (is_record_prefix _ _ _ _ _ Hrec P7) as Rr7.
  pose proof (record_at_is_record h6 kvs7 tail) as Rc7. fold h7 in Rc7.
  assert (C7 : closed h7).
  { apply closed_record_at; [exact C6| |exact T].
    assert (Hlen : forall k, (k < List.length hE)%nat ->
              value_ok (List.length h6) (VRef k)) by (intros k Hk; simpl; lia).
    assert (LhA : (List.length hA < List.length hE)%nat).
    { unfold hE, hD, hC, hB. rewrite !length_app. simpl. lia. }
    assert (LhB : (List.length hB < List.length hE)%nat).
    { unfold hE, hD, hC. rewrite !length_app. simpl. lia. }
    assert (LhC : (List.length hC < List.length hE)%nat).
    { unfold hE, hD. rewrite !length_app. simpl. lia. }
    assert (LhD : (List.length hD < List.length hE)%nat).
    { unfold hE. rewrite !length_app. simpl. lia. }
    assert (Lh : (List.length h < List.length hE)%nat).
    { unfold hA in LhA. rewrite length_app in LhA. simpl in LhA. lia. }
    rewrite E7. simpl.
    repeat (constructor; [|]); try constructor;
      try (eapply text_ok; eassumption);
      try (eapply defaulted_ok; [eassumption|]; now apply Hlen);
      try exact I.
    - destruct D6 as [->|(j & -> & Hj)].
      + eapply value_ok_mono; [|exact V6]. lia.
      + simpl. lia.
    - now rewrite Ei. }
  (* rest_data *)
  rewrite (bind_ok _ _ h7 (h7 ++ [ODict (List.filter
             (fun kv => negb (dict_mem kvs7 (fst kv))) kvs)])
             (VRef (List.length h7))).
  2:{ rewrite (bind_ok _ _ _ _ _ (self_get_data _ _ _ _ Rr7)).
      rewrite (bind_ok _ _ _ _ _ (as_dict_ok _ _ _ (proj2 Rr7))).
      cbv beta iota.
      rewrite (bind_ok _ _ _ _ _ (self_get_data _ _ _ _ Rc7)).
      rewrite (bind_ok _ _ _ _ _ (as_dict_ok _ _ _ (proj2 Rc7))).
      reflexivity. }
  set (rest := List.filter (fun kv => negb (dict_mem kvs7 (fst kv))) kvs).
  set (h8 := h7 ++ [ODict rest]).
  assert (P8 : h7 `prefix_of` h8) by now apply prefix_app_r.
  assert (C8 : closed h8).
  { apply closed_alloc; [exact C7|]. simpl. apply filter_values_ok.
    eapply values_ok_mono; [|exact Hvals].
    apply prefix_length in P7. lia. }
  pose proof (is_record_prefix _ _ _ _ _ Rc7 P8) as Rc8.
  (* the update *)
  destruct (deepcopy_total h8 (VRef (List.length h7)) C8)
    as (cpy & h9 & E9 & P9 & C9 & V9).
  { simpl. unfold h8. rewrite length_app. simpl. lia. }
  pose proof E9 as E9'.
  apply (deepcopy_dict _ rest) in E9' as (y' & vs & -> & _ & _ & _ & Hy');
    [|unfold h8; now rewrite list_lookup_middle].
  pose proof (is_record_prefix _ _ _ _ _ Rc8 P9) as Rc9.
  exists (List.length h6),
    (<[S (List.length h6) :=
         ODict (dict_update kvs7 (combine (map fst rest) vs))]> h9).
  rewrite (bind_ok _ _ h8
             (<[S (List.length h6) :=
                  ODict (dict_update kvs7 (combine (map fst rest) vs))]> h9)
             tt); [reflexivity|].
  rewrite (bind_ok _ _ _ _ _ (self_get_data _ _ _ _ Rc8)).
  rewrite (bind_ok _ _ _ _ _ E9).
  unfold update_method.
  rewrite (bind_ok _ _ _ _ _ (as_dict_ok _ _ _ (proj2 Rc9))).
  cbv beta iota.
  rewrite (bind_ok _ _ _ _ _ (as_dict_ok _ _ _ Hy')).
  reflexivity.
Qed.

(** ** to_dict returns *)

Lemma pop_step_closed (h : heap) (r dl : loc) (kvs : dict) (k : string) :
  is_record h r dl kvs -> closed h ->
  exists h1,
    (do d <- Instance.self_get r "_data"; dict_pop d k) h
    = Ok (popped kvs k) h1 /\
    is_record h1 r dl (dict_del kvs k) /\ closed h1.
Proof.
  intros Hrec Hc.
  rewrite (bind_ok _ _ _ _ _ (self_get_data _ _ _ _ Hrec)).
  rewrite (dict_pop_record _ _ _ _ (proj2 Hrec)). unfold popped.
  destruct (dict_get kvs k) as [v|] eqn:E.
  - eexists. split; [reflexivity|].
    split; [exact (is_record_store _ _ _ _ _ Hrec)|].
    apply closed_store; [exact Hc|]. simpl. unfold dict_del.
    apply filter_values_ok. exact (record_fields_ok _ _ _ _ Hc Hrec).
  - exists h. split; [reflexivity|]. split; [|exact Hc].
    now rewrite dict_del_absent.
Qed.

(** [to_dict] returns on every record of a closed store. *)
Lemma to_dict_total (h : heap) (r dl : loc) (kvs : dict) :
  is_record h r dl kvs -> closed h ->
  exists (d : value) (h' : heap), Instance.to_dict r h = Ok d h'.
Proof.
  intros Hrec Hc. unfold Instance.to_dict.
  destruct (pop_step_closed h r dl kvs "parents" Hrec Hc)
    as (h1 & E1 & R1 & C1).
  rewrite (bind_ok _ _ _ _ _ E1). clear E1.
  destruct (pop_step_closed h1 r dl _ "children" R1 C1)
    as (h2 & E2 & R2 & C2).
  rewrite (bind_ok _ _ _ _ _ E2). clear E2.
  destruct (deepcopy_total h2 (VRef dl) C2) as (y & h3 & E3 & P3 & _ & _).
  { simpl. exact (lookup_lt_Some _ _ _ (proj2 R2)). }
  rewrite (bind_ok _ _ h2 h3 y)
    by (rewrite (bind_ok _ _ _ _ _ (self_get_data _ _ _ _ R2)); exact E3).
  pose proof (is_record_prefix _ _ _ _ _ R2 P3) as R3.
  destruct (restore_step h3 r dl _ "parents" (popped kvs "parents") R3
              ltac:(discriminate)) as (h4 & E4 & R4 & _).
  rewrite (bind_ok _ _ _ _ _ E4). clear E4.
  destruct (restore_step h4 r dl _ "children"
              (popped (dict_del kvs "parents") "children") R4
              ltac:(discriminate)) as (h5 & E5 & _ & _).
  rewrite (bind_ok _ _ _ _ _ E5). now exists y, h5.
Qed.

(** ** The sample record is ready for copy *)

Lemma family_is_record :
  is_record family_heap family_child 9 family_fields.
Proof. split; reflexivity. Qed.

Lemma family_copy_ready : copy_ready family_heap family_fields.
Proof.
  split; [|split; [|split; [|split]]].
  - unfold closed. set (hh := family_heap). vm_compute in hh. subst hh.
    cbn [List.length].
    repeat (constructor; [simpl; repeat constructor; try lia|]).
    constructor.
  - exists (VStr "test"), "test". split; vm_compute; reflexivity.
  - exists (VStr "test_prompt"), "test_prompt".
    split; vm_compute; reflexivity.
  - intros f Hf. simpl in Hf.
    destruct Hf as [<-|[<-|[<-|[<-|[<-|[]]]]]]; eexists _, _;
      split; vm_compute; reflexivity.
  - eexists. vm_compute. reflexivity.
Qed.

(** ** C9: the clone's index *)



(** ** C1: the clone's id *)




(** ** C4: the clone's sequences *)

Lemma list_mutate_run (h : heap) (l : loc) (xs : list value)
    (g : list value -> list value) :
  h !! l = Some (OList xs) ->
  list_mutate (VRef l) g h = Ok tt (<[l := OList (g xs)]> h).
Proof. intros Hl. unfold list_mutate, bind, load. now rewrite Hl. Qed.



(** * Further properties *)

(** ** The order of the fields *)

Lemma dict_keys_set (kvs : dict) (k : string) (v : value) :
  dict_keys (dict_set kvs k v)
  = if dict_mem kvs k then dict_keys kvs else dict_keys kvs ++ [k].
Proof.
  unfold dict_mem, dict_keys.
  induction kvs as [|[k' v'] kvs IH]; simpl; [reflexivity|].
  destruct (String.eqb k' k) eqn:E; simpl.
  - apply String.eqb_eq in E. now subst.
  - rewrite IH. now destruct (dict_get kvs k).
Qed.

Lemma dict_keys_del (kvs : dict) (k : string) :
  dict_keys (dict_del kvs k)
  = List.filter (fun k' => negb (String.eqb k' k)) (dict_keys kvs).
Proof.
  unfold dict_keys, dict_del.
  induction kvs as [|[k' v'] kvs IH]; simpl; [reflexivity|].
  destruct (String.eqb k' k); simpl; now rewrite IH.
Qed.

Lemma keys_record (h : heap) (r dl : loc) (kvs : dict) :
  is_record h r dl kvs ->
  Instance.keys r h = Ok (dict_keys kvs) h /\
  Instance.values r h = Ok (map snd kvs) h /\
  Instance.items r h = Ok kvs h.
Proof.
  intros Hrec.
  unfold Instance.keys, Instance.values, Instance.items.
  rewrite !(bind_ok _ _ _ _ _ (self_get_data _ _ _ _ Hrec)).
  rewrite !(bind_ok _ _ _ _ _ (as_dict_ok _ _ _ (proj2 Hrec))).
  auto.
Qed.

(** X1.  A write changes the field written and nothing else: the other
    fields keep their values and every field keeps its place in the
    enumeration; a name that was not a field goes last. *)
Theorem write_only_that_field (h : heap) (r dl : loc) (kvs : dict)
    (w : style) (n : string) (v : value) :
  is_record h r dl kvs -> n <> "_data" ->
  exists h',
    write r (w, n, v) h = Ok tt h' /\
    Instance.keys r h'
      = Ok (if dict_mem kvs n then dict_keys kvs else dict_keys kvs ++ [n]) h' /\
    Instance.__getitem__ r n h' = Ok v h' /\
    (forall k, k <> n ->
       Instance.__getitem__ r k h' =
       match dict_get kvs k with
       | Some x => Ok x h'
       | None => Raise AttributeError h'
       end) /\
    (forall l, l <> dl -> h' !! l = h !! l).
Proof.
  intros Hrec Hn.
  pose proof (is_record_store h r dl kvs (dict_set kvs n v) Hrec) as Hrec'.
  eexists. split; [exact (write_record h r dl kvs w n v Hrec Hn)|].
  split; [|split; [|split]].
  - rewrite (proj1 (keys_record _ _ _ _ Hrec')). now rewrite dict_keys_set.
  - apply (getitem_record _ _ _ _ _ _ Hrec'). apply dict_get_set_eq.
  - intros k Hk. unfold Instance.__getitem__.
    rewrite (getattr_record _ _ _ _ Hrec').
    rewrite dict_get_set_ne by congruence. reflexivity.
  - intros l Hl. now rewrite list_lookup_insert_ne.
Qed.

Lemma write_only_that_field_witness :
  is_record demo_heap 0 1 demo_fields /\
  "score" <> "_data" /\
  exists h',
    write 0%nat (ByAttr, "score", VInt 3) demo_heap = Ok tt h' /\
    Instance.keys 0 h'
      = Ok ["query"; "jailbreak_prompt"; "reference_responses";
            "target_responses"; "eval_results"; "parents"; "children";
            "index"; "attack_attrs"; "note"; "tag"; "id"; "score"] h' /\
    Instance.__getitem__ 0 "note" h' = Ok (VInt 1) h'.
Proof.
  assert (Hrec : is_record demo_heap 0 1 demo_fields) by (split; reflexivity).
  assert (Hn : "score" <> "_data") by discriminate.
  split; [exact Hrec|]. split; [exact Hn|].
  destruct (write_only_that_field demo_heap 0%nat 1%nat demo_fields ByAttr
              "score" (VInt 3) Hrec Hn) as (h' & Hw & Hk & _ & Ho & _).
  exists h'. split; [exact Hw|]. split; [exact Hk|].
  exact (Ho "note" ltac:(discriminate)).
Defined.

(** ** Deleting fields that are there *)

Lemma dict_keys_del_all (ks : list string) (kvs : dict) :
  dict_keys (dict_del_all kvs ks)
  = List.filter (fun k => negb (existsb (String.eqb k) ks)) (dict_keys kvs).
Proof.
  unfold dict_del_all. revert kvs.
  induction ks as [|k0 ks IH]; intros kvs; simpl.
  - induction (dict_keys kvs) as [|k l IHl]; simpl; [reflexivity|].
    now rewrite <- IHl.
  - rewrite IH, dict_keys_del.
    induction (dict_keys kvs) as [|k l IHl]; simpl; [reflexivity|].
    destruct (String.eqb k k0); simpl; [exact IHl|].
    destruct (existsb (String.eqb k) ks); simpl; now rewrite IHl.
Qed.

Lemma delete_frame (ks : list string) :
  forall (h : heap) (r dl : loc) (kvs : dict),
  is_record h r dl kvs ->
  forallb (dict_mem kvs) ks = true -> NoDup ks ->
  exists h1,
    Instance.delete r ks h = Ok tt h1 /\
    is_record h1 r dl (dict_del_all kvs ks) /\
    forall l, l <> dl -> h1 !! l = h !! l.
Proof.
  induction ks as [|k ks IH]; intros h r dl kvs Hrec Hall Hnd.
  - exists h. split; [reflexivity|]. split; [exact Hrec|]. reflexivity.
  - simpl in Hall. apply andb_prop in Hall as [Hk Hall].
    apply NoDup_cons in Hnd as [Hnotin Hnd].
    pose proof (delete_one h r dl kvs Hrec k) as H1. rewrite Hk in H1.
    destruct (IH _ r dl (dict_del kvs k) (is_record_store _ _ _ _ _ Hrec))
      as (h1 & Hdel & Hrec1 & Hfr); [|assumption|].
    + apply forallb_forall. intros k' Hin.
      rewrite forallb_forall in Hall. specialize (Hall k' Hin).
      unfold dict_mem in *. rewrite dict_get_del_ne; [assumption|].
      intros ->. apply Hnotin. now apply list_elem_of_In.
    + exists h1. split; [|split; [assumption|]].
      * rewrite (delete_cons _ _ _ _ _ H1). assumption.
      * intros l Hl. rewrite (Hfr l Hl). now rewrite list_lookup_insert_ne.
Qed.

(** X2.  [delete] with distinct keys that are all fields returns;
    afterwards exactly those fields are gone, the others keep their
    values and their order, and no other object has changed. *)
Theorem delete_removes_exactly (h : heap) (r dl : loc) (kvs : dict)
    (ks : list string) :
  is_record h r dl kvs ->
  NoDup ks -> forallb (dict_mem kvs) ks = true ->
  exists h',
    Instance.delete r ks h = Ok tt h' /\
    Instance.keys r h'
      = Ok (List.filter (fun k => negb (existsb (String.eqb k) ks))
              (dict_keys kvs)) h' /\
    (forall k, In k ks ->
       Instance.__getitem__ r k h' = Raise AttributeError h') /\
    (forall k, ~ In k ks ->
       Instance.__getitem__ r k h' =
       match dict_get kvs k with
       | Some x => Ok x h'
       | None => Raise AttributeError h'
       end) /\
    (forall l, l <> dl -> h' !! l = h !! l).
Proof.
  intros Hrec Hnd Hall.
  destruct (delete_frame ks h r dl kvs Hrec Hall Hnd) as (h' & Hdel & Hrec' & Hfr).
  exists h'. split; [exact Hdel|]. split; [|split; [|split]].
  - rewrite (proj1 (keys_record _ _ _ _ Hrec')). now rewrite dict_keys_del_all.
  - intros k Hk. unfold Instance.__getitem__.
    rewrite (getattr_record _ _ _ _ Hrec').
    now rewrite dict_del_all_gone.
  - intros k Hk. unfold Instance.__getitem__.
    rewrite (getattr_record _ _ _ _ Hrec').
    now rewrite dict_del_all_other.
  - exact Hfr.
Qed.

Lemma delete_removes_exactly_witness :
  is_record demo_heap 0 1 demo_fields /\
  NoDup ["tag"; "index"] /\
  forallb (dict_mem demo_fields) ["tag"; "index"] = true /\
  exists h',
    Instance.delete 0 ["tag"; "index"] demo_heap = Ok tt h' /\
    Instance.keys 0 h'
      = Ok ["query"; "jailbreak_prompt"; "reference_responses";
            "target_responses"; "eval_results"; "parents"; "children";
            "attack_attrs"; "note"; "id"] h' /\
    Instance.__getitem__ 0 "index" h' = Raise AttributeError h' /\
    Instance.__getitem__ 0 "note" h' = Ok (VInt 1) h'.
Proof.
  assert (Hrec : is_record demo_heap 0 1 demo_fields) by (split; reflexivity).
  assert (Hnd : NoDup ["tag"; "index"]).
  { constructor; [intros H; apply list_elem_of_In in H; simpl in H;
                  destruct H as [H|[]]; discriminate H|].
    constructor; [intros H; inversion H|constructor]. }
  split; [exact Hrec|]. split; [exact Hnd|]. split; [reflexivity|].
  destruct (delete_removes_exactly demo_heap 0%nat 1%nat demo_fields
              ["tag"; "index"] Hrec Hnd eq_refl)
    as (h' & Hd & Hk & Hin & Hout & _).
  exists h'. split; [exact Hd|]. split; [exact Hk|]. split.
  - apply Hin. simpl. tauto.
  - apply (Hout "note"). simpl. intros [H|[H|[]]]; discriminate H.
Defined.

(** ** The fields of a new record *)

Lemma dict_mem_set (kvs : dict) (k k' : string) (v : value) :
  dict_mem (dict_set kvs k v) k' = String.eqb k k' || dict_mem kvs k'.
Proof.
  unfold dict_mem. destruct (String.eqb k k') eqn:E.
  - apply String.eqb_eq in E. subst. now rewrite dict_get_set_eq.
  - apply String.eqb_neq in E. now rewrite dict_get_set_ne.
Qed.

Lemma dict_keys_update (other kvs : dict) :
  NoDup (dict_keys other) ->
  dict_keys (dict_update kvs other)
  = dict_keys kvs
    ++ List.filter (fun k => negb (dict_mem kvs k)) (dict_keys other).
Proof.
  unfold dict_update. revert kvs.
  induction other as [|[k v] other IH]; intros kvs Hnd; simpl.
  - now rewrite app_nil_r.
  - simpl in Hnd. apply NoDup_cons in Hnd as [Hk Hnd].
    rewrite IH by exact Hnd. rewrite dict_keys_set.
    assert (Hf : List.filter (fun k0 => negb (dict_mem (dict_set kvs k v) k0))
                   (dict_keys other)
                 = List.filter (fun k0 => negb (dict_mem kvs k0))
                     (dict_keys other)).
    { apply filter_ext_in. intros k0 Hin. rewrite dict_mem_set.
      destruct (String.eqb k k0) eqn:E; [|reflexivity].
      apply String.eqb_eq in E. subst k0. exfalso. apply Hk.
      now apply list_elem_of_In. }
    rewrite Hf. destruct (dict_mem kvs k); simpl; [reflexivity|].
    now rewrite <- app_assoc.
Qed.

Lemma dict_get_update_in (other kvs : dict) (k : string) :
  NoDup (dict_keys other) ->
  dict_get (dict_update kvs other) k =
  match dict_get other k with
  | Some v => Some v
  | None => dict_get kvs k
  end.
Proof.
  unfold dict_update. revert kvs.
  induction other as [|[k0 v0] other IH]; intros kvs Hnd; simpl;
    [reflexivity|].
  simpl in Hnd. apply NoDup_cons in Hnd as [Hk Hnd].
  rewrite IH by exact Hnd.
  destruct (String.eqb k0 k) eqn:E.
  - apply String.eqb_eq in E. subst k0.
    assert (Hnone : dict_get other k = None).
    { apply dict_get_keys. intros Hin. apply Hk. now apply list_elem_of_In. }
    rewrite Hnone. apply dict_get_set_eq.
  - apply String.eqb_neq in E.
    destruct (dict_get other k); [reflexivity|].
    now apply dict_get_set_ne.
Qed.

Lemma kwargs_key_not_named (kw : dict) (k : string) :
  kwargs_ok kw = true -> In k (dict_keys kw) -> ~ In k named_params.
Proof.
  intros Hok Hin Hnamed.
  pose proof (kwargs_ok_named kw k Hok Hnamed) as Hnone.
  apply dict_get_keys in Hnone. contradiction.
Qed.

Lemma init_fields_keys (a : init_args) (v1 v2 v3 v4 v5 v6 : value) :
  kwargs_ok (a_kwargs a) = true -> NoDup (dict_keys (a_kwargs a)) ->
  dict_keys (init_fields a v1 v2 v3 v4 v5 v6)
  = fixed_fields
    ++ List.filter (fun k => negb (String.eqb k "index"))
         (dict_keys (a_kwargs a)).
Proof.
  intros Hok Hnd. unfold init_fields.
  rewrite dict_keys_update by exact Hnd.
  change (dict_keys _) with fixed_fields at 1. f_equal.
  apply filter_ext_in. intros k Hin.
  pose proof (kwargs_key_not_named _ k Hok Hin) as Hn.
  unfold dict_mem. cbn [dict_get].
  repeat match goal with
         | |- context [String.eqb ?s k] =>
           lazymatch s with
           | "index" => fail
           | _ =>
             let E := fresh in
             destruct (String.eqb s k) eqn:E;
             [apply String.eqb_eq in E; subst k; exfalso; apply Hn;
              simpl; tauto|]
           end
         end.
  rewrite (String.eqb_sym k "index").
  now destruct (String.eqb "index" k).
Qed.



(** ** Field names are unique *)

Lemma dict_set_nodup (kvs : dict) (k : string) (v : value) :
  NoDup (dict_keys kvs) -> NoDup (dict_keys (dict_set kvs k v)).
Proof.
  intros Hnd. rewrite dict_keys_set. unfold dict_mem.
  destruct (dict_get kvs k) eqn:E; [exact Hnd|].
  apply NoDup_app. split; [exact Hnd|]. split.
  - intros x Hx Hk. apply list_elem_of_singleton in Hk. subst x.
    apply dict_get_keys in E. apply E. now apply list_elem_of_In.
  - apply NoDup_singleton.
Qed.

Lemma dict_del_nodup (kvs : dict) (k : string) :
  NoDup (dict_keys kvs) -> NoDup (dict_keys (dict_del kvs k)).
Proof.
  intros Hnd. rewrite dict_keys_del. apply NoDup_ListNoDup.
  apply List.NoDup_filter. now apply NoDup_ListNoDup.
Qed.

Lemma dict_update_nodup (other kvs : dict) :
  NoDup (dict_keys kvs) -> NoDup (dict_keys (dict_update kvs other)).
Proof.
  unfold dict_update. revert kvs.
  induction other as [|[k v] other IH]; intros kvs Hnd; simpl; [exact Hnd|].
  apply IH. now apply dict_set_nodup.
Qed.

Lemma dict_del_all_nodup (ks : list string) (kvs : dict) :
  NoDup (dict_keys kvs) -> NoDup (dict_keys (dict_del_all kvs ks)).
Proof.
  unfold dict_del_all. revert kvs.
  induction ks as [|k ks IH]; intros kvs Hnd; simpl; [exact Hnd|].
  apply IH. now apply dict_del_nodup.
Qed.

Lemma after_to_dict_nodup (kvs : dict) :
  NoDup (dict_keys kvs) -> NoDup (dict_keys (after_to_dict kvs)).
Proof.
  intros Hnd. unfold after_to_dict, restored, without_lineage.
  repeat match goal with
         | |- context [if ?b then _ else _] => destruct b
         end;
    repeat (apply dict_set_nodup || apply dict_del_nodup); exact Hnd.
Qed.

Lemma new_nodup (a : init_args) (h h' : heap) (r : loc) :
  kwargs_ok (a_kwargs a) = true -> Instance.new a h = Ok r h' ->
  exists dl kvs, is_record h' r dl kvs /\ NoDup (dict_keys kvs).
Proof.
  intros Hok Hnew.
  destruct (new_run a h Hok) as (tail & v1 & v2 & v3 & v4 & v5 & v6 & Hrun & _).
  rewrite Hrun in Hnew.
  destruct (text_of (a_query a)); [|discriminate].
  destruct (text_of (a_jailbreak_prompt a)); [|discriminate].
  injection Hnew as <- <-.
  eexists _, _. split; [apply record_at_is_record|].
  apply dict_set_nodup. unfold init_fields. apply dict_update_nodup.
  change (NoDup fixed_fields). apply NoDup_ListNoDup.
  repeat constructor; simpl;
    intros H; repeat destruct H as [H|H]; try discriminate H; exact H.
Qed.

Lemma writes_inv (ws : list (style * string * value)) :
  forall (h h' : heap) (r dl : loc) (kvs : dict),
  is_record h r dl kvs ->
  Forall (fun w => write_name w <> "_data") ws ->
  writes r ws h = Ok tt h' ->
  exists kvs',
    is_record h' r dl kvs' /\
    (NoDup (dict_keys kvs) -> NoDup (dict_keys kvs')).
Proof.
  induction ws as [|[[w k] v] ws IH]; intros h h' r dl kvs Hrec Hall H.
  - apply ret_inv in H as [_ <-]. now exists kvs.
  - apply Forall_cons in Hall as [Hk Hall]. unfold write_name in Hk.
    simpl in Hk. cbn [writes] in H.
    rewrite (bind_ok _ _ _ _ _ (write_record h r dl kvs w k v Hrec Hk)) in H.
    destruct (IH _ _ r dl (dict_set kvs k v)
                (is_record_store _ _ _ _ _ Hrec) Hall H) as (kvs' & Hrec' & Hnd).
    exists kvs'. split; [exact Hrec'|].
    intros Hn. apply Hnd. now apply dict_set_nodup.
Qed.

Lemma delete_inv (ks : list string) :
  forall (h h' : heap) (r dl : loc) (kvs : dict),
  is_record h r dl kvs ->
  Instance.delete r ks h = Ok tt h' ->
  is_record h' r dl (dict_del_all kvs ks).
Proof.
  induction ks as [|k ks IH]; intros h h' r dl kvs Hrec H.
  - apply ret_inv in H as [_ <-]. exact Hrec.
  - pose proof (delete_one h r dl kvs Hrec k) as H1.
    destruct (dict_mem kvs k).
    + rewrite (delete_cons _ _ _ _ _ H1) in H.
      exact (IH _ _ r dl _ (is_record_store _ _ _ _ _ Hrec) H).
    + rewrite (delete_cons_raise _ _ _ _ ks _ H1) in H. discriminate.
Qed.



(** ** What the constructor stores for its arguments *)

Lemma truthy_prefix (h h' : heap) (v : value) :
  h `prefix_of` h' -> value_ok (List.length h) v ->
  truthy h' v = truthy h v.
Proof.
  intros Hp Hv. destruct v as [| | | |l]; try reflexivity.
  simpl in Hv. unfold truthy.
  destruct (lookup_lt_is_Some_2 h l Hv) as [o Ho].
  now rewrite Ho, (prefix_lookup_Some _ _ _ _ Ho Hp).
Qed.

Lemma init_choice_step (h : heap) (kvs : dict) (tail : list obj)
    (n : string) (arg : value) (o : obj) :
  n <> "_data" -> value_ok (List.length h) arg ->
  (do v <- or_else arg (do y <- alloc o; ret (VRef y));
   Instance.__setattr__ (List.length h) n v) (record_at h kvs tail)
  = Ok tt (record_at h (dict_set kvs n (fst (init_choice h tail o arg)))
             (snd (init_choice h tail o arg))).
Proof.
  intros Hn Hv. unfold init_choice.
  pose proof (truthy_prefix h _ arg (record_at_prefix h kvs tail) Hv) as Ht.
  destruct (truthy h arg) eqn:E; cbn [fst snd].
  - rewrite (bind_ok _ _ _ (record_at h kvs tail) arg).
    + now apply setattr_record_at.
    + unfold or_else. now rewrite Ht.
  - rewrite (bind_ok _ _ _ (record_at h kvs (tail ++ [o]))
               (VRef (List.length h + 2 + List.length tail)%nat)).
    + now apply setattr_record_at.
    + unfold or_else. rewrite Ht.
      now rewrite (bind_ok _ _ _ _ _ (record_at_alloc _ _ _ _)).
Qed.

(** [Instance(...)] in closed form. *)
Lemma new_exact (a : init_args) (h : heap) (qs ps : string) :
  kwargs_ok (a_kwargs a) = true -> args_ok h a ->
  text_of (a_query a) = Some qs ->
  text_of (a_jailbreak_prompt a) = Some ps ->
  let c1 := init_choice h [] (OList []) (a_reference_responses a) in
  let c2 := init_choice h (snd c1) (OList []) (a_target_responses a) in
  let c3 := init_choice h (snd c2) (OList []) (a_eval_results a) in
  let c4 := init_choice h (snd c3) (OList []) (a_parents a) in
  let c5 := init_choice h (snd c4) (OList []) (a_children a) in
  let c6 := init_choice h (snd c5) (ODict Instance.default_attack_attrs)
              (a_attack_attrs a) in
  Instance.new a h
  = Ok (List.length h)
       (record_at h
          (dict_set (init_fields a (fst c1) (fst c2) (fst c3) (fst c4)
                       (fst c5) (fst c6)) "id" (id_of qs ps))
          (snd c6)).
Proof.
  intros Hok [Hseq Hattrs] Hq Hp c1 c2 c3 c4 c5 c6.
  unfold sequence_args in Hseq.
  apply Forall_cons in Hseq as [A1 Hseq]. apply Forall_cons in Hseq as [A2 Hseq].
  apply Forall_cons in Hseq as [A3 Hseq]. apply Forall_cons in Hseq as [A4 Hseq].
  apply Forall_cons in Hseq as [A5 _]. cbn [snd] in A1, A2, A3, A4, A5.
  unfold Instance.new.
  rewrite (bind_ok _ _ h (h ++ [OInst None]) (List.length h)) by reflexivity.
  assert (Hinit : Instance.__init__ (List.length h) a (h ++ [OInst None])
            = Ok tt (record_at h
                       (dict_set (init_fields a (fst c1) (fst c2) (fst c3)
                                    (fst c4) (fst c5) (fst c6)) "id"
                          (id_of qs ps)) (snd c6))).
  { unfold Instance.__init__.
    rewrite (bind_ok _ _ _ _ _ (init_data_step h)).
    rewrite (bind_ok _ _ _ _ _ (setattr_record_at h _ [] "query" _
                                  ltac:(discriminate))).
    rewrite (bind_ok _ _ _ _ _ (setattr_record_at h _ [] "jailbreak_prompt" _
                                  ltac:(discriminate))).
    unfold Instance.new_list.
    rewrite (bind_ok _ _ _ _ _ (init_choice_step h _ [] "reference_responses"
               _ (OList []) ltac:(discriminate) A1)). fold c1.
    rewrite (bind_ok _ _ _ _ _ (init_choice_step h _ (snd c1)
               "target_responses" _ (OList []) ltac:(discriminate) A2)).
    fold c2.
    rewrite (bind_ok _ _ _ _ _ (init_choice_step h _ (snd c2)
               "eval_results" _ (OList []) ltac:(discriminate) A3)). fold c3.
    rewrite (bind_ok _ _ _ _ _ (init_choice_step h _ (snd c3)
               "parents" _ (OList []) ltac:(discriminate) A4)). fold c4.
    rewrite (bind_ok _ _ _ _ _ (init_choice_step h _ (snd c4)
               "children" _ (OList []) ltac:(discriminate) A5)). fold c5.
    rewrite (bind_ok _ _ _ _ _ (setattr_record_at h _ (snd c5) "index" VNone
                                  ltac:(discriminate))).
    rewrite (bind_ok _ _ _ _ _ (init_choice_step h _ (snd c5)
               "attack_attrs" _ (ODict Instance.default_attack_attrs)
               ltac:(discriminate) Hattrs)). fold c6.
    rewrite (bind_ok _ _ _ _ _ (init_kwargs_step h _ (a_kwargs a) (snd c6))).
    change (dict_update _ (a_kwargs a))
      with (init_fields a (fst c1) (fst c2) (fst c3) (fst c4) (fst c5)
              (fst c6)).
    destruct (init_fields_query a (fst c1) (fst c2) (fst c3) (fst c4) (fst c5)
                (fst c6) Hok) as [Fq Fp].
    unfold bind at 1.
    rewrite (generate_id_record _ _ _ _ _ _ (record_at_is_record _ _ _) Fq Fp).
    rewrite Hq, Hp. now apply setattr_record_at. }
  now rewrite (bind_ok _ _ _ _ _ Hinit).
Qed.

Lemma init_choice_facts (h : heap) (tail : list obj) (o : obj) (arg : value) :
  tail `prefix_of` snd (init_choice h tail o arg) /\
  (truthy h arg = true -> fst (init_choice h tail o arg) = arg) /\
  (truthy h arg = false ->
   fst (init_choice h tail o arg)
     = VRef (List.length h + 2 + List.length tail)%nat /\
   List.length (snd (init_choice h tail o arg)) = S (List.length tail) /\
   snd (init_choice h tail o arg) !! List.length tail = Some o).
Proof.
  unfold init_choice. destruct (truthy h arg); cbn [fst snd].
  - split; [reflexivity|]. split; [reflexivity | discriminate].
  - split; [now apply prefix_app_r|]. split; [discriminate|].
    intros _. split; [reflexivity|]. split.
    + rewrite length_app. simpl. lia.
    + now rewrite list_lookup_middle.
Qed.

Lemma init_fields_named (a : init_args) (v1 v2 v3 v4 v5 v6 i : value)
    (k : string) :
  kwargs_ok (a_kwargs a) = true -> In k named_params ->
  dict_get (dict_set (init_fields a v1 v2 v3 v4 v5 v6) "id" i) k
  = dict_get
      [ ("query", a_query a); ("jailbreak_prompt", a_jailbreak_prompt a);
        ("reference_responses", v1); ("target_responses", v2);
        ("eval_results", v3); ("parents", v4); ("children", v5);
        ("index", VNone); ("attack_attrs", v6) ] k.
Proof.
  intros Hok Hin.
  rewrite dict_get_set_ne.
  - unfold init_fields. apply dict_get_update. now apply kwargs_ok_named.
  - intros <-. simpl in Hin.
    repeat destruct Hin as [Hin|Hin]; try discriminate Hin; exact Hin.
Qed.



(** ** Records that share an id *)



Lemma append_assoc (s1 s2 s3 : string) :
  ((s1 ++ s2) ++ s3)%string = (s1 ++ (s2 ++ s3))%string.
Proof. induction s1 as [|c s1 IH]; simpl; [reflexivity|]. now rewrite IH. Qed.

(** X7.  The id does not tell where the query ends and the jailbreak
    prompt begins: the two are joined by a bar without escaping, so a
    record with query [q|x] and prompt [p] and a record with query [q]
    and prompt [x|p] get the same id. *)
Theorem id_separator_ambiguity (q x p : string) (h1 h2 : heap) :
  exists (r1 r2 : loc) (h1' h2' : heap) (i : value),
    Instance.new (Args (VStr (q ++ "|" ++ x)%string) (VStr p)
                    VNone VNone VNone VNone VNone VNone []) h1 = Ok r1 h1' /\
    Instance.new (Args (VStr q) (VStr (x ++ "|" ++ p)%string)
                    VNone VNone VNone VNone VNone VNone []) h2 = Ok r2 h2' /\
    Instance.__getitem__ r1 "id" h1' = Ok i h1' /\
    Instance.__getitem__ r2 "id" h2' = Ok i h2'.
Proof.
  destruct (new_id (Args (VStr (q ++ "|" ++ x)%string) (VStr p)
                      VNone VNone VNone VNone VNone VNone []) h1
              (q ++ "|" ++ x)%string p eq_refl eq_refl eq_refl)
    as (h1' & kvs1 & N1 & _ & R1 & I1).
  destruct (new_id (Args (VStr q) (VStr (x ++ "|" ++ p)%string)
                      VNone VNone VNone VNone VNone VNone []) h2
              q (x ++ "|" ++ p)%string eq_refl eq_refl eq_refl)
    as (h2' & kvs2 & N2 & _ & R2 & I2).
  exists (List.length h1), (List.length h2), h1', h2',
    (id_of q (x ++ "|" ++ p)%string).
  split; [exact N1|]. split; [exact N2|]. split.
  - apply (getitem_record _ _ _ _ _ _ R1). rewrite I1. unfold id_of.
    do 2 f_equal. rewrite !append_assoc. reflexivity.
  - exact (getitem_record _ _ _ _ _ _ R2 I2).
Qed.

(** ** The statistics on flags, and their errors *)

Lemma sum_from_flags (xs : list value) (acc : Z) (h : heap) :
  forallb is_flag xs = true ->
  sum_from acc xs h = Ok (acc + count flag_set xs) h.
Proof.
  unfold count. revert acc.
  induction xs as [|x xs IH]; intros acc Hf.
  - simpl. unfold ret. f_equal. lia.
  - cbn [forallb] in Hf. apply andb_prop in Hf as [Hx Hf].
    destruct x as [|[]|[|[| |]|]| |]; try discriminate Hx;
      cbn [sum_from List.filter flag_set List.length];
      rewrite (IH _ Hf); f_equal; cbn [Z.b2z]; lia.
Qed.

Lemma count_flags (xs : list value) :
  forallb is_flag xs = true ->
  count flag_set xs + count flag_clear xs = Z.of_nat (List.length xs).
Proof.
  unfold count. induction xs as [|x xs IH]; intros Hf; [reflexivity|].
  cbn [forallb] in Hf. apply andb_prop in Hf as [Hx Hf].
  specialize (IH Hf).
  destruct x as [|[]|[|[| |]|]| |]; try discriminate Hx;
    cbn [List.filter flag_set flag_clear List.length]; lia.
Qed.

(** X8.  On a record whose [eval_results] is a list of flags (0, 1,
    [False], [True]), [num_jailbreak] is the number of entries that are 1
    or [True], [num_reject] the number of entries that are 0 or [False],
    and the two add up to the length of the list. *)
Theorem statistics_of_flags (h : heap) (r dl : loc) (kvs : dict) (le : loc)
    (xs : list value) :
  is_record h r dl kvs ->
  dict_get kvs "eval_results" = Some (VRef le) ->
  h !! le = Some (OList xs) ->
  forallb is_flag xs = true ->
  Instance.num_jailbreak r h = Ok (count flag_set xs) h /\
  Instance.num_reject r h = Ok (count flag_clear xs) h /\
  count flag_set xs + count flag_clear xs = Z.of_nat (List.length xs).
Proof.
  intros Hrec Hk Hl Hf.
  pose proof (self_get_some h r dl kvs Hrec "eval_results" _ eq_refl
                ltac:(discriminate) Hk) as Hget.
  assert (Hsum : Instance.py_sum (VRef le) h = Ok (count flag_set xs) h).
  { unfold Instance.py_sum. rewrite (bind_ok _ _ h h xs).
    - now rewrite sum_from_flags.
    - unfold Instance.py_iter, bind, load. now rewrite Hl. }
  pose proof (count_flags xs Hf) as Hc.
  split; [|split; [|exact Hc]].
  - unfold Instance.num_jailbreak. now rewrite (bind_ok _ _ _ _ _ Hget).
  - unfold Instance.num_reject.
    rewrite (bind_ok _ _ h h (Z.of_nat (List.length xs))).
    + rewrite (bind_ok _ _ h h (count flag_set xs)).
      * unfold ret. f_equal. lia.
      * now rewrite (bind_ok _ _ _ _ _ Hget).
    + rewrite (bind_ok _ _ _ _ _ Hget). now apply py_len_list.
Qed.

Lemma statistics_of_flags_witness :
  is_record flag_heap 1 2 flag_fields /\
  dict_get flag_fields "eval_results" = Some (VRef 0) /\
  flag_heap !! 0%nat
    = Some (OList [VInt 1; VBool false; VBool true; VInt 0; VInt 1]) /\
  Instance.num_jailbreak 1 flag_heap = Ok 3 flag_heap /\
  Instance.num_reject 1 flag_heap = Ok 2 flag_heap.
Proof.
  split; [split; reflexivity|]. split; [reflexivity|]. split; [reflexivity|].
  destruct (statistics_of_flags flag_heap 1%nat 2%nat flag_fields 0%nat
              [VInt 1; VBool false; VBool true; VInt 0; VInt 1])
    as (Hj & Hn & _).
  - split; reflexivity.
  - reflexivity.
  - reflexivity.
  - reflexivity.
  - split; [exact Hj | exact Hn].
Defined.

Lemma sum_from_not_number (xs : list value) (acc : Z) (h : heap) :
  forallb is_number xs = false ->
  sum_from acc xs h = Raise TypeError h.
Proof.
  revert acc. induction xs as [|x xs IH]; intros acc Hf; [discriminate|].
  cbn [forallb] in Hf.
  destruct x; cbn [sum_from is_number andb] in *;
    try reflexivity; now apply IH.
Qed.

Lemma getattribute_property (h : heap) (r dl : loc) (kvs : dict)
    (n : string) (getter : M Z) :
  is_record h r dl kvs ->
  Instance.getattribute r n h =
    try_except (do z <- getter; ret (AValue (VInt z))) AttributeError
      (do v <- Instance.__getattr__ r n; ret (AValue v)) h ->
  (getter h = Raise AttributeError h ->
     Instance.getattribute r n h =
       match dict_get kvs n with
       | Some v => Ok (AValue v) h
       | None => Raise AttributeError h
       end) /\
  (getter h = Raise TypeError h ->
     Instance.getattribute r n h = Raise TypeError h).
Proof.
  intros Hrec Hp. split; intros Hg; rewrite Hp; unfold try_except, bind;
    rewrite Hg; [|reflexivity].
  rewrite decide_True by reflexivity.
  rewrite (getattr_record _ _ _ _ Hrec). now destruct (dict_get kvs n).
Qed.

Lemma self_get_none (h : heap) (r dl : loc) (kvs : dict) (n : string) :
  is_record h r dl kvs ->
  Instance.is_member n = false -> n <> "_data" ->
  dict_get kvs n = None ->
  Instance.self_get r n h = Raise AttributeError h.
Proof.
  intros Hrec Hm Hn Hk. rewrite (self_get_field _ _ _ _ Hrec) by assumption.
  now rewrite (getattr_record _ _ _ _ Hrec), Hk.
Qed.

(** X9.  Reading a statistic on a record that lacks the field it is
    computed from: the getter fails with [AttributeError], and Python then
    asks [__getattr__] for the name of the statistic itself.  So the read
    fails with [AttributeError] when no field has that name, and returns
    the field of that name when there is one. *)
Theorem statistic_without_its_field (h : heap) (r dl : loc) (kvs : dict)
    (n : string) :
  is_record h r dl kvs ->
  (n = "num_query" /\ dict_get kvs "target_responses" = None) \/
  ((n = "num_jailbreak" \/ n = "num_reject") /\
   dict_get kvs "eval_results" = None) ->
  Instance.getattribute r n h =
    match dict_get kvs n with
    | Some v => Ok (AValue v) h
    | None => Raise AttributeError h
    end.
Proof.
  intros Hrec [[-> Hk] | [[-> | ->] Hk]].
  - apply (getattribute_property h r dl kvs _ (Instance.num_query r) Hrec);
      [reflexivity|].
    unfold Instance.num_query.
    apply bind_raise.
    now apply (self_get_none h r dl kvs).
  - apply (getattribute_property h r dl kvs _ (Instance.num_jailbreak r) Hrec);
      [reflexivity|].
    unfold Instance.num_jailbreak.
    apply bind_raise.
    now apply (self_get_none h r dl kvs).
  - apply (getattribute_property h r dl kvs _ (Instance.num_reject r) Hrec);
      [reflexivity|].
    unfold Instance.num_reject.
    apply bind_raise. apply bind_raise.
    now apply (self_get_none h r dl kvs).
Qed.

Lemma statistic_without_its_field_witness :
  is_record shadow_heap 0 1 shadow_fields /\
  dict_get shadow_fields "eval_results" = None /\
  Instance.getattribute 0 "num_reject" shadow_heap
    = Ok (AValue (VInt 9)) shadow_heap.
Proof.
  split; [split; reflexivity|]. split; [reflexivity|].
  rewrite (statistic_without_its_field shadow_heap 0%nat 1%nat shadow_fields
             "num_reject").
  - reflexivity.
  - split; reflexivity.
  - right. split; [right; reflexivity | reflexivity].
Defined.

Lemma sum_from_numbers (xs : list value) (acc : Z) (h : heap) :
  forallb is_number xs = true -> exists s, sum_from acc xs h = Ok s h.
Proof.
  revert acc. induction xs as [|x xs IH]; intros acc Hf.
  - now exists acc.
  - cbn [forallb] in Hf. apply andb_prop in Hf as [Hx Hf].
    destruct x; try discriminate Hx; cbn [sum_from]; now apply IH.
Qed.

(** X10.  [sum] needs numbers.  On a record whose [eval_results] is a
    list, [num_jailbreak] and [num_reject] return when every entry is an
    [int] or a [bool]; when some entry is not ([None], a string, a list,
    a record), reading either of them fails with [TypeError], which the
    class does not turn into an [AttributeError]. *)
Theorem statistics_need_numbers (h : heap) (r dl : loc) (kvs : dict)
    (le : loc) (xs : list value) :
  is_record h r dl kvs ->
  dict_get kvs "eval_results" = Some (VRef le) ->
  h !! le = Some (OList xs) ->
  (forallb is_number xs = true ->
     exists j,
       Instance.getattribute r "num_jailbreak" h = Ok (AValue (VInt j)) h /\
       Instance.getattribute r "num_reject" h
         = Ok (AValue (VInt (Z.of_nat (List.length xs) - j))) h) /\
  (forallb is_number xs = false ->
     Instance.getattribute r "num_jailbreak" h = Raise TypeError h /\
     Instance.getattribute r "num_reject" h = Raise TypeError h).
Proof.
  intros Hrec Hk Hl.
  pose proof (self_get_some h r dl kvs Hrec "eval_results" _ eq_refl
                ltac:(discriminate) Hk) as Hget.
  assert (Hit : Instance.py_iter (VRef le) h = Ok xs h).
  { unfold Instance.py_iter, bind, load. now rewrite Hl. }
  assert (Hlen : (do v <- Instance.self_get r "eval_results"; py_len v) h
                 = Ok (Z.of_nat (List.length xs)) h).
  { rewrite (bind_ok _ _ _ _ _ Hget). now apply py_len_list. }
  split; intros Hf.
  - destruct (sum_from_numbers xs 0 h Hf) as [j Hj]. exists j.
    assert (Hsum : (do v <- Instance.self_get r "eval_results";
                    Instance.py_sum v) h = Ok j h).
    { rewrite (bind_ok _ _ _ _ _ Hget). unfold Instance.py_sum.
      now rewrite (bind_ok _ _ _ _ _ Hit). }
    split.
    + change (Instance.getattribute r "num_jailbreak" h) with
        (try_except (do z <- Instance.num_jailbreak r; ret (AValue (VInt z)))
           AttributeError
           (do v <- Instance.__getattr__ r "num_jailbreak"; ret (AValue v)) h).
      unfold try_except. unfold Instance.num_jailbreak.
      now rewrite (bind_ok _ _ _ _ _ Hsum).
    + change (Instance.getattribute r "num_reject" h) with
        (try_except (do z <- Instance.num_reject r; ret (AValue (VInt z)))
           AttributeError
           (do v <- Instance.__getattr__ r "num_reject"; ret (AValue v)) h).
      unfold try_except. unfold Instance.num_reject.
      rewrite (bind_ok _ _ h h (Z.of_nat (List.length xs) - j)); [reflexivity|].
      rewrite (bind_ok _ _ _ _ _ Hlen).
      now rewrite (bind_ok _ _ _ _ _ Hsum).
  - assert (Hsum : (do v <- Instance.self_get r "eval_results";
                    Instance.py_sum v) h = Raise TypeError h).
    { rewrite (bind_ok _ _ _ _ _ Hget). unfold Instance.py_sum.
      rewrite (bind_ok _ _ _ _ _ Hit). now apply sum_from_not_number. }
    split.
    + apply (getattribute_property h r dl kvs _ (Instance.num_jailbreak r)
               Hrec); [reflexivity|].
      exact Hsum.
    + apply (getattribute_property h r dl kvs _ (Instance.num_reject r) Hrec);
        [reflexivity|].
      unfold Instance.num_reject.
      rewrite (bind_ok _ _ _ _ _ Hlen). now apply bind_raise.
Qed.

Lemma statistics_need_numbers_witness :
  is_record text_flag_heap 1 2 text_flag_fields /\
  dict_get text_flag_fields "eval_results" = Some (VRef 0) /\
  text_flag_heap !! 0%nat = Some (OList [VInt 1; VStr "yes"]) /\
  forallb is_number [VInt 1; VStr "yes"] = false /\
  Instance.getattribute 1 "num_jailbreak" text_flag_heap
    = Raise TypeError text_flag_heap /\
  Instance.getattribute 1 "num_reject" text_flag_heap
    = Raise TypeError text_flag_heap.
Proof.
  split; [split; reflexivity|]. split; [reflexivity|]. split; [reflexivity|].
  split; [reflexivity|].
  destruct (statistics_need_numbers text_flag_heap 1%nat 2%nat
              text_flag_fields 0%nat [VInt 1; VStr "yes"]) as [_ Hbad].
  - split; reflexivity.
  - reflexivity.
  - reflexivity.
  - exact (Hbad eq_refl).
Defined.

(** ** Rebinding the storage *)

Lemma write_data (h : heap) (r dl : loc) (kvs : dict) (w : style)
    (v : value) :
  is_record h r dl kvs ->
  write r (w, "_data", v) h = Ok tt (<[r := OInst (Some v)]> h).
Proof.
  intros [Hr _].
  destruct w; cbn [write]; unfold Instance.__setitem__, Instance.__setattr__;
    cbn [String.eqb Ascii.eqb Bool.eqb]; unfold bind, load; now rewrite Hr.
Qed.

(** X11.  The name [_data] is the one name that a write does not store
    as a field: [r2._data = r._data] (or [r2['_data'] = ...]) rebinds the
    storage of [r2] and leaves both dicts as they are.  From then on the
    two records share their fields: a write through one of them is read
    through the other. *)
Theorem shared_storage (h : heap) (r dl : loc) (kvs : dict) (r2 dl2 : loc)
    (kvs2 : dict) (w : style) :
  is_record h r dl kvs -> is_record h r2 dl2 kvs2 ->
  exists h',
    write r2 (w, "_data", VRef dl) h = Ok tt h' /\
    is_record h' r dl kvs /\ is_record h' r2 dl kvs /\
    h' !! dl2 = Some (ODict kvs2) /\
    forall (n : string) (v : value) (w' : style), n <> "_data" ->
      exists h'',
        write r (w', n, v) h' = Ok tt h'' /\
        Instance.__getitem__ r n h'' = Ok v h'' /\
        Instance.__getitem__ r2 n h'' = Ok v h'' /\
        (dl <> dl2 -> h'' !! dl2 = Some (ODict kvs2)).
Proof.
  intros Hrec Hrec2.
  pose proof Hrec as [Hr Hd]. pose proof Hrec2 as [Hr2 Hd2].
  assert (Hne : dl <> r2) by congruence.
  assert (Hne2 : dl2 <> r2) by congruence.
  assert (Hlt : (r2 < List.length h)%nat) by (eapply lookup_lt_Some; eassumption).
  assert (R2 : is_record (<[r2 := OInst (Some (VRef dl))]> h) r2 dl kvs).
  { split; [now apply list_lookup_insert_eq|].
    rewrite list_lookup_insert_ne by congruence. assumption. }
  assert (R1 : is_record (<[r2 := OInst (Some (VRef dl))]> h) r dl kvs).
  { destruct (decide (r = r2)) as [->|Hrr]; [exact R2|].
    split; rewrite list_lookup_insert_ne by congruence; assumption. }
  assert (D2 : <[r2 := OInst (Some (VRef dl))]> h !! dl2 = Some (ODict kvs2)).
  { rewrite list_lookup_insert_ne by congruence. assumption. }
  eexists. split; [exact (write_data h r2 dl2 kvs2 w _ Hrec2)|].
  split; [exact R1|]. split; [exact R2|]. split; [exact D2|].
  intros n v w' Hn.
  eexists. split; [exact (write_record _ _ _ _ w' n v R1 Hn)|].
  pose proof (is_record_store _ _ _ _ (dict_set kvs n v) R1) as R1'.
  pose proof (is_record_store _ _ _ _ (dict_set kvs n v) R2) as R2'.
  split; [|split].
  - apply (getitem_record _ _ _ _ _ _ R1'). apply dict_get_set_eq.
  - apply (getitem_record _ _ _ _ _ _ R2'). apply dict_get_set_eq.
  - intros Hdd. rewrite list_lookup_insert_ne by congruence. exact D2.
Qed.

Lemma shared_storage_witness :
  is_record family_heap 0 1 (fields_of family_heap 1) /\
  is_record family_heap 8 9 family_fields /\
  exists h' h'',
    write 8%nat (ByAttr, "_data", VRef 1) family_heap = Ok tt h' /\
    write 0%nat (ByKey, "note", VInt 2) h' = Ok tt h'' /\
    Instance.__getitem__ 8 "note" h'' = Ok (VInt 2) h'' /\
    h'' !! 9%nat = Some (ODict family_fields).
Proof.
  split; [split; reflexivity|]. split; [split; reflexivity|].
  destruct (shared_storage family_heap 0%nat 1%nat (fields_of family_heap 1)
              8%nat 9%nat family_fields ByAttr)
    as (h' & Hw & _ & _ & _ & Hn).
  - split; reflexivity.
  - split; reflexivity.
  - destruct (Hn "note" (VInt 2) ByKey) as (h'' & Hw' & _ & Hg & Hd).
    + discriminate.
    + exists h', h''. split; [exact Hw|]. split; [exact Hw'|].
      split; [exact Hg|]. apply Hd. discriminate.
Defined.

(** ** What a deep copy is *)

Lemma rn_ext (m m' : memo) (v : value) :
  memo_ext m m' -> mapped m v -> rn m' v = rn m v.
Proof.
  intros He Hm. destruct v as [| | | |l]; try reflexivity. simpl in *.
  destruct (memo_get m l) as [l'|] eqn:E; [|congruence].
  now rewrite (He _ _ E).
Qed.

Lemma mapped_ext (m m' : memo) (v : value) :
  memo_ext m m' -> mapped m v -> mapped m' v.
Proof.
  intros He Hm. destruct v as [| | | |l]; try exact I. simpl in *.
  destruct (memo_get m l) as [l'|] eqn:E; [|congruence].
  rewrite (He _ _ E). discriminate.
Qed.

Lemma map_rn_ext (m m' : memo) (vs : list value) :
  memo_ext m m' -> Forall (mapped m) vs -> map (rn m') vs = map (rn m) vs.
Proof.
  intros He Hm. induction Hm as [|v vs Hv _ IH]; [reflexivity|].
  simpl. now rewrite IH, (rn_ext m m' v He Hv).
Qed.

Lemma rn_obj_ext (m m' : memo) (o : obj) :
  memo_ext m m' -> obj_mapped m o -> rn_obj m' o = rn_obj m o.
Proof.
  intros He Hm. destruct o as [xs|kvs|[d|]]; simpl in *.
  - now rewrite (map_rn_ext m m' xs He Hm).
  - f_equal. induction kvs as [|[k v] kvs IH]; [reflexivity|].
    simpl in *. apply Forall_cons in Hm as [Hv Hm].
    now rewrite (IH Hm), (rn_ext m m' v He Hv).
  - now rewrite (rn_ext m m' d He Hm).
  - reflexivity.
Qed.

Lemma obj_mapped_ext (m m' : memo) (o : obj) :
  memo_ext m m' -> obj_mapped m o -> obj_mapped m' o.
Proof.
  intros He Hm. destruct o as [xs|kvs|[d|]]; simpl in *.
  - eapply Forall_impl; [exact Hm|]. intros v. now apply mapped_ext.
  - eapply Forall_impl; [exact Hm|]. intros v. now apply mapped_ext.
  - now apply (mapped_ext m m').
  - exact I.
Qed.

Lemma memo_fresh_mono (n : nat) (h h' : heap) (m : memo) :
  (List.length h <= List.length h')%nat ->
  memo_fresh n h m -> memo_fresh n h' m.
Proof.
  intros Hl Hm l l' H. destruct (Hm l l' H) as (H1 & H2 & H3).
  repeat split; try assumption. lia.
Qed.

Lemma memo_fresh_cons (n : nat) (h : heap) (m : memo) (l : loc) (o : obj) :
  (l < n)%nat -> (n <= List.length h)%nat ->
  memo_fresh n h m -> memo_fresh n (h ++ [o]) ((l, List.length h) :: m).
Proof.
  intros Hl Hn Hm l0 l' H. simpl in H. rewrite length_app. simpl.
  destruct (Nat.eqb l l0) eqn:E.
  - apply Nat.eqb_eq in E. subst. injection H as <-.
    repeat split; try assumption; lia.
  - destruct (Hm l0 l' H) as (H1 & H2 & H3). repeat split; try assumption.
    lia.
Qed.

Lemma combine_rn (m : memo) (kvs : dict) :
  combine (map fst kvs) (map (rn m) (map snd kvs))
  = map (fun kv => (fst kv, rn m (snd kv))) kvs.
Proof.
  induction kvs as [|[k v] kvs IH]; [reflexivity|]. simpl. now rewrite IH.
Qed.

(** The items of a container, copied one after the other. *)
Lemma deepcopy_items_iso (h0 : heap)
    (cp : value -> memo -> M (value * memo)) :
  copies_iso h0 cp ->
  forall (xs : list value) (m : memo) (h : heap) (ys : list value)
         (m' : memo) (h' : heap),
    h0 `prefix_of` h -> Forall (value_ok (List.length h0)) xs ->
    memo_fresh (List.length h0) h m -> memo_inj m ->
    deepcopy_items cp xs m h = Ok (ys, m') h' ->
    h `prefix_of` h' /\ memo_ext m m' /\
    memo_fresh (List.length h0) h' m' /\ memo_inj m' /\
    ys = map (rn m') xs /\ Forall (mapped m') xs /\
    copied h0 (List.length h) h' m m'.
Proof.
  intros Hcp.
  induction xs as [|x xs IH]; intros m h ys m' h' Hp Hok Hm Hinj H.
  - apply ret_inv in H as [[= <- <-] <-].
    split; [reflexivity|]. split; [apply memo_ext_refl|].
    split; [exact Hm|]. split; [exact Hinj|].
    split; [reflexivity|]. split; [constructor|].
    intros l l' Hn Hs. congruence.
  - cbn [deepcopy_items] in H.
    apply bind_inv in H as ([y m1] & h1 & Hx & H).
    apply bind_inv in H as ([ys' m2] & h2 & Hxs & H).
    apply ret_inv in H as [[= <- <-] <-].
    apply Forall_cons in Hok as [Hokx Hok].
    destruct (Hcp _ _ _ _ _ _ Hp Hokx Hm Hinj Hx)
      as (P1 & E1 & F1 & I1 & Y1 & M1 & C1).
    assert (Hp1 : h0 `prefix_of` h1) by now transitivity h.
    destruct (IH _ _ _ _ _ Hp1 Hok F1 I1 Hxs)
      as (P2 & E2 & F2 & I2 & Y2 & M2 & C2).
    pose proof (prefix_length _ _ P1) as L1.
    split; [now transitivity h1|].
    split; [now apply (memo_ext_trans m m1 m2)|].
    split; [exact F2|]. split; [exact I2|].
    split; [|split].
    + simpl. now rewrite (rn_ext m1 m2 x E2 M1), <- Y1, <- Y2.
    + constructor; [now apply (mapped_ext m1 m2) | exact M2].
    + intros l l' Hn Hs.
      destruct (memo_get m1 l) as [l1|] eqn:E.
      * pose proof (E2 _ _ E) as Hs'. rewrite Hs in Hs'. injection Hs' as ->.
        destruct (C1 _ _ Hn E) as (Hk & o & Ho & Hc & Hom).
        split; [exact Hk|]. exists o. split; [exact Ho|].
        split; [|now apply (obj_mapped_ext m1 m2)].
        rewrite (rn_obj_ext m1 m2 o E2 Hom).
        eapply prefix_lookup_Some; eassumption.
      * destruct (C2 _ _ E Hs) as (Hk & Ho). split; [lia | exact Ho].
Qed.

Lemma memo_inj_nil : memo_inj [].
Proof. intros l1 l2 l' [=]. Qed.

(** A new copy is the copy of no other object. *)
Lemma memo_inj_cons (n : nat) (h : heap) (m : memo) (l : loc) :
  memo_fresh n h m -> memo_inj m -> memo_get m l = None ->
  memo_inj ((l, List.length h) :: m).
Proof.
  intros Hm Hinj Hn l1 l2 l' H1 H2. simpl in H1, H2.
  destruct (Nat.eqb l l1) eqn:E1; destruct (Nat.eqb l l2) eqn:E2.
  - apply Nat.eqb_eq in E1, E2. congruence.
  - injection H1 as <-. destruct (Hm _ _ H2) as (_ & _ & Hlt). lia.
  - injection H2 as <-. destruct (Hm _ _ H1) as (_ & _ & Hlt). lia.
  - exact (Hinj _ _ _ H1 H2).
Qed.

Lemma copied_none (h0 : heap) (k : nat) (h : heap) (m : memo) :
  copied h0 k h m m.
Proof. intros l l' Hn Hs. congruence. Qed.

(** A container: the new object is entered in the memo, its items are
    copied, and the copies are stored in it. *)
Lemma copied_container (h0 h h2 : heap) (m m1 : memo) (l : loc)
    (o o0 : obj) :
  h0 `prefix_of` h -> h0 !! l = Some o ->
  memo_get m l = None ->
  h ++ [o0] `prefix_of` h2 ->
  memo_ext ((l, List.length h) :: m) m1 ->
  obj_mapped m1 o ->
  copied h0 (List.length (h ++ [o0])) h2 ((l, List.length h) :: m) m1 ->
  copied h0 (List.length h) (<[List.length h := rn_obj m1 o]> h2) m m1.
Proof.
  intros Hp Hl Hn P2 E1 Hom C1 l2 l2' Hn2 Hs2.
  pose proof (prefix_length _ _ P2) as L2. rewrite length_app in L2.
  simpl in L2.
  destruct (Nat.eqb l l2) eqn:E.
  - apply Nat.eqb_eq in E. subst l2.
    assert (Hy : memo_get m1 l = Some (List.length h)).
    { apply E1. simpl. now rewrite Nat.eqb_refl. }
    rewrite Hs2 in Hy. injection Hy as ->.
    split; [lia|]. exists o. split; [exact Hl|]. split; [|exact Hom].
    apply list_lookup_insert_eq. lia.
  - assert (Hn0 : memo_get ((l, List.length h) :: m) l2 = None).
    { simpl. now rewrite E. }
    destruct (C1 _ _ Hn0 Hs2) as (Hk & o2 & Ho2 & Hc2 & Hom2).
    rewrite length_app in Hk. simpl in Hk.
    split; [lia|]. exists o2. split; [exact Ho2|]. split; [|exact Hom2].
    rewrite list_lookup_insert_ne by lia. exact Hc2.
Qed.

Lemma deepcopy_rec_iso (h0 : heap) :
  closed h0 -> forall n, copies_iso h0 (deepcopy_rec n).
Proof.
  intros Hc. induction n as [|n IH]; intros x m h y m' h' Hp Hok Hm Hinj H.
  - destruct x as [| | | |l]; simpl in H;
      try (apply ret_inv in H as [[= <- <-] <-];
           split; [reflexivity|]; split; [apply memo_ext_refl|];
           split; [exact Hm|]; split; [exact Hinj|];
           split; [reflexivity|]; split; [exact I|];
           apply copied_none).
    destruct (memo_get m l) as [l'|] eqn:E; [|discriminate].
    apply ret_inv in H as [[= <- <-] <-].
    split; [reflexivity|]. split; [apply memo_ext_refl|].
    split; [exact Hm|]. split; [exact Hinj|].
    split; [simpl; now rewrite E|].
    split; [simpl; congruence|]. apply copied_none.
  - destruct x as [| | | |l]; simpl in H;
      try (apply ret_inv in H as [[= <- <-] <-];
           split; [reflexivity|]; split; [apply memo_ext_refl|];
           split; [exact Hm|]; split; [exact Hinj|];
           split; [reflexivity|]; split; [exact I|];
           apply copied_none).
    destruct (memo_get m l) as [l'|] eqn:E.
    { apply ret_inv in H as [[= <- <-] <-].
      split; [reflexivity|]. split; [apply memo_ext_refl|].
      split; [exact Hm|]. split; [exact Hinj|].
      split; [simpl; now rewrite E|].
      split; [simpl; congruence|]. apply copied_none. }
    simpl in Hok.
    apply bind_inv in H as (o & h1 & Hload & H).
    apply load_inv in Hload as [-> Hl].
    assert (Hl0 : h0 !! l = Some o).
    { destruct (lookup_lt_is_Some_2 h0 l Hok) as [o' Ho'].
      pose proof (prefix_lookup_Some _ _ _ _ Ho' Hp) as Ho''. congruence. }
    pose proof (closed_lookup _ _ _ Hc Hl0) as Hobj.
    pose proof (prefix_length _ _ Hp) as L0.
    assert (Hp1 : forall o0, h0 `prefix_of` h ++ [o0])
      by (intros o0; now apply prefix_app_r).
    assert (Hm1 : forall o0, memo_fresh (List.length h0) (h ++ [o0])
                               ((l, List.length h) :: m))
      by (intros o0; now apply memo_fresh_cons).
    assert (Hi1 : memo_inj ((l, List.length h) :: m))
      by now apply (memo_inj_cons (List.length h0) h m l).
    assert (Hself : forall m1, memo_ext ((l, List.length h) :: m) m1 ->
                               memo_get m1 l = Some (List.length h)).
    { intros m1 E1. apply E1. simpl. now rewrite Nat.eqb_refl. }
    destruct o as [xs|kvs|[d|]].
    + apply bind_inv in H as (y0 & h1 & Ha & H).
      apply alloc_inv in Ha as [-> ->].
      apply bind_inv in H as ([ys m1] & h2 & Hitems & H).
      apply bind_inv in H as (u & h3 & Hst & H).
      apply store_inv in Hst as ->. apply ret_inv in H as [[= <- <-] <-].
      destruct (deepcopy_items_iso h0 _ IH _ _ _ _ _ _ (Hp1 _) Hobj (Hm1 _)
                  Hi1 Hitems) as (P2 & E1 & F1 & I1 & -> & M1 & C1).
      pose proof (prefix_length _ _ P2) as L2. rewrite length_app in L2.
      simpl in L2.
      split; [apply prefix_store;
              [transitivity (h ++ [OList []]);
               [now apply prefix_app_r | exact P2] | lia]|].
      split; [apply (memo_ext_trans _ ((l, List.length h) :: m));
              [now apply memo_ext_cons | exact E1]|].
      split; [eapply memo_fresh_mono; [|exact F1]; rewrite length_insert; lia|].
      split; [exact I1|].
      split; [simpl; now rewrite (Hself _ E1)|].
      split; [simpl; rewrite (Hself _ E1); discriminate|].
      exact (copied_container h0 h h2 m m1 l (OList xs) _ Hp Hl0 E P2 E1 M1
               C1).
    + apply bind_inv in H as (y0 & h1 & Ha & H).
      apply alloc_inv in Ha as [-> ->].
      apply bind_inv in H as ([ys m1] & h2 & Hitems & H).
      apply bind_inv in H as (u & h3 & Hst & H).
      apply store_inv in Hst as ->. apply ret_inv in H as [[= <- <-] <-].
      destruct (deepcopy_items_iso h0 _ IH _ _ _ _ _ _ (Hp1 _) Hobj (Hm1 _)
                  Hi1 Hitems) as (P2 & E1 & F1 & I1 & -> & M1 & C1).
      pose proof (prefix_length _ _ P2) as L2. rewrite length_app in L2.
      simpl in L2.
      split; [apply prefix_store;
              [transitivity (h ++ [ODict []]);
               [now apply prefix_app_r | exact P2] | lia]|].
      split; [apply (memo_ext_trans _ ((l, List.length h) :: m));
              [now apply memo_ext_cons | exact E1]|].
      split; [eapply memo_fresh_mono; [|exact F1]; rewrite length_insert; lia|].
      split; [exact I1|].
      split; [simpl; now rewrite (Hself _ E1)|].
      split; [simpl; rewrite (Hself _ E1); discriminate|].
      rewrite combine_rn.
      exact (copied_container h0 h h2 m m1 l (ODict kvs) _ Hp Hl0 E P2 E1 M1
               C1).
    + apply bind_inv in H as (y0 & h1 & Ha & H).
      apply alloc_inv in Ha as [-> ->].
      apply bind_inv in H as ([d' m1] & h2 & Hd & H).
      apply bind_inv in H as (u & h3 & Hst & H).
      apply store_inv in Hst as ->. apply ret_inv in H as [[= <- <-] <-].
      destruct (IH _ _ _ _ _ _ (Hp1 _) Hobj (Hm1 _) Hi1 Hd)
        as (P2 & E1 & F1 & I1 & -> & M1 & C1).
      pose proof (prefix_length _ _ P2) as L2. rewrite length_app in L2.
      simpl in L2.
      split; [apply prefix_store;
              [transitivity (h ++ [OInst None]);
               [now apply prefix_app_r | exact P2] | lia]|].
      split; [apply (memo_ext_trans _ ((l, List.length h) :: m));
              [now apply memo_ext_cons | exact E1]|].
      split; [eapply memo_fresh_mono; [|exact F1]; rewrite length_insert; lia|].
      split; [exact I1|].
      split; [simpl; now rewrite (Hself _ E1)|].
      split; [simpl; rewrite (Hself _ E1); discriminate|].
      exact (copied_container h0 h h2 m m1 l (OInst (Some d)) _ Hp Hl0 E P2
               E1 M1 C1).
    + apply bind_inv in H as (y0 & h1 & Ha & H).
      apply alloc_inv in Ha as [-> ->].
      apply ret_inv in H as [[= <- <-] <-].
      split; [now apply prefix_app_r|].
      split; [now apply memo_ext_cons|].
      split; [apply Hm1|]. split; [exact Hi1|].
      split; [simpl; now rewrite Nat.eqb_refl|].
      split; [simpl; rewrite Nat.eqb_refl; discriminate|].
      intros l2 l2' Hn2 Hs2. simpl in Hs2.
      destruct (Nat.eqb l l2) eqn:E2; [|congruence].
      apply Nat.eqb_eq in E2. subst l2. injection Hs2 as <-.
      split; [lia|]. exists (OInst None). split; [exact Hl0|].
      split; [|exact I]. simpl. apply list_lookup_middle. reflexivity.
Qed.

(** A deep copy taken in a closed store: the store it was taken in is
    kept, the value returned is the renamed argument, and the memo maps
    the objects reached, one to one, to new objects with the same
    content, renamed. *)
Lemma deepcopy_iso (h : heap) (x y : value) (h' : heap) :
  closed h -> value_ok (List.length h) x ->
  deepcopy x h = Ok y h' ->
  exists m : memo,
    h `prefix_of` h' /\ y = rn m x /\ mapped m x /\
    memo_fresh (List.length h) h' m /\ memo_inj m /\ copy_map h h' m.
Proof.
  intros Hc Hok H. unfold deepcopy in H.
  destruct (deepcopy_rec _ x [] h) as [[y0 m] h1| |] eqn:E; try discriminate.
  injection H as <- <-.
  assert (Hm0 : memo_fresh (List.length h) h []) by (intros l l' [=]).
  destruct (deepcopy_rec_iso h Hc _ _ _ _ _ _ _ (reflexivity h) Hok Hm0
              memo_inj_nil E)
    as (P & _ & F & Inj & Y & M & C).
  exists m. split; [exact P|]. split; [exact Y|]. split; [exact M|].
  split; [exact F|]. split; [exact Inj|].
  intros l l' _ Hs. exact (C l l' eq_refl Hs).
Qed.

(** ** The mapping that [to_dict] returns *)

(** [d.pop(k, None)] on the [_data] of a record, with the store it
    leaves. *)
Lemma pop_step_store (h : heap) (r dl : loc) (kvs : dict) (k : string) :
  is_record h r dl kvs ->
  (do d <- Instance.self_get r "_data"; dict_pop d k) h
  = Ok (popped kvs k) (<[dl := ODict (dict_del kvs k)]> h).
Proof.
  intros Hrec.
  rewrite (bind_ok _ _ _ _ _ (self_get_data _ _ _ _ Hrec)).
  rewrite (dict_pop_record _ _ _ _ (proj2 Hrec)). unfold popped.
  destruct (dict_get kvs k) as [v|] eqn:E; [reflexivity|].
  rewrite (dict_del_absent _ _ E).
  now rewrite (list_insert_id _ _ _ (proj2 Hrec)).
Qed.

Lemma rn_dict_get (m : memo) (kvs : dict) (k : string) :
  dict_get (map (fun kv => (fst kv, rn m (snd kv))) kvs) k
  = match dict_get kvs k with Some v => Some (rn m v) | None => None end.
Proof.
  induction kvs as [|[k' v'] kvs IH]; [reflexivity|]. simpl.
  now destruct (String.eqb k' k).
Qed.

Lemma rn_dict_keys (m : memo) (kvs : dict) :
  dict_keys (map (fun kv => (fst kv, rn m (snd kv))) kvs) = dict_keys kvs.
Proof.
  unfold dict_keys. rewrite map_map. reflexivity.
Qed.

(** [if temp is not None: self._data[k] = temp], with the store it
    leaves. *)
Lemma restore_step_store (h : heap) (r dl : loc) (kvs : dict) (k : string)
    (temp : value) :
  is_record h r dl kvs ->
  (if is_none temp then ret tt
   else do d <- Instance.self_get r "_data"; subscript_set d k temp) h
  = Ok tt (<[dl := ODict (restored kvs k temp)]> h).
Proof.
  intros Hrec. unfold restored. destruct (is_none temp).
  - now rewrite (list_insert_id _ _ _ (proj2 Hrec)).
  - rewrite (bind_ok _ _ _ _ _ (self_get_data _ _ _ _ Hrec)).
    unfold subscript_set, bind, load. now rewrite (proj2 Hrec).
Qed.

Lemma dict_set_absent (kvs : dict) (k : string) (v : value) :
  dict_get kvs k = None -> dict_set kvs k v = kvs ++ [(k, v)].
Proof.
  induction kvs as [|[k' v'] kvs IH]; simpl; [reflexivity|].
  destruct (String.eqb k' k); [discriminate|].
  intros H. now rewrite IH.
Qed.

Lemma dict_get_app (kvs kvs' : dict) (k : string) :
  dict_get (kvs ++ kvs') k
  = match dict_get kvs k with Some v => Some v | None => dict_get kvs' k end.
Proof.
  induction kvs as [|[k' v'] kvs IH]; simpl; [reflexivity|].
  now destruct (String.eqb k' k).
Qed.

(** The fields after [to_dict]: the lineage fields have gone last. *)
Lemma after_to_dict_eq (kvs : dict) :
  after_to_dict kvs
  = without_lineage kvs ++ put_back "parents" (popped kvs "parents")
      ++ put_back "children" (popped kvs "children").
Proof.
  unfold after_to_dict, restored, put_back.
  assert (Wp : dict_get (without_lineage kvs) "parents" = None)
    by now rewrite without_lineage_get.
  assert (Wc : dict_get (without_lineage kvs) "children" = None)
    by now rewrite without_lineage_get.
  destruct (is_none (popped kvs "parents")).
  - destruct (is_none (popped kvs "children")).
    + now rewrite app_nil_r.
    + now rewrite (dict_set_absent _ _ _ Wc).
  - rewrite (dict_set_absent _ _ _ Wp).
    destruct (is_none (popped kvs "children")).
    + now rewrite app_nil_r.
    + rewrite dict_set_absent; [now rewrite <- app_assoc|].
      rewrite dict_get_app, Wc. reflexivity.
Qed.

Lemma popped_ok (n : nat) (kvs : dict) (k : string) :
  Forall (value_ok n) (map snd kvs) -> value_ok n (popped kvs k).
Proof.
  intros H. unfold popped. destruct (dict_get kvs k) as [v|] eqn:E; [|exact I].
  exact (dict_get_ok _ _ _ _ H E).
Qed.

Lemma after_to_dict_ok (n : nat) (kvs : dict) :
  Forall (value_ok n) (map snd kvs) ->
  Forall (value_ok n) (map snd (after_to_dict kvs)).
Proof.
  intros H. rewrite after_to_dict_eq, !map_app, !Forall_app.
  split; [|split].
  - unfold without_lineage, dict_del. now do 2 apply filter_values_ok.
  - unfold put_back. destruct (is_none _); constructor; [|constructor].
    now apply popped_ok.
  - unfold put_back. destruct (is_none _); constructor; [|constructor].
    now apply popped_ok.
Qed.

(** What [to_dict] does on a record of a closed store. *)
Lemma to_dict_run (h : heap) (r dl : loc) (kvs : dict) :
  is_record h r dl kvs -> closed h ->
  exists (dd : loc) (h' : heap) (m : memo),
    Instance.to_dict r h = Ok (VRef dd) h' /\
    (List.length h <= dd)%nat /\
    h' !! dd = Some (ODict (map (fun kv => (fst kv, rn m (snd kv)))
                              (without_lineage kvs))) /\
    (forall k v, dict_get (without_lineage kvs) k = Some v -> mapped m v) /\
    memo_inj m /\
    copy_map (<[dl := ODict (without_lineage kvs)]> h) h' m /\
    is_record h' r dl (after_to_dict kvs) /\
    (forall l, (l < List.length h)%nat -> l <> dl -> h' !! l = h !! l) /\
    closed h'.
Proof.
  intros Hrec Hc. unfold Instance.to_dict.
  pose proof (lookup_lt_Some _ _ _ (proj2 Hrec)) as Ldl.
  rewrite (bind_ok _ _ _ _ _ (pop_step_store h r dl kvs "parents" Hrec)).
  pose proof (is_record_store _ _ _ _ (dict_del kvs "parents") Hrec) as R1.
  rewrite (bind_ok _ _ _ _ _ (pop_step_store _ r dl _ "children" R1)).
  pose proof (is_record_store _ _ _ _
                (dict_del (dict_del kvs "parents") "children") R1) as R2.
  rewrite list_insert_insert_eq in R2 |- *.
  fold (without_lineage kvs) in R2 |- *.
  set (h2 := <[dl := ODict (without_lineage kvs)]> h) in *.
  assert (L2 : List.length h2 = List.length h) by apply length_insert.
  assert (C2 : closed h2).
  { apply closed_store; [exact Hc|]. simpl. unfold without_lineage, dict_del.
    do 2 apply filter_values_ok. exact (record_fields_ok _ _ _ _ Hc Hrec). }
  assert (Hpc : popped (dict_del kvs "parents") "children"
                = popped kvs "children").
  { unfold popped. now rewrite dict_get_del_ne by discriminate. }
  rewrite Hpc. clear Hpc.
  assert (Hok : value_ok (List.length h2) (VRef dl)) by (simpl; lia).
  destruct (deepcopy_total h2 (VRef dl) C2 Hok)
    as (y & h3 & E3 & P3 & C3 & _).
  destruct (deepcopy_iso h2 (VRef dl) y h3 C2 Hok E3)
    as (m & _ & Y & M & F & Inj & CM).
  simpl in Y, M.
  destruct (memo_get m dl) as [dd|] eqn:Edd; [|congruence]. subst y.
  rewrite (bind_ok _ _ h2 h3 (VRef dd))
    by (rewrite (bind_ok _ _ _ _ _ (self_get_data _ _ _ _ R2)); exact E3).
  pose proof (is_record_prefix _ _ _ _ _ R2 P3) as R3.
  rewrite (bind_ok _ _ _ _ _
             (restore_step_store h3 r dl _ "parents" (popped kvs "parents")
                R3)).
  pose proof (is_record_store _ _ _ _
                (restored (without_lineage kvs) "parents"
                   (popped kvs "parents")) R3) as R4.
  rewrite (bind_ok _ _ _ _ _
             (restore_step_store _ r dl _ "children" (popped kvs "children")
                R4)).
  rewrite list_insert_insert_eq. fold (after_to_dict kvs).
  pose proof (is_record_store _ _ _ _ (after_to_dict kvs) R3) as R5.
  set (h5 := <[dl := ODict (after_to_dict kvs)]> h3) in *.
  pose proof (prefix_length _ _ P3) as L3.
  assert (F5 : forall l, l <> dl -> h5 !! l = h3 !! l).
  { intros l Hl. unfold h5. now rewrite list_lookup_insert_ne by congruence. }
  assert (Hdl : (dl < List.length h2)%nat) by lia.
  destruct (CM dl dd Hdl Edd) as (Hdd & o & Ho & Hcopy & Hom).
  rewrite (proj2 R2) in Ho. injection Ho as <-.
  assert (Hkeep : forall l', (List.length h2 <= l')%nat ->
                             h5 !! l' = h3 !! l').
  { intros l' Hl'. now rewrite F5 by lia. }
  exists dd, h5, m. split; [reflexivity|]. split; [lia|].
  split; [rewrite Hkeep by exact Hdd; exact Hcopy|].
  split; [|split; [exact Inj|split; [|split; [|split]]]].
  - intros k v Hk. simpl in Hom.
    apply (proj1 (Forall_forall _ _) Hom).
    clear -Hk. induction (without_lineage kvs) as [|[k' v'] l IH];
      [discriminate|].
    simpl in *. destruct (String.eqb k' k); [injection Hk as ->; now left|].
    right. now apply IH.
  - intros l l' Hl Hs. destruct (CM l l' Hl Hs) as (Hl' & o & Ho & Hco & Hmo).
    split; [exact Hl'|]. exists o. split; [exact Ho|].
    split; [|exact Hmo]. now rewrite Hkeep.
  - exact R5.
  - intros l Hl Hne. rewrite F5 by exact Hne.
    destruct (lookup_lt_is_Some_2 h2 l ltac:(lia)) as [o' Ho'].
    rewrite (prefix_lookup_Some _ _ _ _ Ho' P3).
    rewrite <- Ho'. unfold h2. now rewrite list_lookup_insert_ne by congruence.
  - apply closed_store; [exact C3|]. simpl. apply after_to_dict_ok.
    apply (values_ok_mono (List.length h)); [lia|].
    exact (record_fields_ok _ _ _ _ Hc Hrec).
Qed.



(** ** Calling [to_dict] again *)

Lemma without_lineage_idem (kvs : dict) :
  without_lineage (without_lineage kvs) = without_lineage kvs.
Proof.
  unfold without_lineage, dict_del.
  induction kvs as [|[k v] kvs IH]; [reflexivity|]. simpl.
  destruct (String.eqb k "parents") eqn:Ep; simpl; [exact IH|].
  destruct (String.eqb k "children") eqn:Ec; simpl; [exact IH|].
  rewrite Ep. simpl. rewrite Ec. simpl. now rewrite IH.
Qed.

Lemma without_lineage_put_back (k : string) (v : value) :
  k = "parents" \/ k = "children" -> without_lineage (put_back k v) = [].
Proof.
  intros [-> | ->]; unfold put_back; now destruct (is_none v).
Qed.

Lemma without_lineage_app (kvs kvs' : dict) :
  without_lineage (kvs ++ kvs') = without_lineage kvs ++ without_lineage kvs'.
Proof. unfold without_lineage, dict_del. now rewrite !List.filter_app. Qed.

Lemma without_lineage_after (kvs : dict) :
  without_lineage (after_to_dict kvs) = without_lineage kvs.
Proof.
  rewrite after_to_dict_eq, !without_lineage_app, without_lineage_idem.
  rewrite !without_lineage_put_back by auto. now rewrite !app_nil_r.
Qed.

Lemma popped_after (kvs : dict) (k : string) :
  k = "parents" \/ k = "children" ->
  popped (after_to_dict kvs) k = popped kvs k.
Proof.
  intros Hk. unfold popped at 1.
  rewrite after_to_dict_eq, !dict_get_app, without_lineage_get.
  unfold put_back.
  destruct Hk as [-> | ->]; cbn [String.eqb Ascii.eqb Bool.eqb orb].
  - destruct (is_none (popped kvs "parents")) eqn:E.
    + apply is_none_spec in E. rewrite E.
      now destruct (is_none (popped kvs "children")).
    + reflexivity.
  - destruct (is_none (popped kvs "parents")) eqn:E;
      destruct (is_none (popped kvs "children")) eqn:E'; simpl;
      try reflexivity; apply is_none_spec in E'; now rewrite E'.
Qed.

(** A second [to_dict] leaves the fields as the first left them. *)
Lemma after_to_dict_idem (kvs : dict) :
  after_to_dict (after_to_dict kvs) = after_to_dict kvs.
Proof.
  rewrite (after_to_dict_eq (after_to_dict kvs)).
  rewrite without_lineage_after, !popped_after by auto.
  now rewrite <- after_to_dict_eq.
Qed.



(** ** What [copy] copies deeply *)

(** A copy is true exactly when the original is. *)
Lemma truthy_copy (h h' : heap) (m : memo) (v : value) :
  copy_map h h' m -> value_ok (List.length h) v -> mapped m v ->
  truthy h' (rn m v) = truthy h v.
Proof.
  intros Hcm Hok Hm. destruct v as [| | | |l]; try reflexivity.
  simpl in *. destruct (memo_get m l) as [l'|] eqn:E; [|congruence].
  destruct (Hcm l l' Hok E) as (_ & o & Ho & Ho' & _).
  simpl. rewrite Ho, Ho'.
  destruct o as [[|x xs]|[|kv kvs]|[d|]]; reflexivity.
Qed.

Lemma dict_get_filter (f : string -> bool) (kvs : dict) (k : string) :
  dict_get (List.filter (fun kv => f (fst kv)) kvs) k
  = if f k then dict_get kvs k else None.
Proof.
  induction kvs as [|[k' v'] kvs IH]; simpl; [now destruct (f k)|].
  destruct (f k') eqn:Ef; simpl.
  - destruct (String.eqb k' k) eqn:E; [|exact IH].
    apply String.eqb_eq in E. subst. now rewrite Ef.
  - rewrite IH. destruct (String.eqb k' k) eqn:E; [|reflexivity].
    apply String.eqb_eq in E. subst. now rewrite Ef.
Qed.

Lemma init_choice_ok (h : heap) (tail : list obj) (o : obj) (arg : value) :
  value_ok (List.length h) arg ->
  o = OList [] \/ o = ODict Instance.default_attack_attrs ->
  Forall (fun o => o = OList [] \/ o = ODict Instance.default_attack_attrs)
    tail ->
  Forall (fun o => o = OList [] \/ o = ODict Instance.default_attack_attrs)
    (snd (init_choice h tail o arg)) /\
  (List.length tail <= List.length (snd (init_choice h tail o arg)))%nat /\
  value_ok (List.length h + 2
            + List.length (snd (init_choice h tail o arg))) 
    (fst (init_choice h tail o arg)).
Proof.
  intros Hok Ho Ht. unfold init_choice. destruct (truthy h arg); simpl.
  - split; [exact Ht|]. split; [lia|].
    eapply value_ok_mono; [|exact Hok]. lia.
  - rewrite length_app. simpl. split; [|lia].
    apply Forall_app. split; [exact Ht|]. now constructor.
Qed.

Lemma dict_keys_filter (f : string -> bool) (kvs : dict) :
  dict_keys (List.filter (fun kv => f (fst kv)) kvs)
  = List.filter f (dict_keys kvs).
Proof.
  unfold dict_keys. induction kvs as [|[k v] kvs IH]; [reflexivity|].
  simpl. destruct (f k); simpl; now rewrite IH.
Qed.

Lemma filter_idem {A} (f : A -> bool) (l : list A) :
  List.filter f (List.filter f l) = List.filter f l.
Proof.
  induction l as [|x l IH]; [reflexivity|]. simpl.
  destruct (f x) eqn:E; simpl; [rewrite E; now rewrite IH | exact IH].
Qed.

Lemma dict_get_in_values (kvs : dict) (k : string) (v : value) :
  dict_get kvs k = Some v -> In v (map snd kvs).
Proof.
  induction kvs as [|[k' v'] kvs IH]; [discriminate|]. simpl.
  destruct (String.eqb k' k); [intros [= ->]; now left|].
  intros H. right. now apply IH.
Qed.

(** The ten names the constructor sets are the names that are not
    extra. *)
Lemma clone_names (q p v1 v2 v3 v4 v5 v6 i : value) (k : string) :
  negb (dict_mem
          [ ("query", q); ("jailbreak_prompt", p);
            ("reference_responses", v1); ("target_responses", v2);
            ("eval_results", v3); ("parents", v4); ("children", v5);
            ("index", VNone); ("attack_attrs", v6); ("id", i) ] k)
  = is_extra k.
Proof.
  unfold dict_mem, is_extra. cbn [dict_get existsb fixed_fields app].
  repeat match goal with
         | |- context [String.eqb ?s k] => rewrite (String.eqb_sym s k)
         end.
  repeat match goal with
         | |- context [String.eqb k ?s] =>
           destruct (String.eqb k s); [reflexivity|]
         end.
  reflexivity.
Qed.

(** A copy map taken in a larger store, seen from a store it extends, in
    a store that keeps the copies. *)
Lemma copy_map_weaken (h hE h6 h' : heap) (m : memo) :
  h `prefix_of` hE -> copy_map hE h6 m ->
  (forall l' o, (List.length hE <= l')%nat -> h6 !! l' = Some o ->
                h' !! l' = Some o) ->
  copy_map h h' m.
Proof.
  intros Hp Hcm Hkeep l l' Hl Hs.
  pose proof (prefix_length _ _ Hp) as Len.
  destruct (Hcm l l' ltac:(lia) Hs) as (Hl' & o & Ho & Hc & Hm).
  split; [lia|]. exists o. split; [|split; [|exact Hm]].
  - destruct (lookup_lt_is_Some_2 h l Hl) as [o' Ho'].
    pose proof (prefix_lookup_Some _ _ _ _ Ho' Hp) as Ho''. congruence.
  - now apply Hkeep.
Qed.

(** [copy] on a record that is ready for it, with what the clone holds
    for [attack_attrs] and for the fields the constructor does not set. *)
Lemma copy_run (h : heap) (r dl : loc) (kvs : dict) :
  is_record h r dl kvs -> copy_ready h kvs -> NoDup (dict_keys kvs) ->
  exists (c : loc) (h' : heap) (kvsc : dict) (va : value) (ma mx : memo),
    Instance.copy r h = Ok c h' /\ h `prefix_of` h' /\
    (List.length h <= c)%nat /\ is_record h' c (S c) kvsc /\
    dict_get kvs "attack_attrs" = Some va /\ mapped ma va /\
    memo_inj ma /\ copy_map h h' ma /\
    (truthy h va = true ->
       dict_get kvsc "attack_attrs" = Some (rn ma va)) /\
    (truthy h va = false ->
       exists l, dict_get kvsc "attack_attrs" = Some (VRef l) /\
                 (List.length h <= l)%nat /\
                 h' !! l = Some (ODict Instance.default_attack_attrs)) /\
    memo_inj mx /\ copy_map h h' mx /\
    (forall k, is_extra k = true ->
       match dict_get kvs k with
       | Some v => mapped mx v /\ dict_get kvsc k = Some (rn mx v)
       | None => dict_get kvsc k = None
       end) /\
    dict_keys kvsc
    = fixed_fields ++ ["id"] ++ List.filter is_extra (dict_keys kvs).
Proof.
  intros Hrec (Hcl & (q & qs & Hq & Tq) & (p & ps & Hp & Tp) & Hseq &
               (va & Ha)) Hnd.
  pose proof (record_fields_ok _ _ _ _ Hcl Hrec) as Hvals.
  destruct (Hseq "reference_responses") as (l1 & x1 & F1 & L1);
    [simpl; tauto|].
  destruct (Hseq "target_responses") as (l2 & x2 & F2 & L2); [simpl; tauto|].
  destruct (Hseq "eval_results") as (l3 & x3 & F3 & L3); [simpl; tauto|].
  destruct (Hseq "parents") as (l4 & x4 & F4 & L4); [simpl; tauto|].
  destruct (Hseq "children") as (l5 & x5 & F5 & L5); [simpl; tauto|].
  unfold Instance.copy.
  rewrite (bind_ok _ _ _ _ _
             (self_get_some h r dl kvs Hrec "query" q eq_refl
                ltac:(discriminate) Hq)).
  rewrite (bind_ok _ _ _ _ _
             (self_get_some h r dl kvs Hrec "jailbreak_prompt" p eq_refl
                ltac:(discriminate) Hp)).
  (* the five sequences *)
  rewrite (bind_ok _ _ _ _ _
             (copy_arg_run h r dl kvs "reference_responses" l1 x1 Hrec
                eq_refl ltac:(discriminate) F1 L1)).
  destruct (closed_copy_list h h l1 x1 Hcl ltac:(reflexivity) Hcl L1)
    as [CA PA].
  set (hA := h ++ [OList x1]) in *.
  rewrite (bind_ok _ _ _ _ _
             (copy_arg_run hA r dl kvs "target_responses" l2 x2
                (is_record_prefix _ _ _ _ _ Hrec PA)
                eq_refl ltac:(discriminate) F2
                (prefix_lookup_Some _ _ _ _ L2 PA))).
  destruct (closed_copy_list h hA l2 x2 Hcl PA CA L2) as [CB PB].
  set (hB := hA ++ [OList x2]) in *.
  rewrite (bind_ok _ _ _ _ _
             (copy_arg_run hB r dl kvs "eval_results" l3 x3
                (is_record_prefix _ _ _ _ _ Hrec PB)
                eq_refl ltac:(discriminate) F3
                (prefix_lookup_Some _ _ _ _ L3 PB))).
  destruct (closed_copy_list h hB l3 x3 Hcl PB CB L3) as [CC PC].
  set (hC := hB ++ [OList x3]) in *.
  rewrite (bind_ok _ _ _ _ _
             (list_arg_run hC r dl kvs "parents" l4 x4
                (is_record_prefix _ _ _ _ _ Hrec PC)
                eq_refl ltac:(discriminate) F4
                (prefix_lookup_Some _ _ _ _ L4 PC))).
  destruct (closed_copy_list h hC l4 x4 Hcl PC CC L4) as [CD PD].
  set (hD := hC ++ [OList x4]) in *.
  rewrite (bind_ok _ _ _ _ _
             (list_arg_run hD r dl kvs "children" l5 x5
                (is_record_prefix _ _ _ _ _ Hrec PD)
                eq_refl ltac:(discriminate) F5
                (prefix_lookup_Some _ _ _ _ L5 PD))).
  destruct (closed_copy_list h hD l5 x5 Hcl PD CD L5) as [CE PE].
  set (hE := hD ++ [OList x5]) in *.
  pose proof (prefix_length _ _ PE) as LE.
  assert (LhA : (List.length hA < List.length hE)%nat).
  { unfold hE, hD, hC, hB. rewrite !length_app. simpl. lia. }
  assert (LhB : (List.length hB < List.length hE)%nat).
  { unfold hE, hD, hC. rewrite !length_app. simpl. lia. }
  assert (LhC : (List.length hC < List.length hE)%nat).
  { unfold hE, hD. rewrite !length_app. simpl. lia. }
  assert (LhD : (List.length hD < List.length hE)%nat).
  { unfold hE. rewrite !length_app. simpl. lia. }
  assert (Lh : (List.length h < List.length hE)%nat).
  { unfold hA in LhA. rewrite length_app in LhA. simpl in LhA. lia. }
  (* attack_attrs *)
  pose proof (is_record_prefix _ _ _ _ _ Hrec PE) as RE.
  assert (Vva : value_ok (List.length h) va)
    by exact (dict_get_ok _ _ _ _ Hvals Ha).
  assert (VvaE : value_ok (List.length hE) va)
    by (eapply value_ok_mono; [exact LE | exact Vva]).
  destruct (deepcopy_total hE va CE VvaE) as (a6 & h6 & E6 & P6 & C6 & V6).
  destruct (deepcopy_iso hE va a6 h6 CE VvaE E6)
    as (ma & _ & Ya & Ma & Fa & Ia & CMa).
  rewrite (bind_ok _ _ hE h6 a6).
  2:{ rewrite (bind_ok _ _ _ _ _
                 (self_get_some hE r dl kvs RE "attack_attrs" va eq_refl
                    ltac:(discriminate) Ha)).
      exact E6. }
  pose proof (prefix_length _ _ P6) as L6.
  assert (Ta : truthy h6 a6 = truthy h va).
  { rewrite Ya, (truthy_copy hE h6 ma va CMa VvaE Ma).
    now apply truthy_prefix. }
  (* the constructor *)
  match goal with |- context [Instance.new ?a0] => set (a := a0) end.
  assert (Hargs : args_ok h6 a).
  { split; [|exact V6]. unfold sequence_args, a. simpl.
    repeat (constructor; [simpl; lia|]). constructor. }
  pose proof (new_exact a h6 qs ps eq_refl Hargs Tq Tp) as Hnew.
  cbv zeta in Hnew.
  set (c1 := init_choice h6 [] (OList []) (a_reference_responses a)) in *.
  set (c2 := init_choice h6 (snd c1) (OList []) (a_target_responses a)) in *.
  set (c3 := init_choice h6 (snd c2) (OList []) (a_eval_results a)) in *.
  set (c4 := init_choice h6 (snd c3) (OList []) (a_parents a)) in *.
  set (c5 := init_choice h6 (snd c4) (OList []) (a_children a)) in *.
  set (c6 := init_choice h6 (snd c5) (ODict Instance.default_attack_attrs)
               (a_attack_attrs a)) in *.
  rewrite (bind_ok _ _ _ _ _ Hnew). clear Hnew.
  remember (id_of qs ps) as i eqn:Ei.
  match goal with |- context [record_at h6 ?k (snd c6)] =>
    remember k as kvs7 eqn:E7 end.
  unfold init_fields in E7. simpl in E7.
  (* the store with the clone is closed *)
  assert (D0 : Forall (fun o => o = OList [] \/
                          o = ODict Instance.default_attack_attrs) [])
    by constructor.
  destruct (init_choice_ok h6 [] (OList []) (a_reference_responses a)
              ltac:(simpl; lia) ltac:(now left) D0) as (D1 & N1 & V1).
  fold c1 in D1, N1, V1.
  destruct (init_choice_ok h6 (snd c1) (OList []) (a_target_responses a)
              ltac:(simpl; lia) ltac:(now left) D1) as (D2 & N2 & V2).
  fold c2 in D2, N2, V2.
  destruct (init_choice_ok h6 (snd c2) (OList []) (a_eval_results a)
              ltac:(simpl; lia) ltac:(now left) D2) as (D3 & N3 & V3).
  fold c3 in D3, N3, V3.
  destruct (init_choice_ok h6 (snd c3) (OList []) (a_parents a)
              ltac:(simpl; lia) ltac:(now left) D3) as (D4 & N4 & V4).
  fold c4 in D4, N4, V4.
  destruct (init_choice_ok h6 (snd c4) (OList []) (a_children a)
              ltac:(simpl; lia) ltac:(now left) D4) as (D5 & N5 & V5).
  fold c5 in D5, N5, V5.
  destruct (init_choice_ok h6 (snd c5) (ODict Instance.default_attack_attrs)
              (a_attack_attrs a) V6 ltac:(now right) D5) as (D6 & N6 & V6').
  fold c6 in D6, N6, V6'.
  set (h7 := record_at h6 kvs7 (snd c6)).
  assert (P7 : h `prefix_of` h7).
  { transitivity hE; [exact PE|]. transitivity h6; [exact P6|].
    apply record_at_prefix. }
  pose proof (is_record_prefix _ _ _ _ _ Hrec P7) as Rr7.
  pose proof (record_at_is_record h6 kvs7 (snd c6)) as Rc7. fold h7 in Rc7.
  assert (C7 : closed h7).
  { apply closed_record_at; [exact C6| |exact D6].
    rewrite E7. simpl.
    repeat (constructor; [|]); try constructor; try exact I;
      try (eapply text_ok; eassumption);
      try (eapply value_ok_mono; [|eassumption]; lia).
    now rewrite Ei. }
  (* rest_data *)
  assert (Hmem : forall k, negb (dict_mem kvs7 k) = is_extra k).
  { intros k. rewrite E7. apply clone_names. }
  assert (Hrest : List.filter (fun kv => negb (dict_mem kvs7 (fst kv))) kvs
                  = List.filter (fun kv => is_extra (fst kv)) kvs).
  { apply filter_ext. intros kv. apply Hmem. }
  rewrite (bind_ok _ _ h7
             (h7 ++ [ODict (List.filter (fun kv => is_extra (fst kv)) kvs)])
             (VRef (List.length h7))).
  2:{ rewrite (bind_ok _ _ _ _ _ (self_get_data _ _ _ _ Rr7)).
      rewrite (bind_ok _ _ _ _ _ (as_dict_ok _ _ _ (proj2 Rr7))).
      cbv beta iota.
      rewrite (bind_ok _ _ _ _ _ (self_get_data _ _ _ _ Rc7)).
      rewrite (bind_ok _ _ _ _ _ (as_dict_ok _ _ _ (proj2 Rc7))).
      cbv beta iota. now rewrite Hrest. }
  clear Hrest.
  set (rest := List.filter (fun kv => is_extra (fst kv)) kvs).
  set (h8 := h7 ++ [ODict rest]).
  assert (P8 : h7 `prefix_of` h8) by now apply prefix_app_r.
  pose proof (prefix_length _ _ P7) as L7.
  assert (L8 : List.length h8 = S (List.length h7)).
  { unfold h8. rewrite length_app. simpl. lia. }
  assert (C8 : closed h8).
  { apply closed_alloc; [exact C7|]. simpl. apply filter_values_ok.
    eapply values_ok_mono; [|exact Hvals]. lia. }
  pose proof (is_record_prefix _ _ _ _ _ Rc7 P8) as Rc8.
  assert (L76 : (S (List.length h6) < List.length h7)%nat).
  { unfold h7. rewrite record_at_length. lia. }
  (* the update *)
  assert (V8 : value_ok (List.length h8) (VRef (List.length h7)))
    by (simpl; lia).
  destruct (deepcopy_total h8 (VRef (List.length h7)) C8 V8)
    as (cpy & h9 & E9 & P9 & C9 & V9).
  destruct (deepcopy_iso h8 _ cpy h9 C8 V8 E9)
    as (mx & _ & Yx & Mx & Fx & Ix & CMx).
  simpl in Yx, Mx.
  destruct (memo_get mx (List.length h7)) as [y'|] eqn:Ey; [|congruence].
  subst cpy.
  destruct (CMx (List.length h7) y' ltac:(lia) Ey) as (Ly & o & Ho & Hy' & Hom).
  unfold h8 in Ho. rewrite list_lookup_middle in Ho by reflexivity.
  injection Ho as <-. simpl in Hy', Hom.
  set (rest' := map (fun kv => (fst kv, rn mx (snd kv))) rest) in *.
  pose proof (is_record_prefix _ _ _ _ _ Rc8 P9) as Rc9.
  set (kvsc := dict_update kvs7 rest').
  set (h' := <[S (List.length h6) := ODict kvsc]> h9).
  assert (Hcopy : (do d' <- Instance.self_get (List.length h6) "_data";
                   do c0 <- deepcopy (VRef (List.length h7));
                   update_method d' c0) h8 = Ok tt h').
  { rewrite (bind_ok _ _ _ _ _ (self_get_data _ _ _ _ Rc8)).
    rewrite (bind_ok _ _ _ _ _ E9).
    unfold update_method.
    rewrite (bind_ok _ _ _ _ _ (as_dict_ok _ _ _ (proj2 Rc9))).
    cbv beta iota.
    rewrite (bind_ok _ _ _ _ _ (as_dict_ok _ _ _ Hy')).
    reflexivity. }
  rewrite (bind_ok _ _ _ _ _ Hcopy).
  (* the clone *)
  pose proof (prefix_length _ _ P9) as L9.
  assert (P69 : h6 `prefix_of` h9).
  { transitivity h7; [apply record_at_prefix|]. now transitivity h8. }
  assert (P79 : h7 `prefix_of` h9) by now transitivity h8.
  assert (Hkeep : forall l' o, l' <> S (List.length h6) ->
                    h9 !! l' = Some o -> h' !! l' = Some o).
  { intros l' o0 Hne Hl'. unfold h'.
    now rewrite list_lookup_insert_ne by congruence. }
  assert (Hnd' : NoDup (dict_keys rest')).
  { unfold rest'. rewrite rn_dict_keys. unfold rest.
    rewrite dict_keys_filter. apply NoDup_ListNoDup.
    apply List.NoDup_filter. now apply NoDup_ListNoDup. }
  assert (Hfixed : forall k, is_extra k = false ->
                             dict_get kvsc k = dict_get kvs7 k).
  { intros k Hk. unfold kvsc. apply dict_get_update.
    unfold rest', rest. now rewrite rn_dict_get, dict_get_filter, Hk. }
  exists (List.length h6), h', kvsc, va, ma, mx.
  split; [reflexivity|].
  split; [|split; [lia|split; [exact (is_record_store _ _ _ _ kvsc Rc9)|]]].
  { apply prefix_store; [now transitivity h7 | lia]. }
  split; [exact Ha|]. split; [exact Ma|]. split; [exact Ia|].
  split; [|split; [|split; [|split; [exact Ix|split; [|split]]]]].
  - apply (copy_map_weaken h hE h6 h' ma PE CMa).
    intros l' o0 Hl' Ho0. apply Hkeep.
    + pose proof (lookup_lt_Some _ _ _ Ho0). lia.
    + eapply prefix_lookup_Some; eassumption.
  - intros Ht. rewrite Hfixed by reflexivity. rewrite E7. simpl.
    rewrite <- Ta in Ht.
    destruct (init_choice_facts h6 (snd c5)
                (ODict Instance.default_attack_attrs) a6) as (_ & Hc & _).
    fold c6 in Hc. unfold c6 at 1. cbn [a_attack_attrs a].
    rewrite (Hc Ht). now rewrite Ya.
  - intros Ht. rewrite Hfixed by reflexivity. rewrite E7. simpl.
    rewrite <- Ta in Ht.
    destruct (init_choice_facts h6 (snd c5)
                (ODict Instance.default_attack_attrs) a6) as (_ & _ & Hc).
    destruct (Hc Ht) as (Hv & Hlen & Hlook).
    exists (List.length h6 + 2 + List.length (snd c5))%nat.
    split; [unfold c6; cbn [a_attack_attrs a]; now rewrite Hv|].
    split; [lia|].
    apply Hkeep; [lia|].
    eapply prefix_lookup_Some; [|exact P79].
    unfold h7. rewrite record_at_tail. exact Hlook.
  - apply (copy_map_weaken h h8 h9 h' mx); [now transitivity h7|exact CMx|].
    intros l' o0 Hl' Ho0. apply Hkeep; [lia | exact Ho0].
  - intros k Hk.
    assert (H7 : dict_get kvs7 k = None).
    { specialize (Hmem k). rewrite Hk in Hmem. unfold dict_mem in Hmem.
      now destruct (dict_get kvs7 k). }
    assert (Hr : dict_get rest' k
                 = match dict_get kvs k with
                   | Some v => Some (rn mx v)
                   | None => None
                   end).
    { unfold rest', rest. now rewrite rn_dict_get, dict_get_filter, Hk. }
    unfold kvsc. rewrite (dict_get_update_in _ _ _ Hnd'), Hr, H7.
    destruct (dict_get kvs k) as [v|] eqn:Ek; [|reflexivity].
    split; [|reflexivity].
    apply (proj1 (List.Forall_forall _ _) Hom).
    apply (dict_get_in_values rest k). unfold rest.
    now rewrite dict_get_filter, Hk.
  - unfold kvsc. rewrite (dict_keys_update _ _ Hnd').
    unfold rest'. rewrite rn_dict_keys. unfold rest.
    rewrite dict_keys_filter.
    rewrite (filter_ext _ _ Hmem), filter_idem.
    rewrite E7. reflexivity.
Qed.

Lemma extras_is_record : is_record extras_heap 2 3 extras_fields.
Proof. split; reflexivity. Qed.

Lemma extras_copy_ready : copy_ready extras_heap extras_fields.
Proof.
  split; [|split; [|split; [|split]]].
  - unfold closed. set (hh := extras_heap). vm_compute in hh. subst hh.
    cbn [List.length].
    repeat (constructor; [simpl; repeat constructor; try lia|]).
    constructor.
  - exists (VStr "q"), "q". split; vm_compute; reflexivity.
  - exists (VStr "p"), "p". split; vm_compute; reflexivity.
  - intros f Hf. simpl in Hf.
    destruct Hf as [<-|[<-|[<-|[<-|[<-|[]]]]]]; eexists _, _;
      split; vm_compute; reflexivity.
  - eexists. vm_compute. reflexivity.
Qed.

Lemma extras_nodup : NoDup (dict_keys extras_fields).
Proof.
  set (ks := dict_keys extras_fields). vm_compute in ks. subst ks.
  apply NoDup_ListNoDup. repeat constructor; simpl;
    intros H; repeat destruct H as [H|H]; try discriminate H; exact H.
Qed.





(** ** [copy] on a record that lacks a field *)

Lemma read_ok_seq (h hc : heap) (kvs : dict) (g : string) :
  read_ok h kvs g -> In g sequence_fields -> h `prefix_of` hc ->
  exists l xs, dict_get kvs g = Some (VRef l) /\ hc !! l = Some (OList xs).
Proof.
  intros (v & Hv & Hs) Hin Hp. destruct (Hs Hin) as (l & xs & -> & Hl).
  exists l, xs. split; [exact Hv|]. eapply prefix_lookup_Some; eassumption.
Qed.

Lemma copy_step_raise (hc : heap) (r dl : loc) (kvs : dict) (f : string)
    (k : value -> M value) :
  is_record hc r dl kvs -> Instance.is_member f = false -> f <> "_data" ->
  dict_get kvs f = None ->
  (do v <- Instance.self_get r f; k v) hc = Raise AttributeError hc.
Proof.
  intros Hrec Hm Hf Hk. apply bind_raise.
  now apply (self_get_none hc r dl kvs).
Qed.



(** ** Enumerating a record *)

Lemma dict_get_in (kvs : dict) (k : string) (v : value) :
  NoDup (dict_keys kvs) -> In (k, v) kvs -> dict_get kvs k = Some v.
Proof.
  induction kvs as [|[k' v'] kvs IH]; intros Hnd Hin; [destruct Hin|].
  simpl in Hnd. apply NoDup_cons in Hnd as [Hk Hnd]. simpl.
  destruct Hin as [[= -> ->]|Hin].
  - now rewrite String.eqb_refl.
  - destruct (String.eqb k' k) eqn:E; [|now apply IH].
    apply String.eqb_eq in E. subst k'. exfalso. apply Hk.
    apply list_elem_of_In. unfold dict_keys.
    apply in_map_iff. now exists (k, v).
Qed.

Lemma combine_fst_snd {A B} (l : list (A * B)) :
  combine (map fst l) (map snd l) = l.
Proof. induction l as [|[a b] l IH]; [reflexivity|]. simpl. now rewrite IH. Qed.

(** X17.  The four enumerations of a record agree.  On a record with
    fields of distinct names, [keys()], [values()], [items()] and
    iteration return and leave the store as it is; iteration gives the
    keys, [items()] pairs the keys with the values in order, every pair
    [(k, v)] of [items()] has [r[k] = v], and a name that [keys()] does
    not list is not readable. *)
Theorem enumerations_agree (h : heap) (r dl : loc) (kvs : dict) :
  is_record h r dl kvs -> NoDup (dict_keys kvs) ->
  exists (ks : list string) (vs : list value),
    Instance.keys r h = Ok ks h /\
    Instance.values r h = Ok vs h /\
    Instance.items r h = Ok (combine ks vs) h /\
    Instance.__iter__ r h = Ok ks h /\
    Instance.py_iter (VRef r) h = Ok (map VStr ks) h /\
    List.length ks = List.length vs /\
    (forall k v, In (k, v) (combine ks vs) ->
       Instance.__getitem__ r k h = Ok v h) /\
    (forall k, ~ In k ks ->
       Instance.__getitem__ r k h = Raise AttributeError h).
Proof.
  intros Hrec Hnd.
  destruct (keys_record h r dl kvs Hrec) as (Hk & Hv & Hi).
  exists (map fst kvs), (map snd kvs). rewrite combine_fst_snd.
  split; [exact Hk|]. split; [exact Hv|]. split; [exact Hi|].
  split; [exact Hk|]. split; [|split; [|split]].
  - unfold Instance.py_iter, bind, load. rewrite (proj1 Hrec).
    unfold Instance.__iter__. fold (bind (Instance.keys r)
      (fun ks => ret (map VStr ks)) h).
    now rewrite (bind_ok _ _ _ _ _ Hk).
  - now rewrite !length_map.
  - intros k v Hin. apply (getitem_record _ _ _ _ _ _ Hrec).
    now apply dict_get_in.
  - intros k Hin. unfold Instance.__getitem__.
    rewrite (getattr_record _ _ _ _ Hrec).
    apply dict_get_keys in Hin. now rewrite Hin.
Qed.

Lemma enumerations_agree_witness :
  is_record extras_heap 2 3 extras_fields /\
  NoDup (dict_keys extras_fields) /\
  exists (ks : list string) (vs : list value),
    Instance.keys 2 extras_heap = Ok ks extras_heap /\
    Instance.values 2 extras_heap = Ok vs extras_heap /\
    Instance.items 2 extras_heap = Ok (combine ks vs) extras_heap /\
    List.length ks = List.length vs.
Proof.
  split; [exact extras_is_record|]. split; [exact extras_nodup|].
  destruct (enumerations_agree extras_heap 2%nat 3%nat extras_fields
              extras_is_record extras_nodup)
    as (ks & vs & Hk & Hv & Hi & _ & _ & Hl & _).
  exists ks, vs. split; [exact Hk|]. split; [exact Hv|].
  split; [exact Hi | exact Hl].
Defined.

(** ** An object whose [_data] is not set *)

Lemma getattr_bare (h : heap) (r : loc) (n : string) :
  h !! r = Some (OInst None) ->
  Instance.__getattr__ r n h = Raise AttributeError h.
Proof. intros Hr. unfold Instance.__getattr__, bind, load. now rewrite Hr. Qed.

Lemma self_get_bare (h : heap) (r : loc) (n : string) :
  h !! r = Some (OInst None) -> Instance.is_member n = false ->
  Instance.self_get r n h = Raise AttributeError h.
Proof.
  intros Hr Hm. unfold Instance.self_get, Instance.getattribute_plain.
  rewrite Hm. apply bind_raise. unfold bind at 1, load. rewrite Hr.
  apply bind_raise. now apply getattr_bare.
Qed.



(** ** Linking two records *)

Lemma closed_append (h : heap) (l : loc) (xs : list value) (x : loc) :
  closed h -> h !! l = Some (OList xs) -> (x < List.length h)%nat ->
  closed (<[l := OList (xs ++ [VRef x])]> h).
Proof.
  intros Hc Hl Hx. apply closed_store; [exact Hc|]. simpl.
  apply Forall_app. split; [exact (closed_lookup _ _ _ Hc Hl)|].
  constructor; [exact Hx | constructor].
Qed.

Lemma is_record_list_store (h : heap) (r dl : loc) (kvs : dict) (l : loc)
    (xs ys : list value) :
  is_record h r dl kvs -> h !! l = Some (OList xs) ->
  is_record (<[l := OList ys]> h) r dl kvs.
Proof.
  intros [Hr Hd] Hl.
  split; rewrite list_lookup_insert_ne by congruence; assumption.
Qed.

(** A lineage field that is not [None] is there after [to_dict]. *)
Lemma after_to_dict_lineage (kvs : dict) (k : string) (v : value) :
  k = "parents" \/ k = "children" ->
  dict_get kvs k = Some v -> is_none v = false ->
  dict_get (after_to_dict kvs) k = Some v.
Proof.
  intros Hk Hv Hn. rewrite after_to_dict_eq, !dict_get_app.
  rewrite without_lineage_get. unfold put_back, popped.
  destruct Hk as [-> | ->]; rewrite Hv, Hn;
    cbn [String.eqb Ascii.eqb Bool.eqb orb dict_get]; [reflexivity|].
  destruct (dict_get kvs "parents") as [vp|]; [|reflexivity].
  destruct (is_none vp); reflexivity.
Qed.


